(** * SOM monitor: the measurement and analysis pipeline

    A shallow embedding of the Python sources
    [analyzer.py], [models.py], [monitor.py], [confidence_intervals.py],
    [theme_analyzer.py] and [storage.py], and the properties of the
    specification that are checked against them.

    Conventions of the embedding.
    - A Python [str] is a [string]; characters are the 7-bit ASCII range
      (the brand lists, attribute vocabulary and message templates of the
      sources are ASCII up to a few icons that are carried as opaque bytes).
    - A Python [int] is a [Z].
    - A [dict] is an association list in insertion order, see [Dict].
    - A lookup [d[k]] on a missing key raises [KeyError]: fallible code
      returns a [result].
    - A quotient of two integers is an exact rational ([PyList.div]);
      scores and series values are rationals or [NaN] ([PyFloat]); the
      Wilson interval, where one rounding decides the order of two numbers,
      is computed on IEEE 754 binary64 values ([Binary64]).
    - Functions of SciPy, pandas and the format mini-language are
      parameters of the sections that call them. *)

From Stdlib Require Import List String Ascii ZArith QArith Qabs Bool Lia Arith.
From Stdlib Require Import DecimalString PrimFloat Uint63 FloatAxioms.
From Stdlib Require Import Reals Lra Psatz.
From Stdlib Require Import Permutation Sorted.
Import ListNotations.

Local Open Scope string_scope.
Local Open Scope Z_scope.

(** ** Python string primitives *)

Module PyStr.

(** [c.lower()] on one ASCII character. *)
Definition lower_char (c : ascii) : ascii :=
  let n := nat_of_ascii c in
  if (andb (Nat.leb 65 n) (Nat.leb n 90)) then ascii_of_nat (n + 32) else c.

(** [s.lower()] *)
Fixpoint lower (s : string) : string :=
  match s with
  | EmptyString => EmptyString
  | String c s' => String (lower_char c) (lower s')
  end.

(** [len(s)] *)
Definition len (s : string) : Z := Z.of_nat (String.length s).

(** [s.startswith(p)] *)
Definition startswith (s p : string) : bool := String.prefix p s.

(** [sub in s] *)
Fixpoint contains (sub s : string) : bool :=
  startswith s sub
  || match s with
     | EmptyString => false
     | String _ s' => contains sub s'
     end.

(** [s.find(sub)] scanning from offset [i] of the original string:
    the lowest index at which [sub] occurs, [-1] when there is none. *)
Fixpoint find_from (sub s : string) (i : Z) : Z :=
  if startswith s sub then i
  else match s with
       | EmptyString => -1
       | String _ s' => find_from sub s' (i + 1)
       end.

Definition find (s sub : string) : Z := find_from sub s 0.

(** [s.count(sub)] for a non-empty [sub]: occurrences are counted left to
    right without overlap, so after a match the scan resumes behind it;
    [skip] is the number of characters of the last match still to pass. *)
Fixpoint count_from (sub s : string) (skip : nat) : Z :=
  match s with
  | EmptyString => 0
  | String _ s' =>
      match skip with
      | S k => count_from sub s' k
      | O => if startswith s sub
             then 1 + count_from sub s' (String.length sub - 1)
             else count_from sub s' 0
      end
  end.

(** [s.count(sub)]; the empty string occurs between any two characters
    and at both ends, [len(s) + 1] times. *)
Definition count (s sub : string) : Z :=
  match sub with
  | EmptyString => len s + 1
  | String _ _ => count_from sub s 0
  end.

(** [s[i:]] for [0 <= i] *)
Fixpoint drop (i : nat) (s : string) : string :=
  match i, s with
  | O, _ => s
  | S _, EmptyString => EmptyString
  | S k, String _ s' => drop k s'
  end.

(** [sub] occurs in [s] at index [i]: [s[i:i+len(sub)] == sub]. *)
Definition occurs_at (sub s : string) (i : nat) : Prop :=
  (i <= String.length s)%nat /\ startswith (drop i s) sub = true.

(** [i] is the first index at which [sub] occurs in [s]. *)
Definition first_index (sub s : string) (i : nat) : Prop :=
  occurs_at sub s i /\ forall j, (j < i)%nat -> ~ occurs_at sub s j.

End PyStr.

(** ** Dictionaries

  A Python [dict] keeps its keys in insertion order; assigning to a key
  that is present replaces the value in place. *)

Module Dict.

Definition dict (V : Type) : Type := list (string * V).

Definition empty {V} : dict V := [].

(** [d.get(k)]; [None] when [k not in d]. *)
Fixpoint get {V} (k : string) (d : dict V) : option V :=
  match d with
  | [] => None
  | (k', v) :: d' => if String.eqb k k' then Some v else get k d'
  end.

(** [k in d] *)
Definition has {V} (k : string) (d : dict V) : bool :=
  match get k d with Some _ => true | None => false end.

(** [d[k] = v] *)
Fixpoint set {V} (k : string) (v : V) (d : dict V) : dict V :=
  match d with
  | [] => [(k, v)]
  | (k', v') :: d' =>
      if String.eqb k k' then (k', v) :: d' else (k', v') :: set k v d'
  end.

End Dict.

Import Dict.

(** ** models.py *)

Record BrandMention : Type := mkBrandMention {
  mentioned : bool;
  first_position : option Z;
  count : Z
}.

Record QueryResult : Type := mkQueryResult {
  timestamp : string;
  category : string;
  query : string;
  run : Z;
  model : string;
  provider : string;
  response : string;
  mentions : dict BrandMention;
  mention_order : list string;
  total_mentioned : Z
}.

Record SOMMetrics : Type := mkSOMMetrics {
  brand : string;
  mention_rate : Q;
  first_mention_rate : Q;
  avg_position : option Q;
  total_mentions : Z;
  total_queries : Z
}.

(** ** analyzer.py *)

Module ResponseAnalyzer.

(** The body of the loop of [extract_mentions] for one brand. *)
Definition mention_of (text_lower brand : string) : BrandMention :=
  let brand_lower := PyStr.lower brand in
  if PyStr.contains brand_lower text_lower then
    let first_pos := PyStr.find text_lower brand_lower in
    let count := PyStr.count text_lower brand_lower in
    mkBrandMention true (Some first_pos) count
  else
    mkBrandMention false None 0.

Definition extract_mentions (brands : list string) (text : string)
  : dict BrandMention :=
  let text_lower := PyStr.lower text in
  fold_left
    (fun mentions brand => Dict.set brand (mention_of text_lower brand) mentions)
    brands Dict.empty.

End ResponseAnalyzer.

(** ** Exceptions

    [d[k]] on a missing key raises [KeyError]; [l.index(x)] on a missing
    element raises [ValueError]; an operation on a value of the wrong type
    raises [TypeError]; a method call on a value that has no such method
    raises [AttributeError]; [json.load] on a file that is not JSON raises
    [JSONDecodeError]; [pd.read_csv] raises [EmptyDataError] on a file
    without data and [ParserError] on one that is not a table. An exception
    aborts the running operation. *)

Inductive exn : Type :=
| KeyError (k : string)
| ValueError (x : string)
| TypeError
| AttributeError
| JSONDecodeError
| EmptyDataError
| ParserError.

Inductive result (A : Type) : Type :=
| Ok (a : A)
| Raise (e : exn).

Arguments Ok {A} a.
Arguments Raise {A} e.

Definition bind {A B} (m : result A) (f : A -> result B) : result B :=
  match m with
  | Ok a => f a
  | Raise e => Raise e
  end.

Notation "x <- m ;; k" := (bind m (fun x => k))
  (at level 61, m at next level, right associativity).

(** [d[k]] *)
Definition subscript {V} (d : dict V) (k : string) : result V :=
  match Dict.get k d with
  | Some v => Ok v
  | None => Raise (KeyError k)
  end.

(** A loop [for x in l: acc = body(acc, x)] whose body may raise. *)
Fixpoint for_each {A S} (body : S -> A -> result S) (l : list A) (acc : S)
  : result S :=
  match l with
  | [] => Ok acc
  | x :: l' => acc' <- body acc x ;; for_each body l' acc'
  end.

(** ** Python list and number primitives *)

Module PyList.

(** [x in l] for a list of strings *)
Definition contains (x : string) (l : list string) : bool :=
  existsb (String.eqb x) l.

Fixpoint index_from (x : string) (l : list string) (i : Z) : result Z :=
  match l with
  | [] => Raise (ValueError x)
  | y :: l' => if String.eqb y x then Ok i else index_from x l' (i + 1)
  end.

(** [l.index(x)] *)
Definition index (l : list string) (x : string) : result Z :=
  index_from x l 0.

(** [sum(1 for r in l if p(r))], where the condition may raise *)
Fixpoint count_where {A} (p : A -> result bool) (l : list A) : result Z :=
  match l with
  | [] => Ok 0
  | r :: l' =>
      b <- p r ;;
      n <- count_where p l' ;;
      Ok ((if b then 1 else 0) + n)
  end.

(** [sum(l)] for a list of integers *)
Definition sum (l : list Z) : Z := fold_left Z.add l 0.

(** [len(l)] *)
Definition len {A} (l : list A) : Z := Z.of_nat (List.length l).

(** [a / b] for integers with [b <> 0]: true division. The quotient is
    kept exact; the [float] that Python returns is this rational rounded to
    the nearest binary64 value, and the rounding is monotone. *)
Definition div (a b : Z) : Q := (inject_Z a / inject_Z b)%Q.

End PyList.

(** ** monitor.py *)

Module SOMMonitor.

(** [brand in r.mentions and r.mentions[brand].mentioned] *)
Definition counts_as_mention (brand : string) (r : QueryResult) : result bool :=
  if Dict.has brand (mentions r)
  then bm <- subscript (mentions r) brand ;; Ok (mentioned bm)
  else Ok false.

(** The loop that collects [positions] for one brand. *)
Definition collect_position (brand : string) (positions : list Z)
    (r : QueryResult) : result (list Z) :=
  if PyList.contains brand (mention_order r)
  then pos0 <- PyList.index (mention_order r) brand ;;
       Ok (positions ++ [pos0 + 1])%list
  else Ok positions.

(** [r.mention_order and r.mention_order[0] == brand] *)
Definition is_first_mention (brand : string) (r : QueryResult) : result bool :=
  match mention_order r with
  | [] => Ok false
  | first :: _ => Ok (String.eqb first brand)
  end.

(** The body of the loop over [self.brands]. *)
Definition som_for_brand (results : list QueryResult) (total_queries : Z)
    (som_metrics : dict SOMMetrics) (brand : string)
  : result (dict SOMMetrics) :=
  mentions <- PyList.count_where (counts_as_mention brand) results ;;
  let mention_rate := PyList.div mentions total_queries in
  positions <- for_each (collect_position brand) results [] ;;
  let avg_position :=
    match positions with
    | [] => None
    | _ :: _ => Some (PyList.div (PyList.sum positions) (PyList.len positions))
    end in
  first_mentions <- PyList.count_where (is_first_mention brand) results ;;
  let first_mention_rate := PyList.div first_mentions total_queries in
  Ok (Dict.set brand
        (mkSOMMetrics brand mention_rate first_mention_rate avg_position
                      mentions total_queries)
        som_metrics).

(** [SOMMonitor.calculate_som] for a monitor tracking [brands]. *)
Definition calculate_som (brands : list string) (results : list QueryResult)
  : result (dict SOMMetrics) :=
  match results with
  | [] => Ok Dict.empty
  | _ :: _ =>
      let total_queries := PyList.len results in
      for_each (som_for_brand results total_queries) brands Dict.empty
  end.

End SOMMonitor.

(** *** Vocabulary of the claims about [calculate_som] *)

(** Record [r] mentions brand [b]: its [mentions] mapping binds [b] to a
    mention flagged [mentioned]. A record without the key does not. *)
Definition mentions_brand (b : string) (r : QueryResult) : bool :=
  match Dict.get b (mentions r) with
  | Some bm => mentioned bm
  | None => false
  end.

(** The number of records of [results] that mention [b]. *)
Definition mention_total (b : string) (results : list QueryResult) : Z :=
  Z.of_nat (List.length (filter (mentions_brand b) results)).

(** Brand [b] is the first element of [r.mention_order]. *)
Definition first_mentioned (b : string) (r : QueryResult) : Prop :=
  hd_error (mention_order r) = Some b.

(** The invariant of [QueryResult]: [mention_order] holds exactly the brands
    whose [BrandMention] is flagged [mentioned]. *)
Definition order_invariant (r : QueryResult) : Prop :=
  forall b, In b (mention_order r) <-> mentions_brand b r = true.

(** [r.mention_order and r.mention_order[0] == brand] as a boolean. *)
Definition first_is (b : string) (r : QueryResult) : bool :=
  match mention_order r with
  | [] => false
  | x :: _ => String.eqb x b
  end.


(** What [calculate_som] binds a tracked brand to. *)
Definition som_of (results : list QueryResult) (b : string) (sm : SOMMetrics)
  : Prop :=
  brand sm = b
  /\ mention_rate sm
     = PyList.div (mention_total b results) (PyList.len results)
  /\ first_mention_rate sm
     = PyList.div (Z.of_nat (List.length (filter (first_is b) results)))
                  (PyList.len results)
  /\ total_mentions sm = mention_total b results
  /\ total_queries sm = PyList.len results.


(** The two records of the repository's unit test
    [test_calculate_som_with_results]. *)
Definition test_results : list QueryResult :=
  [ mkQueryResult "2024-01-01T00:00:00" "general" "Test query 1" 0 "gpt-4o"
      "openai" "OpenAI and Anthropic"
      [("OpenAI", mkBrandMention true (Some 0) 1);
       ("Anthropic", mkBrandMention true (Some 10) 1)]
      ["OpenAI"; "Anthropic"] 2;
    mkQueryResult "2024-01-01T00:00:01" "general" "Test query 2" 0 "gpt-4o"
      "openai" "Anthropic is great"
      [("OpenAI", mkBrandMention false None 0);
       ("Anthropic", mkBrandMention true (Some 0) 1)]
      ["Anthropic"] 1 ].

(** ** Floating-point values up to rounding

    Scores, gaps and series values are Python [float]s. Where a claim
    does not turn on rounding, a float is a rational or [NaN]: arithmetic on
    finite values is exact, any operation on [NaN] gives [NaN], and every
    comparison with [NaN] is false. Infinities are not modelled. *)

Module PyFloat.

Inductive t : Type :=
| Fin (q : Q)
| NaN.

Definition gt (a b : t) : bool :=
  match a, b with
  | Fin x, Fin y => negb (Qle_bool x y)
  | _, _ => false
  end.

Definition lt (a b : t) : bool := gt b a.

Definition add (a b : t) : t :=
  match a, b with
  | Fin x, Fin y => Fin (x + y)
  | _, _ => NaN
  end.

Definition sub (a b : t) : t :=
  match a, b with
  | Fin x, Fin y => Fin (x - y)
  | _, _ => NaN
  end.

Definition mul (a b : t) : t :=
  match a, b with
  | Fin x, Fin y => Fin (x * y)
  | _, _ => NaN
  end.

Definition abs (a : t) : t :=
  match a with
  | Fin x => Fin (Qabs x)
  | NaN => NaN
  end.

(** [np.mean(l)]: the sum over the length; the mean of an empty list is
    [nan] (NumPy warns "Mean of empty slice" and does not raise). *)
Definition mean (l : list t) : t :=
  match l with
  | [] => NaN
  | _ :: _ =>
      match fold_left add l (Fin 0) with
      | Fin s => Fin (s / inject_Z (Z.of_nat (List.length l)))
      | NaN => NaN
      end
  end.

End PyFloat.

(** ** theme_analyzer.py: narratives *)

Record NarrativeAnalysis : Type := mkNarrativeAnalysis {
  attribute : string;
  brand_ownership : dict PyFloat.t;
  leader : string;
  leader_score : PyFloat.t;
  gap_analysis : dict PyFloat.t;
  example_quotes : dict (list string)
}.

Section InsightsText.

(** [f"{x:.0%}"], the percentage rendering of a float by the format
    mini-language; the claims do not depend on the digits it prints. *)
Variable pct0 : PyFloat.t -> string.

Definition ownership_message (narrative : NarrativeAnalysis)
    (your_score : PyFloat.t) : string :=
  "✅ **" ++ attribute narrative ++ "**: You own this narrative ("
    ++ pct0 your_score ++ " association rate)".

Definition dominated_message (narrative : NarrativeAnalysis)
    (your_score gap : PyFloat.t) : string :=
  "⚠️ **" ++ attribute narrative ++ "**: " ++ leader narrative
    ++ " dominates (" ++ pct0 (leader_score narrative) ++ " vs your "
    ++ pct0 your_score ++ "). Gap: " ++ pct0 gap.

Definition opportunity_message (narrative : NarrativeAnalysis)
    (your_score : PyFloat.t) : string :=
  "🎯 **" ++ attribute narrative
    ++ "**: Opportunity to own this narrative. Current leader "
    ++ leader narrative ++ " at " ++ pct0 (leader_score narrative)
    ++ ", you at " ++ pct0 your_score.

(** The body of the loop of [generate_insights_text]. *)
Definition insight_step (your_brand : string) (insights : list string)
    (narrative : NarrativeAnalysis) : result (list string) :=
  if negb (Dict.has your_brand (brand_ownership narrative)) then
    Ok insights
  else
    your_score <- subscript (brand_ownership narrative) your_brand ;;
    gap <- subscript (gap_analysis narrative) your_brand ;;
    if String.eqb (leader narrative) your_brand then
      Ok (insights ++ [ownership_message narrative your_score])%list
    else if PyFloat.gt gap (PyFloat.Fin (15 # 100)) then
      Ok (insights ++ [dominated_message narrative your_score gap])%list
    else if PyFloat.gt gap (PyFloat.Fin (5 # 100))
            && PyFloat.lt (leader_score narrative) (PyFloat.Fin (50 # 100)) then
      Ok (insights ++ [opportunity_message narrative your_score])%list
    else
      Ok insights.

(** [ThemeAnalyzer.generate_insights_text] *)
Definition generate_insights_text (narratives : list NarrativeAnalysis)
    (your_brand : string) : result (list string) :=
  insights <- for_each (insight_step your_brand) narratives [] ;;
  Ok (firstn 5 insights).

(** *** The classification in the words of the specification *)

Inductive insight_category : Type :=
| OwnershipInsight
| DominatedInsight
| ContestedOpportunity.

(** The category of a narrative for a participating brand with gap [gap],
    tried in priority order; [None] when no insight is due. *)
Definition category_of (narrative : NarrativeAnalysis) (your_brand : string)
    (gap : PyFloat.t) : option insight_category :=
  if String.eqb (leader narrative) your_brand then Some OwnershipInsight
  else if PyFloat.gt gap (PyFloat.Fin (15 # 100)) then Some DominatedInsight
  else if PyFloat.gt gap (PyFloat.Fin (5 # 100))
          && PyFloat.lt (leader_score narrative) (PyFloat.Fin (50 # 100))
  then Some ContestedOpportunity
  else None.

Definition message_of (narrative : NarrativeAnalysis)
    (your_score gap : PyFloat.t) (c : insight_category) : string :=
  match c with
  | OwnershipInsight => ownership_message narrative your_score
  | DominatedInsight => dominated_message narrative your_score gap
  | ContestedOpportunity => opportunity_message narrative your_score
  end.

(** The insights due for one narrative: none when the brand does not
    participate or falls in no category, else the message of its category. *)
Definition insights_of (your_brand : string) (narrative : NarrativeAnalysis)
  : list string :=
  match Dict.get your_brand (brand_ownership narrative),
        Dict.get your_brand (gap_analysis narrative) with
  | Some your_score, Some gap =>
      match category_of narrative your_brand gap with
      | Some c => [message_of narrative your_score gap c]
      | None => []
      end
  | _, _ => []
  end.

End InsightsText.

(** [your_brand] participates in the narrative. *)
Definition participates (your_brand : string) (narrative : NarrativeAnalysis)
  : Prop :=
  Dict.has your_brand (brand_ownership narrative) = true.

(** A narrative in which [your_brand] has an ownership score also carries
    its gap to the leader; [analyze_narratives] builds both mappings over
    the same brands. *)
Definition gap_recorded (your_brand : string) (narrative : NarrativeAnalysis)
  : Prop :=
  participates your_brand narrative ->
  Dict.has your_brand (gap_analysis narrative) = true.

(** Two narratives over the brands [Telekom] and [O2]: one that [Telekom]
    leads by a wide margin, one that [O2] leads. *)
Definition sample_narratives : list NarrativeAnalysis :=
  [ mkNarrativeAnalysis "Network Excellence"
      [("Telekom", PyFloat.Fin (60 # 100)); ("O2", PyFloat.Fin (20 # 100))]
      "Telekom" (PyFloat.Fin (60 # 100))
      [("Telekom", PyFloat.Fin 0); ("O2", PyFloat.Fin (40 # 100))]
      [];
    mkNarrativeAnalysis "Value Proposition"
      [("Telekom", PyFloat.Fin (10 # 100)); ("O2", PyFloat.Fin (30 # 100))]
      "O2" (PyFloat.Fin (30 # 100))
      [("Telekom", PyFloat.Fin (20 # 100)); ("O2", PyFloat.Fin 0)]
      [] ].

(** A stand-in for the percentage rendering, used to run examples. *)
Definition pct0_opaque (x : PyFloat.t) : string := "_%".

(** ** confidence_intervals.py: trend analysis *)

(** The mapping returned by [calculate_velocity] has one of two shapes:
    the sentinel for series of fewer than two points, with the keys
    [velocity], [direction], [acceleration] and [trend], or the full set of
    eight metrics. *)
Inductive velocity_result : Type :=
| InsufficientData (velocity : PyFloat.t) (direction : string)
    (acceleration : PyFloat.t) (trend : string)
| VelocityMetrics (velocity velocity_pct : PyFloat.t)
    (direction icon : string) (acceleration : PyFloat.t)
    (is_accelerating is_trending : bool) (trend_strength : PyFloat.t).

(** [result['acceleration']] *)
Definition acceleration_of (r : velocity_result) : PyFloat.t :=
  match r with
  | InsufficientData _ _ a _ => a
  | VelocityMetrics _ _ _ _ a _ _ _ => a
  end.

(** [result.get('is_accelerating')] *)
Definition is_accelerating_of (r : velocity_result) : option bool :=
  match r with
  | InsufficientData _ _ _ _ => None
  | VelocityMetrics _ _ _ _ _ b _ _ => Some b
  end.

Module TrendAnalyzer.

(** [[time_series[i] - time_series[i-1] for i in range(1, len(time_series))]] *)
Fixpoint changes_of (time_series : list PyFloat.t) : list PyFloat.t :=
  match time_series with
  | previous :: (current :: _) as rest =>
      PyFloat.sub current previous :: changes_of rest
  | _ => []
  end.

(** [l[-2:]] *)
Definition last_two {A} (l : list A) : list A :=
  skipn (List.length l - 2) l.

(** [l[:-2]] *)
Definition all_but_last_two {A} (l : list A) : list A :=
  firstn (List.length l - 2) l.

Section Velocity.

(** [scipy.stats.kendalltau(range(len(series)), series)], giving
    [(tau, p_value)]. *)
Variable kendalltau : list PyFloat.t -> PyFloat.t * PyFloat.t.

Definition calculate_velocity (time_series : list PyFloat.t)
  : velocity_result :=
  if (List.length time_series <? 2)%nat then
    InsufficientData (PyFloat.Fin 0) "stable" (PyFloat.Fin 0)
      "insufficient_data"
  else
    let changes := changes_of time_series in
    let avg_change := PyFloat.mean changes in
    let '(direction, icon) :=
      if PyFloat.gt avg_change (PyFloat.Fin (1 # 100)) then
        ("increasing", "↗️")
      else if PyFloat.lt avg_change (PyFloat.Fin (- 1 # 100)) then
        ("decreasing", "↘️")
      else ("stable", "→") in
    let acceleration :=
      if (2 <=? List.length changes)%nat then
        let recent_velocity := PyFloat.mean (last_two changes) in
        let earlier_velocity := PyFloat.mean (all_but_last_two changes) in
        PyFloat.sub recent_velocity earlier_velocity
      else PyFloat.Fin 0 in
    let '(is_trending, trend_strength) :=
      if (3 <=? List.length time_series)%nat then
        let '(tau, p_value) := kendalltau time_series in
        (PyFloat.lt p_value (PyFloat.Fin (5 # 100)), PyFloat.abs tau)
      else (false, PyFloat.Fin 0) in
    VelocityMetrics avg_change (PyFloat.mul avg_change (PyFloat.Fin 100))
      direction icon acceleration
      (PyFloat.gt (PyFloat.abs acceleration) (PyFloat.Fin (5 # 1000)))
      is_trending trend_strength.

End Velocity.

End TrendAnalyzer.

(** ** confidence_intervals.py: the confidence calculator

    The bounds of the Wilson interval are compared with the proportion
    itself, where one rounding decides: here a [float] is an IEEE 754
    binary64 value and every operation rounds as Python's does. *)

Module Binary64.

(** [float(n)] for an integer below [2^63] in magnitude; for counts below
    [2^53] the conversion is exact and a quotient of two conversions is
    Python's quotient of the integers. *)
Definition of_int (n : Z) : float :=
  if n <? 0 then PrimFloat.opp (PrimFloat.of_uint63 (Uint63.of_Z (- n)))
  else PrimFloat.of_uint63 (Uint63.of_Z n).

(** [max(0, x)]: the builtin keeps its first argument unless a later one
    compares greater. *)
Definition max0 (x : float) : float :=
  if PrimFloat.ltb 0 x then x else 0%float.

(** [min(1, x)] *)
Definition min1 (x : float) : float :=
  if PrimFloat.ltb x 1 then x else 1%float.

End Binary64.

Record ConfidenceMetrics : Type := mkConfidenceMetrics {
  value : float;
  lower_bound : float;
  upper_bound : float;
  confidence_level : float;
  sample_size : Z;
  standard_error : float;
  is_significant : bool;
  margin_of_error : float
}.

(** The state of a [ConfidenceCalculator]: the confidence level and the
    critical value [stats.norm.ppf((1 + confidence_level) / 2)]. *)
Record Calculator : Type := mkCalculator {
  calc_confidence_level : float;
  z_score : float
}.

(** [ConfidenceCalculator()] with the default level [0.95], the binary64
    value [0x1.e666666666666p-1]; SciPy gives
    [norm.ppf(0.975) = 1.959963984540054], the binary64 value
    [0x1.f5c0331eeff84p+0]. *)
Definition default_calculator : Calculator :=
  mkCalculator 0x1.e666666666666p-1%float 0x1.f5c0331eeff84p+0%float.

(** [str(n)] for an integer, as interpolated by an f-string. *)
Definition str_of_int (n : Z) : string :=
  DecimalString.NilZero.string_of_int (Z.to_int n).

(** The mapping returned by [evaluate_data_quality]; its five keys are
    fixed, so it is a record. *)
Record DataQuality : Type := mkDataQuality {
  quality : string;
  color : string;
  recommendation : string;
  icon : string;
  dq_sample_size : Z
}.

Module ConfidenceCalculator.

Definition evaluate_data_quality (sample_size : Z) : DataQuality :=
  if sample_size <? 30 then
    mkDataQuality "LOW" "#f44336"
      ("Collect " ++ str_of_int (30 - sample_size)
         ++ " more samples for statistical significance")
      "⚠️" sample_size
  else if sample_size <? 100 then
    mkDataQuality "MODERATE" "#ff9800"
      ("Consider " ++ str_of_int (100 - sample_size)
         ++ " more samples for higher confidence")
      "⚡" sample_size
  else if sample_size <? 300 then
    mkDataQuality "GOOD" "#4caf50"
      "Sample size adequate for reliable insights"
      "✓" sample_size
  else
    mkDataQuality "EXCELLENT" "#2196f3"
      "Sample size excellent for high-confidence analysis"
      "⭐" sample_size.

Local Open Scope float_scope.

(** [successes / total] divides two integers; below [2^53] both convert
    exactly and the quotient of the two floats is the correctly rounded
    quotient. [z**2] is the correctly rounded product [z * z]. *)
Definition calculate_proportion_confidence (self : Calculator)
    (successes total : Z) : ConfidenceMetrics :=
  if (total =? 0)%Z then
    mkConfidenceMetrics 0 0 0 (calc_confidence_level self) 0%Z 0 false 0
  else
    let proportion := Binary64.of_int successes / Binary64.of_int total in
    let z := z_score self in
    let denominator := 1 + z * z / Binary64.of_int total in
    let center :=
      (proportion + z * z / Binary64.of_int (2 * total)) / denominator in
    let margin :=
      z * PrimFloat.sqrt
            ((proportion * (1 - proportion)
              + z * z / Binary64.of_int (4 * total))
             / Binary64.of_int total)
      / denominator in
    let lower := Binary64.max0 (center - margin) in
    let upper := Binary64.min1 (center + margin) in
    let se :=
      if (total >? 1)%Z
      then PrimFloat.sqrt (proportion * (1 - proportion)
                           / Binary64.of_int total)
      else 0 in
    let is_significant := (30 <=? total)%Z in
    mkConfidenceMetrics proportion lower upper (calc_confidence_level self)
      total se is_significant margin.

End ConfidenceCalculator.

(** ** storage.py

    What [json.dump] writes and [json.load] reads back is a JSON document;
    the text in between is the business of the [json] module and a file
    holds the document itself. *)

#[local] Set Warnings "-register-all".

Inductive json : Type :=
| JNull
| JBool (b : bool)
| JInt (n : Z)
| JStr (s : string)
| JList (items : list json)
| JObj (fields : list (string * json)).

(** A row of the history table written by [_update_history]. *)
Record HistoryRow : Type := mkHistoryRow {
  h_timestamp : string;
  h_date : string;
  h_provider : string;
  h_model : string;
  h_category : string;
  h_query : string;
  h_run : Z;
  h_brand : string;
  h_mentioned : bool;
  h_first_position : option Z;
  h_count : Z;
  h_in_mention_order : bool;
  h_mention_rank : option Z
}.

Inductive file_content : Type :=
| EmptyFile
| JsonDoc (doc : json)
| CsvDoc (rows : list HistoryRow).

Record File : Type := mkFile {
  mtime : Z;
  content : file_content
}.

(** The data directory: file names to files, in listing order. *)
Definition Disk : Type := dict File.

(** The wall clock at the time of a call: [now.strftime("%Y%m%d_%H%M%S")]
    and the modification time given to files written now. *)
Record Clock : Type := mkClock {
  stamp : string;
  time : Z
}.

Definition HISTORY_FILE : string := "som_history.csv".

Module Models.

(** [BrandMention.to_dict], that is [asdict(self)] *)
Definition brand_mention_to_dict (m : BrandMention) : json :=
  JObj [ ("mentioned", JBool (mentioned m));
         ("first_position",
          match first_position m with
          | Some p => JInt p
          | None => JNull
          end);
         ("count", JInt (count m)) ].

(** [QueryResult.to_dict]; the comprehension over [self.mentions.items()]
    keeps the keys and their order. *)
Definition to_dict (r : QueryResult) : json :=
  JObj [ ("timestamp", JStr (timestamp r));
         ("category", JStr (category r));
         ("query", JStr (query r));
         ("run", JInt (run r));
         ("model", JStr (model r));
         ("provider", JStr (provider r));
         ("response", JStr (response r));
         ("mentions",
          JObj (map (fun kv => (fst kv, brand_mention_to_dict (snd kv)))
                    (mentions r)));
         ("mention_order", JList (map JStr (mention_order r)));
         ("total_mentioned", JInt (total_mentioned r)) ].

End Models.

(** Reading a loaded JSON value at the type a record field is declared
    with. Python builds the record from whatever value it finds; a value of
    another type gives a record outside the data model, reported here as
    [TypeError]. *)
Module Decode.

(** [item[key]] on a loaded JSON object *)
Definition item (j : json) (key : string) : result json :=
  match j with
  | JObj fields => subscript fields key
  | _ => Raise TypeError
  end.

Definition str (j : json) : result string :=
  match j with JStr s => Ok s | _ => Raise TypeError end.

Definition int (j : json) : result Z :=
  match j with JInt n => Ok n | _ => Raise TypeError end.

Definition boolean (j : json) : result bool :=
  match j with JBool b => Ok b | _ => Raise TypeError end.

Definition optional_int (j : json) : result (option Z) :=
  match j with
  | JInt n => Ok (Some n)
  | JNull => Ok None
  | _ => Raise TypeError
  end.

(** A loop [[f(x) for x in l]] whose body may raise. *)
Fixpoint each {A B} (f : A -> result B) (l : list A) : result (list B) :=
  match l with
  | [] => Ok []
  | x :: l' => y <- f x ;; ys <- each f l' ;; Ok (y :: ys)
  end.

Definition str_list (j : json) : result (list string) :=
  match j with
  | JList items => each str items
  | _ => Raise TypeError
  end.

(** The argument that a call binds to a parameter without default: a
    missing keyword raises [TypeError]. *)
Definition keyword (fields : list (string * json)) (name : string)
  : result json :=
  match Dict.get name fields with
  | Some value => Ok value
  | None => Raise TypeError
  end.

(** [BrandMention] built from the keywords of [mention_data]: they must be
    exactly the three fields of the dataclass, an unexpected keyword and a
    missing one both raise [TypeError], as does a [mention_data] that is no
    mapping. *)
Definition brand_mention (mention_data : json) : result BrandMention :=
  match mention_data with
  | JObj fields =>
      if forallb (fun kv => existsb (String.eqb (fst kv))
                              ["mentioned"; "first_position"; "count"])
                 fields
      then
        m <- keyword fields "mentioned" ;;
        m <- boolean m ;;
        p <- keyword fields "first_position" ;;
        p <- optional_int p ;;
        c <- keyword fields "count" ;;
        c <- int c ;;
        Ok (mkBrandMention m p c)
      else Raise TypeError
  | _ => Raise TypeError
  end.

(** The comprehension over [item['mentions'].items()] that rebuilds the
    [mentions] mapping, key by key; only an object has [items]. *)
Definition mentions_dict (j : json) : result (dict BrandMention) :=
  match j with
  | JObj fields =>
      each (fun kv => m <- brand_mention (snd kv) ;; Ok (fst kv, m)) fields
  | _ => Raise AttributeError
  end.

(** [for item in data] on a loaded document: the items of a list, the keys
    of an object, the characters of a string; no other document can be
    iterated. *)
Definition iterate (data : json) : result (list json) :=
  match data with
  | JList items => Ok items
  | JObj fields => Ok (map (fun kv => JStr (fst kv)) fields)
  | JStr s =>
      Ok (map (fun c => JStr (String c EmptyString)) (list_ascii_of_string s))
  | _ => Raise TypeError
  end.

End Decode.

Module StorageManager.

(** [fnmatch(name, "som_results_*.json")] *)
Definition is_results_file (name : string) : bool :=
  String.prefix "som_results_" name
  && (12 + 5 <=? String.length name)%nat
  && String.eqb (PyStr.drop (String.length name - 5) name) ".json".

(** [list(self.data_dir.glob("som_results_*.json"))] *)
Definition glob_results (disk : Disk) : list (string * File) :=
  filter (fun entry => is_results_file (fst entry)) disk.

(** [max(files, key=lambda p: p.stat().st_mtime)] on a non-empty list:
    the first file among the most recent ones. *)
Definition most_recent (first : string * File) (others : list (string * File))
  : string * File :=
  fold_left
    (fun best entry =>
       if mtime (snd best) <? mtime (snd entry) then entry else best)
    others first.

(** [open(filepath, 'w')] followed by a complete write, for a plain file
    name in the data directory, which exists. *)
Definition write_file (disk : Disk) (name : string) (now : Z)
    (c : file_content) : Disk :=
  Dict.set name (mkFile now c) disk.

(** [r.timestamp.split('T')[0]] *)
Fixpoint before_T (s : string) : string :=
  match s with
  | EmptyString => EmptyString
  | String c s' =>
      if Ascii.eqb c "T"%char then EmptyString else String c (before_T s')
  end.

(** The row of [_update_history] for one brand of one result. *)
Definition history_row (r : QueryResult) (entry : string * BrandMention)
  : result HistoryRow :=
  let '(brand, mention) := entry in
  rank <- (if PyList.contains brand (mention_order r)
           then i <- PyList.index (mention_order r) brand ;; Ok (Some (i + 1))
           else Ok None) ;;
  Ok (mkHistoryRow (timestamp r) (before_T (timestamp r)) (provider r)
        (model r) (category r) (query r) (run r) brand
        (mentioned mention) (first_position mention) (count mention)
        (PyList.contains brand (mention_order r)) rank).

Section Pandas.

(** [pd.read_csv(filepath)] as a list of rows. *)
Variable read_csv : file_content -> result (list HistoryRow).

(** [except pd.errors.EmptyDataError] *)
Definition is_empty_data_error (e : exn) : bool :=
  match e with
  | EmptyDataError => true
  | _ => false
  end.

(** [StorageManager._update_history]; an exception leaves the directory
    as it was. *)
Definition _update_history (disk : Disk) (now : Z)
    (results : list QueryResult) : Disk * result unit :=
  let write df := (write_file disk HISTORY_FILE now (CsvDoc df), Ok tt) in
  match Decode.each
          (fun r => Decode.each (history_row r) (mentions r)) results with
  | Raise e => (disk, Raise e)
  | Ok rows =>
      let new_df := List.concat rows in
      match Dict.get HISTORY_FILE disk with
      | Some f =>
          match content f with
          | EmptyFile => write new_df
          | existing =>
              match read_csv existing with
              | Ok existing_df => write (existing_df ++ new_df)%list
              | Raise e =>
                  if is_empty_data_error e then write new_df
                  else (disk, Raise e)
              end
          end
      | None => write new_df
      end
  end.

(** The name [save_results] writes to. *)
Definition results_filename (clock : Clock) (filename : option string)
  : string :=
  match filename with
  | Some name => name
  | None => "som_results_" ++ stamp clock ++ ".json"
  end.

(** [StorageManager.save_results]: the directory after the call and the
    path returned, or the exception raised by the history update (the
    results file is written by then). *)
Definition save_results (disk : Disk) (clock : Clock)
    (results : list QueryResult) (filename : option string)
  : Disk * result string :=
  let filename := results_filename clock filename in
  let results_dict := map Models.to_dict results in
  let disk1 := write_file disk filename (time clock)
                 (JsonDoc (JList results_dict)) in
  match _update_history disk1 (time clock) results with
  | (disk2, Ok _) => (disk2, Ok ("data/" ++ filename))
  | (disk2, Raise e) => (disk2, Raise e)
  end.

End Pandas.

(** [json.load(f)] *)
Definition json_load (c : file_content) : result json :=
  match c with
  | JsonDoc doc => Ok doc
  | _ => Raise JSONDecodeError
  end.

(** The body of the loop of [load_results]. *)
Definition query_result_of (item : json) : result QueryResult :=
  ms <- Decode.item item "mentions" ;;
  mentions <- Decode.mentions_dict ms ;;
  timestamp <- Decode.item item "timestamp" ;; timestamp <- Decode.str timestamp ;;
  category <- Decode.item item "category" ;; category <- Decode.str category ;;
  query <- Decode.item item "query" ;; query <- Decode.str query ;;
  run <- Decode.item item "run" ;; run <- Decode.int run ;;
  model <- Decode.item item "model" ;; model <- Decode.str model ;;
  provider <- Decode.item item "provider" ;; provider <- Decode.str provider ;;
  response <- Decode.item item "response" ;; response <- Decode.str response ;;
  mention_order <- Decode.item item "mention_order" ;;
  mention_order <- Decode.str_list mention_order ;;
  total_mentioned <- Decode.item item "total_mentioned" ;;
  total_mentioned <- Decode.int total_mentioned ;;
  Ok (mkQueryResult timestamp category query run model provider response
        mentions mention_order total_mentioned).

(** [StorageManager.load_results] *)
Definition load_results (disk : Disk) (filename : option string)
  : result (list QueryResult) :=
  let filepath :=
    match filename with
    | None =>
        match glob_results disk with
        | [] => None
        | first :: others => Some (fst (most_recent first others))
        end
    | Some name => Some name
    end in
  match filepath with
  | None => Ok []
  | Some filepath =>
      match Dict.get filepath disk with
      | None => Ok []
      | Some f =>
          data <- json_load (content f) ;;
          items <- Decode.iterate data ;;
          Decode.each query_result_of items
      end
  end.

End StorageManager.

(** A stand-in for [pd.read_csv], used to run examples: a table is read
    back as written, anything else is refused. *)
Definition read_csv_table (c : file_content) : result (list HistoryRow) :=
  match c with
  | CsvDoc (row :: rows) => Ok (row :: rows)
  | CsvDoc [] => Raise EmptyDataError
  | EmptyFile => Raise EmptyDataError
  | JsonDoc _ => Raise ParserError
  end.

(** ** theme_analyzer.py: theme extraction *)

Record ThemeInsight : Type := mkThemeInsight {
  theme : string;
  ti_brand : string;
  frequency : Q;
  ti_example_quotes : list string;
  sentiment : string
}.

(** The entry [{'count': ..., 'quotes': [...]}] kept per brand and
    attribute while scanning. *)
Record ThemeData : Type := mkThemeData {
  td_count : Z;
  td_quotes : list string
}.

Module ThemeAnalyzer.

Definition ATTRIBUTES : list string :=
  [ "reliability"; "network_quality"; "coverage"; "5g";
    "price"; "value"; "affordable"; "cheap";
    "customer_service"; "support"; "service";
    "innovation"; "technology"; "modern";
    "speed"; "fast"; "performance";
    "international"; "roaming"; "global";
    "business"; "enterprise"; "corporate";
    "flexibility"; "contract"; "prepaid";
    "data"; "unlimited"; "volume";
    "premium"; "quality"; "best" ].

(** [\w] on ASCII: letters, digits and the underscore. *)
Definition is_word_char (c : ascii) : bool :=
  let n := nat_of_ascii c in
  ((48 <=? n) && (n <=? 57) || (65 <=? n) && (n <=? 90)
   || (97 <=? n) && (n <=? 122) || (n =? 95))%nat.

Definition is_word (c : option ascii) : bool :=
  match c with
  | Some c => is_word_char c
  | None => false
  end.

Definition head (s : string) : option ascii :=
  match s with
  | EmptyString => None
  | String c _ => Some c
  end.

(** [\b] between the character before and the character after. *)
Definition word_boundary (before after : option ascii) : bool :=
  xorb (is_word before) (is_word after).

(** [\w*\b] from a position preceded by [before]: some run of word
    characters ends at a word boundary. *)
Fixpoint word_tail (before : option ascii) (s : string) : bool :=
  word_boundary before (head s)
  || match s with
     | EmptyString => false
     | String c s' => is_word_char c && word_tail (Some c) s'
     end.

(** The last character of [attr], or [before] for the empty string. *)
Fixpoint last_char (before : option ascii) (attr : string) : option ascii :=
  match attr with
  | EmptyString => before
  | String c attr' => last_char (Some c) attr'
  end.

(** The pattern [\b<attr>\w*\b] matches at the head of [s], which is
    preceded by [before]. *)
Definition match_here (attr : string) (before : option ascii) (s : string)
  : bool :=
  word_boundary before (head s)
  && PyStr.startswith s attr
  && word_tail (last_char before attr) (PyStr.drop (String.length attr) s).

(** [pattern.search(s)] for the compiled pattern of [attr], scanning from
    a position preceded by [before]. The patterns are compiled with
    [re.IGNORECASE] and applied to lowered text. *)
Fixpoint search_from (attr : string) (before : option ascii) (s : string)
  : bool :=
  match_here attr before s
  || match s with
     | EmptyString => false
     | String c s' => search_from attr (Some c) s'
     end.

Definition pattern_search (attr s : string) : bool :=
  search_from attr None s.

(** The indices at which [brand_lower] occurs in the suffix [s] that
    starts at index [pos]: the loop of [_extract_brand_contexts] asks
    [find] for the next occurrence from [start] on and resumes one character
    behind it, so it visits every such index in increasing order. *)
Fixpoint occurrences (brand_lower s : string) (pos : nat) : list nat :=
  (if PyStr.startswith s brand_lower then [pos] else [])
  ++ match s with
     | EmptyString => []
     | String _ s' => occurrences brand_lower s' (S pos)
     end.

(** [ThemeAnalyzer._extract_brand_contexts] *)
Definition _extract_brand_contexts (text brand : string) (window : nat)
  : list string :=
  let brand_lower := PyStr.lower brand in
  let text_lower := PyStr.lower text in
  map (fun pos =>
         let context_start := (pos - window)%nat in
         let context_end :=
           Nat.min (String.length text)
                   (pos + String.length brand + window) in
         String.substring context_start (context_end - context_start) text)
      (occurrences brand_lower text_lower 0).

(** [sum(1 for word in words if word in text)] *)
Definition count_words (words : list string) (text : string) : Z :=
  Z.of_nat (List.length (filter (fun word => PyStr.contains word text) words)).

(** [ThemeAnalyzer._estimate_sentiment] *)
Definition _estimate_sentiment (quotes : list string) : string :=
  let positive_words :=
    ["best"; "excellent"; "great"; "good"; "recommended";
     "strong"; "leading"; "top"; "superior"; "outstanding"] in
  let negative_words :=
    ["poor"; "bad"; "worst"; "avoid"; "limited";
     "weak"; "lacking"; "disappointing"; "issues"] in
  match quotes with
  | [] => "neutral"
  | _ :: _ =>
      let text := PyStr.lower (String.concat " " quotes) in
      let positive_count := count_words positive_words text in
      let negative_count := count_words negative_words text in
      if negative_count * 2 <? positive_count then "positive"
      else if positive_count * 2 <? negative_count then "negative"
      else "neutral"
  end.

(** [brand_themes[brand][attr]] of the [defaultdict]: a fresh entry when
    the attribute has none. *)
Definition theme_data (themes : dict ThemeData) (attr : string) : ThemeData :=
  match Dict.get attr themes with
  | Some data => data
  | None => mkThemeData 0 []
  end.

(** The innermost loop body: one attribute against one context. *)
Definition note_attribute (context context_lower : string)
    (themes : dict ThemeData) (attr : string) : result (dict ThemeData) :=
  if pattern_search attr context_lower then
    let data := theme_data themes attr in
    let quotes :=
      if (List.length (td_quotes data) <? 5)%nat
      then (td_quotes data ++ [String.substring 0 200 context])%list
      else td_quotes data in
    Ok (Dict.set attr (mkThemeData (td_count data + 1) quotes) themes)
  else Ok themes.

Definition note_context (themes : dict ThemeData) (context : string)
  : result (dict ThemeData) :=
  let context_lower := PyStr.lower context in
  for_each (note_attribute context context_lower) ATTRIBUTES themes.

(** The body of the loop over [self.brands] for one result. *)
Definition scan_brand (r : QueryResult)
    (brand_themes : dict (dict ThemeData)) (brand : string)
  : result (dict (dict ThemeData)) :=
  mention <- subscript (mentions r) brand ;;
  if negb (mentioned mention) then Ok brand_themes
  else
    let contexts := _extract_brand_contexts (response r) brand 150 in
    themes <- subscript brand_themes brand ;;
    themes' <- for_each note_context contexts themes ;;
    Ok (Dict.set brand themes' brand_themes).

Definition scan_result (brands : list string)
    (brand_themes : dict (dict ThemeData)) (r : QueryResult)
  : result (dict (dict ThemeData)) :=
  for_each (scan_brand r) brands brand_themes.

(** [r.mentions[brand].mentioned], as the condition of a count *)
Definition mentioned_in (brand : string) (r : QueryResult) : result bool :=
  mention <- subscript (mentions r) brand ;; Ok (mentioned mention).

(** The loop over [brand_themes[brand].items()] that builds the insights
    of one brand. *)
Definition insight_entry (brand : string) (total : Z)
    (insights : dict ThemeInsight) (entry : string * ThemeData)
  : result (dict ThemeInsight) :=
  let '(theme, data) := entry in
  let frequency := PyList.div (td_count data) total in
  if Qlt_le_dec 0 frequency then
    Ok (Dict.set theme
          (mkThemeInsight theme brand frequency (firstn 3 (td_quotes data))
             (_estimate_sentiment (td_quotes data)))
          insights)
  else Ok insights.

Definition insights_for_brand (brand_themes : dict (dict ThemeData))
    (total_mentions : dict Z) (insights : dict (dict ThemeInsight))
    (brand : string) : result (dict (dict ThemeInsight)) :=
  total <- subscript total_mentions brand ;;
  if total =? 0 then Ok (Dict.set brand Dict.empty insights)
  else
    themes <- subscript brand_themes brand ;;
    brand_insights <- for_each (insight_entry brand total) themes Dict.empty ;;
    Ok (Dict.set brand brand_insights insights).

(** [ThemeAnalyzer.extract_themes] for an analyzer tracking [brands]. *)
Definition extract_themes (brands : list string) (results : list QueryResult)
  : result (dict (dict ThemeInsight)) :=
  let brand_themes :=
    fold_left (fun d brand => Dict.set brand Dict.empty d) brands Dict.empty in
  brand_themes <- for_each (scan_result brands) results brand_themes ;;
  total_mentions <-
    for_each (fun d brand =>
                n <- PyList.count_where (mentioned_in brand) results ;;
                Ok (Dict.set brand n d))
             brands Dict.empty ;;
  for_each (insights_for_brand brand_themes total_mentions) brands Dict.empty.

End ThemeAnalyzer.

(** A record saved while only [O2] was tracked: its [mentions] mapping has
    no key for any other brand. *)
Definition stale_record : QueryResult :=
  mkQueryResult "2024-01-01T00:00:00" "general" "Which provider?" 0
    "gpt-4o" "openai" "O2 has the best coverage."
    [("O2", mkBrandMention true (Some 0) 1)] ["O2"] 1.

(** *** Vocabulary of the claim about missing brands *)

(** Every tracked brand has an entry in [brand_themes]. *)
Definition covers {V} (brands : list string) (d : dict V) : Prop :=
  forall b, In b brands -> Dict.has b d = true.

(** The exceptions of the scan: a [KeyError] for a tracked brand that some
    record lacks. *)
Definition missing_brand_error (brands : list string)
    (results : list QueryResult) (e : exn) : Prop :=
  exists r b, In r results /\ In b brands
              /\ Dict.has b (mentions r) = false /\ e = KeyError b.

(** *** The Wilson interval in exact arithmetic

    The formulas of [calculate_proportion_confidence] over the real
    numbers, for a proportion [p] of [n] trials and a critical value [z]. *)

Module WilsonExact.

Local Open Scope R_scope.

Definition denominator (z n : R) : R := 1 + z * z / n.

Definition center (z p n : R) : R :=
  (p + z * z / (2 * n)) / denominator z n.

Definition margin (z p n : R) : R :=
  z * sqrt ((p * (1 - p) + z * z / (4 * n)) / n) / denominator z n.

Definition lower (z p n : R) : R := Rmax 0 (center z p n - margin z p n).

Definition upper (z p n : R) : R := Rmin 1 (center z p n + margin z p n).

End WilsonExact.

(** * Further code of the cited modules *)

(** ** Python's stable sort

    [list.sort] and [sorted] compare with [<] only and are stable: the
    result is the one ordering of the input in which no element is followed
    by a smaller one and elements that do not compare keep their order.
    It is computed here by insertion from the right. *)

Module PySort.

Section StableSort.

Context {A : Type}.

(** [key(x) < key(y)] *)
Variable lt : A -> A -> bool.

(** [x], which precedes every element of the sorted [l] in the input, goes
    behind the elements smaller than it and before all others. *)
Fixpoint insert (x : A) (l : list A) : list A :=
  match l with
  | [] => [x]
  | y :: l' => if lt y x then y :: insert x l' else x :: l
  end.

Definition sort (l : list A) : list A := fold_right insert [] l.

(** [b] does not come before [a] wrongly: [b] is not smaller than [a]. *)
Definition ordered (a b : A) : Prop := lt b a = false.

(** [y] compares neither way with [a]. *)
Definition same_rank (a y : A) : bool := negb (lt a y) && negb (lt y a).

End StableSort.

(** Pairs compared by an integer second component. *)
Definition lt_snd {A} (p q : A * Z) : bool := snd p <? snd q.

(** [reverse=True]: descending, still stable. *)
Definition sort_reverse {A} (lt : A -> A -> bool) (l : list A) : list A :=
  sort (fun x y => lt y x) l.

(** The keys of a list about to be sorted, when none of them is [None]. *)
Fixpoint known_keys {A} (l : list (A * option Z)) : option (list (A * Z)) :=
  match l with
  | [] => Some []
  | (x, Some k) :: l' =>
      match known_keys l' with
      | Some r => Some ((x, k) :: r)
      | None => None
      end
  | (_, None) :: _ => None
  end.

(** [l.sort(key=lambda x: x[1])] on pairs whose second component is an
    integer or [None]. A list of fewer than two elements is sorted without
    a comparison; otherwise every element is compared with a neighbour, and
    comparing [None] raises [TypeError]. *)
Definition sort_by_optional_key {A} (l : list (A * option Z))
  : result (list (A * option Z)) :=
  match l with
  | [] | [_] => Ok l
  | _ :: _ :: _ =>
      match known_keys l with
      | Some keyed =>
          Ok (map (fun p => (fst p, Some (snd p)))
                  (sort (fun p q => snd p <? snd q) keyed))
      | None => Raise TypeError
      end
  end.

End PySort.

(** ** analyzer.py: mention order and position score *)

Module ResponseAnalyzerOrder.

(** [ResponseAnalyzer.get_mention_order] *)
Definition get_mention_order (mentions : dict BrandMention)
  : result (list string) :=
  let mentioned_brands :=
    map (fun kv => (fst kv, first_position (snd kv)))
        (filter (fun kv => mentioned (snd kv)) mentions) in
  sorted <- PySort.sort_by_optional_key mentioned_brands ;;
  Ok (map fst sorted).

(** [ResponseAnalyzer.analyze] for an analyzer tracking [brands]. *)
Definition analyze (brands : list string) (response_text : string)
  : result (dict BrandMention * list string * Z) :=
  let mentions := ResponseAnalyzer.extract_mentions brands response_text in
  mention_order <- get_mention_order mentions ;;
  let total_mentioned := PyList.len mention_order in
  Ok (mentions, mention_order, total_mentioned).

(** [ResponseAnalyzer.calculate_position_score]; [1.0 / position] is kept
    as an exact rational. *)
Definition calculate_position_score (mention_order : list string)
    (brand : string) : result Q :=
  if negb (PyList.contains brand mention_order) then Ok 0%Q
  else
    i <- PyList.index mention_order brand ;;
    let position := i + 1 in
    Ok (1 / inject_Z position)%Q.

End ResponseAnalyzerOrder.

(** *** Vocabulary for the mention order *)

(** The entries of [mentions] flagged [mentioned] whose position is known,
    with that position, in the order of the mapping. *)
Fixpoint mentioned_positions (mentions : dict BrandMention)
  : list (string * Z) :=
  match mentions with
  | [] => []
  | (b, m) :: rest =>
      match mentioned m, first_position m with
      | true, Some p => (b, p) :: mentioned_positions rest
      | _, _ => mentioned_positions rest
      end
  end.

(** Every entry flagged [mentioned] carries a position, as the entries
    built by [extract_mentions] do. *)
Definition positions_present (mentions : dict BrandMention) : Prop :=
  forall b m, In (b, m) mentions -> mentioned m = true ->
              first_position m <> None.

(** The entries with position [p]. *)
Definition at_position (p : Z) (l : list (string * Z)) : list (string * Z) :=
  filter (fun e => snd e =? p) l.

(** The list that [get_mention_order] sorts. *)
Definition mentioned_pairs (mentions : dict BrandMention)
  : list (string * option Z) :=
  map (fun kv => (fst kv, first_position (snd kv)))
      (filter (fun kv => mentioned (snd kv)) mentions).

(** *** Vocabulary for further properties of [calculate_som] *)

(** Brand [b] occurs in the mention order of record [r]. *)
Definition in_order (b : string) (r : QueryResult) : bool :=
  PyList.contains b (mention_order r).

(** ** storage.py: listing the results files *)

Module StorageListing.

(** [p.stat().st_mtime] of one listed file against another *)
Definition older (e1 e2 : string * File) : bool :=
  mtime (snd e1) <? mtime (snd e2).

(** [StorageManager.get_results_files] *)
Definition get_results_files (disk : Disk) : list string :=
  let files := StorageManager.glob_results disk in
  map fst (PySort.sort_reverse older files).

End StorageListing.

(** *** Vocabulary for the data-quality grades *)

(** The four grades, lowest first. *)
Definition grade_rank (quality : string) : Z :=
  if String.eqb quality "LOW" then 0
  else if String.eqb quality "MODERATE" then 1
  else if String.eqb quality "GOOD" then 2
  else 3.

(** ** theme_analyzer.py: the scan of [_extract_brand_contexts], as written

    The loop asks [find] for the next occurrence from [start] on, cuts the
    window around it and resumes one character behind it. [fuel] bounds
    the number of turns; [None] means the loop is still running. *)

Module ThemeContexts.

(** [s.find(sub, start)] for [0 <= start] *)
Definition find_start (s sub : string) (start : Z) : Z :=
  if PyStr.len s <? start then -1
  else PyStr.find_from sub (PyStr.drop (Z.to_nat start) s) start.

(** [s[a:b]] for [0 <= a] and [0 <= b] *)
Definition slice (s : string) (a b : Z) : string :=
  String.substring (Z.to_nat a) (Z.to_nat (b - a)) s.

Fixpoint contexts_loop (fuel : nat) (text text_lower brand brand_lower : string)
    (window start : Z) (contexts : list string) : option (list string) :=
  match fuel with
  | O => None
  | S fuel' =>
      let pos := find_start text_lower brand_lower start in
      if pos =? -1 then Some contexts
      else
        let context_start := Z.max 0 (pos - window) in
        let context_end :=
          Z.min (PyStr.len text) (pos + PyStr.len brand + window) in
        let context := slice text context_start context_end in
        contexts_loop fuel' text text_lower brand brand_lower window
          (pos + 1) (contexts ++ [context])%list
  end.

(** [_extract_brand_contexts(text, brand, window)] run for [fuel] turns *)
Definition run (fuel : nat) (text brand : string) (window : Z)
  : option (list string) :=
  contexts_loop fuel text (PyStr.lower text) brand (PyStr.lower brand)
    window 0 [].

End ThemeContexts.

(** *** Vocabulary for the theme insights *)

(** Every record has an entry for every tracked brand. *)
Definition covered (brands : list string) (results : list QueryResult)
  : Prop :=
  forall r, In r results -> forall b, In b brands ->
    Dict.has b (mentions r) = true.

(** A theme insight as [extract_themes] files it under brand [b] and
    theme [t]. *)
Definition insight_filed (b t : string) (ti : ThemeInsight) : Prop :=
  theme ti = t /\ ti_brand ti = b /\ (0 < frequency ti)%Q
  /\ (List.length (ti_example_quotes ti) <= 3)%nat.

(** ** theme_analyzer.py: narratives per attribute group

    Every subscript of [analyze_narratives] is guarded by a membership test
    on the same mapping, and the division by a test on its divisor: the
    function cannot raise and is modelled as a pure function. Scores are
    sums and quotients of frequencies, kept exact. *)

Module ThemeNarratives.

Definition ATTRIBUTE_GROUPS : list (string * list string) :=
  [ ("Network Excellence",
     ["reliability"; "network_quality"; "coverage"; "5g"; "speed"; "fast";
      "performance"]);
    ("Value Proposition", ["price"; "value"; "affordable"; "cheap"]);
    ("Customer Experience", ["customer_service"; "support"; "service"]);
    ("Innovation", ["innovation"; "technology"; "modern"; "5g"]);
    ("Global Reach", ["international"; "roaming"; "global"]);
    ("Data & Performance", ["data"; "unlimited"; "volume"; "speed"; "fast"]);
    ("Premium Positioning", ["premium"; "quality"; "best"; "reliability"]) ].

(** [a < b] on exact scores *)
Definition Qltb (a b : Q) : bool := negb (Qle_bool b a).

(** The body of the loop over the attributes of a group: the running
    [total_score] and the [brand_quotes] default dictionary. *)
Definition add_attribute (brand : string) (of_brand : dict ThemeInsight)
    (state : Q * dict (list string)) (attr : string)
  : Q * dict (list string) :=
  let '(total_score, brand_quotes) := state in
  match Dict.get attr of_brand with
  | Some insight =>
      let quotes :=
        match Dict.get brand brand_quotes with
        | Some quotes => quotes
        | None => []
        end in
      ((total_score + frequency insight)%Q,
       Dict.set brand (quotes ++ firstn 2 (ti_example_quotes insight))%list
                brand_quotes)
  | None => state
  end.

(** The body of the loop over [self.brands]. *)
Definition score_brand (theme_insights : dict (dict ThemeInsight))
    (attributes : list string) (state : dict Q * dict (list string))
    (brand : string) : dict Q * dict (list string) :=
  let '(brand_scores, brand_quotes) := state in
  match Dict.get brand theme_insights with
  | None => (Dict.set brand 0%Q brand_scores, brand_quotes)
  | Some of_brand =>
      let '(total_score, brand_quotes') :=
        fold_left (add_attribute brand of_brand) attributes
                  (0%Q, brand_quotes) in
      let score :=
        match attributes with
        | [] => 0%Q
        | _ :: _ => (total_score / inject_Z (PyList.len attributes))%Q
        end in
      (Dict.set brand score brand_scores, brand_quotes')
  end.

(** [max(brand_scores.items(), key=lambda x: x[1])] on a non-empty
    mapping: the first entry among those with the highest score. *)
Definition leader_of (first : string * Q) (others : list (string * Q))
  : string * Q :=
  fold_left (fun best entry => if Qltb (snd best) (snd entry) then entry
                               else best)
            others first.

(** The body of the loop over the attribute groups: the analysis of one
    group, or nothing when no brand is tracked. *)
Definition narrative_of (brands : list string)
    (theme_insights : dict (dict ThemeInsight))
    (group : string * list string) : option NarrativeAnalysis :=
  let '(group_name, attributes) := group in
  let '(brand_scores, brand_quotes) :=
    fold_left (score_brand theme_insights attributes) brands
              (Dict.empty, Dict.empty) in
  match brand_scores with
  | [] => None
  | first :: others =>
      let '(leader_brand, leader_score) := leader_of first others in
      let gaps :=
        map (fun e => (fst e, PyFloat.Fin (leader_score - snd e)))
            brand_scores in
      Some (mkNarrativeAnalysis group_name
              (map (fun e => (fst e, PyFloat.Fin (snd e))) brand_scores)
              leader_brand (PyFloat.Fin leader_score) gaps brand_quotes)
  end.

(** [key(x) < key(y)] for [key=lambda x: x.leader_score] *)
Definition lower_leader_score (x y : NarrativeAnalysis) : bool :=
  PyFloat.lt (leader_score x) (leader_score y).

(** [ThemeAnalyzer.analyze_narratives] for an analyzer tracking [brands] *)
Definition analyze_narratives (brands : list string)
    (theme_insights : dict (dict ThemeInsight)) : list NarrativeAnalysis :=
  let analyses :=
    fold_left
      (fun analyses group =>
         match narrative_of brands theme_insights group with
         | Some analysis => (analyses ++ [analysis])%list
         | None => analyses
         end)
      ATTRIBUTE_GROUPS [] in
  PySort.sort_reverse lower_leader_score analyses.

(** [ThemeAnalyzer.create_narrative_matrix] *)
Definition create_narrative_matrix (narratives : list NarrativeAnalysis)
  : dict (dict PyFloat.t) :=
  fold_left
    (fun matrix narrative =>
       Dict.set (attribute narrative) (brand_ownership narrative) matrix)
    narratives Dict.empty.

End ThemeNarratives.

(** *** Vocabulary for the narratives *)

(** A narrative as [analyze_narratives] builds it for [brands]: ownership
    scores and gaps for exactly the tracked brands; the leader is a tracked
    brand holding the highest score; every gap is the leader's score minus
    the brand's own, so none is negative. *)
Definition narrative_well_formed (brands : list string)
    (n : NarrativeAnalysis) : Prop :=
  map fst (gap_analysis n) = map fst (brand_ownership n)
  /\ (forall b, Dict.has b (brand_ownership n) = true <-> In b brands)
  /\ In (leader n) brands
  /\ exists top,
       leader_score n = PyFloat.Fin top
       /\ Dict.get (leader n) (brand_ownership n) = Some (PyFloat.Fin top)
       /\ forall b, In b brands ->
            exists score,
              Dict.get b (brand_ownership n) = Some (PyFloat.Fin score)
              /\ (score <= top)%Q
              /\ Dict.get b (gap_analysis n)
                 = Some (PyFloat.Fin (top - score)).

(** ** theme_analyzer.py: competitive quotes *)

(** The mapping that [extract_competitive_quotes] builds for one quote,
    with its four keys. *)
Record CompetitiveQuote : Type := mkCompetitiveQuote {
  quote : string;
  quote_category : string;
  brands_mentioned : string;
  quote_query : string
}.

Module ThemeQuotes.

(** [c.isspace()] on an ASCII character: tab to carriage return, the four
    separators and the space. *)
Definition is_space (c : ascii) : bool :=
  let n := nat_of_ascii c in
  ((9 <=? n) && (n <=? 13) || (28 <=? n) && (n <=? 32))%nat.

(** [s.lstrip()] *)
Fixpoint lstrip (s : string) : string :=
  match s with
  | EmptyString => EmptyString
  | String c s' => if is_space c then lstrip s' else s
  end.

(** [s.rstrip()] *)
Fixpoint rstrip (s : string) : string :=
  match s with
  | EmptyString => EmptyString
  | String c s' =>
      match rstrip s' with
      | EmptyString => if is_space c then EmptyString else String c EmptyString
      | kept => String c kept
      end
  end.

(** [s.strip()] *)
Definition strip (s : string) : string := rstrip (lstrip s).

(** [len(s.split())]: the number of maximal runs of characters that are
    not whitespace; [in_word] tells whether the previous character was part
    of one. *)
Fixpoint word_count (s : string) (in_word : bool) : Z :=
  match s with
  | EmptyString => 0
  | String c s' =>
      if is_space c then word_count s' false
      else (if in_word then 0 else 1) + word_count s' true
  end.

(** A character of the class [.!?]. *)
Definition is_terminator (c : ascii) : bool :=
  Ascii.eqb c "."%char || Ascii.eqb c "!"%char || Ascii.eqb c "?"%char.

(** [re.split(r'[.!?]+', text)]: the pieces between the maximal runs of
    terminators, the first and the last possibly empty. The head of the
    list is the piece being read; [in_run] tells whether the previous
    character was a terminator. *)
Fixpoint re_split (text : string) (in_run : bool) : list string :=
  match text with
  | EmptyString => [EmptyString]
  | String c text' =>
      if is_terminator c then
        if in_run then re_split text' true
        else EmptyString :: re_split text' true
      else
        match re_split text' false with
        | piece :: pieces => String c piece :: pieces
        | [] => [String c EmptyString]
        end
  end.

(** [ThemeAnalyzer._split_into_sentences] *)
Definition _split_into_sentences (text : string) : list string :=
  map strip
      (filter (fun s => (20 <? String.length (strip s))%nat)
              (re_split text false)).

(** The mapping appended for a sentence of a result. *)
Definition quote_of (result : QueryResult) (sentence : string)
  : CompetitiveQuote :=
  mkCompetitiveQuote (strip sentence) (category result)
    (String.concat ", " (mention_order result))
    (String.substring 0 80 (query result) ++ "...").

(** The loop over the sentences of one result; it ends early once the
    limit is reached, which is looked at only behind a sentence that names
    the brand. *)
Fixpoint scan_sentences (brand : string) (result : QueryResult) (limit : Z)
    (sentences : list string) (quotes : list CompetitiveQuote)
  : list CompetitiveQuote :=
  match sentences with
  | [] => quotes
  | sentence :: rest =>
      if PyStr.contains (PyStr.lower brand) (PyStr.lower sentence) then
        let quotes :=
          if 10 <? word_count sentence false
          then (quotes ++ [quote_of result sentence])%list
          else quotes in
        if limit <=? PyList.len quotes then quotes
        else scan_sentences brand result limit rest quotes
      else scan_sentences brand result limit rest quotes
  end.

(** The loop over the results. *)
Fixpoint scan_results (brand : string) (limit : Z)
    (results : list QueryResult) (quotes : list CompetitiveQuote)
  : result (list CompetitiveQuote) :=
  match results with
  | [] => Ok quotes
  | result :: rest =>
      mention <- subscript (mentions result) brand ;;
      if negb (mentioned mention) then scan_results brand limit rest quotes
      else
        let sentences := _split_into_sentences (response result) in
        let quotes := scan_sentences brand result limit sentences quotes in
        if limit <=? PyList.len quotes then Ok quotes
        else scan_results brand limit rest quotes
  end.

(** [ThemeAnalyzer.extract_competitive_quotes] *)
Definition extract_competitive_quotes (results : list QueryResult)
    (brand : string) (limit : Z) : result (list CompetitiveQuote) :=
  scan_results brand limit results [].

End ThemeQuotes.

(** A quote taken from [r]: a sentence of its response that names the
    brand in more than ten words, from a record that mentions the brand. *)
Definition quote_from (brand : string) (r : QueryResult)
    (q : CompetitiveQuote) : Prop :=
  (exists m, Dict.get brand (mentions r) = Some m /\ mentioned m = true)
  /\ exists sentence,
       In sentence (ThemeQuotes._split_into_sentences (response r))
       /\ PyStr.contains (PyStr.lower brand) (PyStr.lower sentence) = true
       /\ 10 < ThemeQuotes.word_count sentence false
       /\ q = ThemeQuotes.quote_of r sentence.

(** ** monitor.py: surveys and reports *)

Record SOMReport : Type := mkSOMReport {
  report_timestamp : string;
  report_provider : string;
  report_model : string;
  report_total_queries : Z;
  report_metrics : dict SOMMetrics
}.

Module SOMSurvey.

(** [SOMMonitor.generate_report] on the given results; [now] is
    [datetime.now().isoformat()]. *)
Definition generate_report (now : string) (brands : list string)
    (results : list QueryResult) : result SOMReport :=
  match results with
  | [] => Raise (ValueError "No results to generate report from")
  | first :: _ =>
      metrics <- SOMMonitor.calculate_som brands results ;;
      Ok (mkSOMReport now (provider first) (model first)
            (PyList.len results) metrics)
  end.

(** A loop [for x in l: body] over a state that the body updates in place:
    an exception ends the loop in the state reached by then. *)
Fixpoint loop {A S} (body : S -> A -> S * option exn) (l : list A) (st : S)
  : S * option exn :=
  match l with
  | [] => (st, None)
  | x :: l' =>
      match body st x with
      | (st', None) => loop body l' st'
      | (st', Some e) => (st', Some e)
      end
  end.

(** [range(n)] *)
Definition range (n : Z) : list Z := map Z.of_nat (seq 0 (Z.to_nat n)).

Section RunSurvey.

Variable read_csv : file_content -> result (list HistoryRow).

(** The two tables of config.py that [run_survey] reads. *)
Variable ENABLED_CATEGORIES : dict bool.
Variable QUERY_TEMPLATES : dict (list string).

(** The client of the provider: its state, [LLMClientFactory.create], and
    [client.query] with the temperature and token limit of config.py, which
    answers [None] when the request failed. *)
Variable Client : Type.
Variable create : string -> result Client.
Variable client_query : Client -> string -> string -> Client * option string.



(** [QUERY_TEMPLATES.get(category, [])] *)
Definition templates (category : string) : list string :=
  match Dict.get category QUERY_TEMPLATES with
  | Some queries => queries
  | None => []
  end.

(** [total_queries], the denominator of the progress lines. *)
Definition total_queries_of (categories : list string) (runs_per_query : Z)
    (models : list string) : Z :=
  PyList.sum (map (fun cat => PyList.len (templates cat)) categories)
  * runs_per_query * PyList.len models.

(** What the loops of [run_survey] update: the client, the counter
    [current] and [self.results]. *)
Record Progress : Type := mkProgress {
  pg_client : Client;
  pg_current : Z;
  pg_results : list QueryResult
}.

(** The body of the innermost loop: one query to one model. *)
Definition ask (brands : list string) (timestamp provider category
    query : string) (run : Z) (st : Progress) (model : string)
  : Progress * option exn :=
  let current := pg_current st + 1 in
  let '(client, response) := client_query (pg_client st) query model in
  match response with
  | None | Some EmptyString => (mkProgress client current (pg_results st), None)
  | Some response =>
      match ResponseAnalyzerOrder.analyze brands response with
      | Ok (mentions, mention_order, total_mentioned) =>
          let result :=
            mkQueryResult timestamp category query run model provider
              response mentions mention_order total_mentioned in
          (mkProgress client current (pg_results st ++ [result])%list, None)
      | Raise e => (mkProgress client current (pg_results st), Some e)
      end
  end.

(** The four nested loops of [run_survey]. *)
Definition survey_loop (brands : list string) (timestamp provider : string)
    (categories : list string) (runs_per_query : Z) (models : list string)
    (st : Progress) : Progress * option exn :=
  loop (fun st category =>
          let queries := templates category in
          loop (fun st query =>
                  loop (fun st run =>
                          loop (ask brands timestamp provider category
                                    query run)
                               models st)
                       (range runs_per_query) st)
               queries st)
       categories st.



(** The record that the answer to one query leaves. *)
Definition answer_of (brands : list string) (timestamp0 provider0 category0
    query0 : string) (run0 : Z) (model0 : string) (r : QueryResult) : Prop :=
  timestamp r = timestamp0
  /\ provider r = provider0
  /\ category r = category0
  /\ query r = query0
  /\ run r = run0
  /\ model r = model0
  /\ response r <> EmptyString
  /\ ResponseAnalyzerOrder.analyze brands (response r)
     = Ok (mentions r, mention_order r, total_mentioned r).

(** A record as one answered query of a survey leaves it. *)
Definition collected_in (brands : list string) (timestamp0 provider0 : string)
    (categories : list string) (runs_per_query : Z) (models : list string)
    (r : QueryResult) : Prop :=
  timestamp r = timestamp0
  /\ provider r = provider0
  /\ In (category r) categories
  /\ In (query r) (templates (category r))
  /\ 0 <= run r < runs_per_query
  /\ In (model r) models
  /\ response r <> EmptyString
  /\ ResponseAnalyzerOrder.analyze brands (response r)
     = Ok (mentions r, mention_order r, total_mentioned r).

End RunSurvey.

End SOMSurvey.

(** *** Vocabulary for the further properties *)

(** What [calculate_som] binds a tracked brand to, average position
    included. *)
Definition som_entry (results : list QueryResult) (b : string)
    (sm : SOMMetrics) : Prop :=
  som_of results b sm
  /\ (avg_position sm = None <-> filter (in_order b) results = [])
  /\ forall a, avg_position sm = Some a -> (1 <= a)%Q.

(** The number of records whose first mention is [b]. *)
Definition first_total (b : string) (results : list QueryResult) : Z :=
  Z.of_nat (List.length (filter (first_is b) results)).

(** [sum(f(b) for b in brands)] *)
Definition sumZ (f : string -> Z) (brands : list string) : Z :=
  fold_right (fun b acc => f b + acc) 0 brands.

(** What remains to be found behind the match at the head of [u]. *)
Definition behind (sub u : string) (p : nat) : list nat :=
  match u with
  | EmptyString => []
  | String _ v => ThemeAnalyzer.occurrences sub v (S p)
  end.

(** The window cut around the match at index [pos], as
    [_extract_brand_contexts] computes it. *)
Definition window_at (text brand : string) (window pos : nat) : string :=
  String.substring (pos - window)
    (Nat.min (String.length text) (pos + String.length brand + window)
     - (pos - window))
    text.

(** * Properties *)

(** ** Facts about the string primitives *)

Module PyStrFacts.

Import PyStr.

Lemma startswith_empty s : startswith s "" = true.
Proof. destruct s; reflexivity. Qed.

Lemma occurs_at_0 sub s : occurs_at sub s 0 <-> startswith s sub = true.
Proof.
  unfold occurs_at; simpl. split; [tauto | split; [lia | assumption]].
Qed.

Lemma occurs_at_S sub c s i :
  occurs_at sub (String c s) (S i) <-> occurs_at sub s i.
Proof.
  unfold occurs_at. cbn [drop String.length].
  split; intros [H1 H2]; (split; [lia | exact H2]).
Qed.

Lemma occurs_at_nil sub i :
  occurs_at sub "" i -> startswith "" sub = true.
Proof.
  intros [H1 H2]. simpl in H1. assert (i = 0%nat) by lia. now subst.
Qed.

Lemma contains_iff sub s :
  contains sub s = true <-> exists i, occurs_at sub s i.
Proof.
  induction s as [|c s IH]; cbn [contains].
  - rewrite orb_false_r. split.
    + intro H. exists 0%nat. now apply occurs_at_0.
    + intros [i H]. now apply occurs_at_nil in H.
  - rewrite orb_true_iff, IH. split.
    + intros [H | [i H]].
      * exists 0%nat. now apply occurs_at_0.
      * exists (S i). now apply occurs_at_S.
    + intros [[|i] H].
      * left. now apply occurs_at_0 in H.
      * right. exists i. now apply occurs_at_S in H.
Qed.

Lemma find_from_found sub s k :
  contains sub s = true ->
  exists i, find_from sub s k = k + Z.of_nat i /\ first_index sub s i.
Proof.
  revert k. induction s as [|c s IH]; intros k H;
    cbn [find_from contains] in *.
  - rewrite orb_false_r in H. rewrite H. exists 0%nat. split; [lia|].
    split; [now apply occurs_at_0 | intros j Hj; lia].
  - destruct (startswith (String c s) sub) eqn:E.
    + exists 0%nat. split; [lia|].
      split; [now apply occurs_at_0 | intros j Hj; lia].
    + simpl in H. destruct (IH (k + 1) H) as [i [Hf [Ho Hm]]].
      exists (S i). split; [lia|]. split.
      * now apply occurs_at_S.
      * intros [|j] Hj Hc.
        -- apply occurs_at_0 in Hc. congruence.
        -- apply occurs_at_S in Hc. apply (Hm j); [lia | assumption].
Qed.

Lemma find_from_absent sub s k :
  contains sub s = false -> find_from sub s k = -1.
Proof.
  revert k. induction s as [|c s IH]; intros k H;
    cbn [find_from contains] in *;
    apply orb_false_iff in H; destruct H as [H1 H2]; rewrite H1; auto.
Qed.

Lemma count_from_nonneg sub s k : 0 <= count_from sub s k.
Proof.
  revert k. induction s as [|c s IH]; intros k; cbn [count_from]; [lia|].
  destruct k; [|apply IH].
  destruct (startswith (String c s) sub); [|apply IH].
  specialize (IH (String.length sub - 1)%nat). lia.
Qed.

Lemma count_from_pos a sub s :
  0 < count_from (String a sub) s 0 <-> contains (String a sub) s = true.
Proof.
  induction s as [|c s IH].
  - simpl. split; [lia | discriminate].
  - cbn [count_from contains].
    destruct (startswith (String c s) (String a sub)) eqn:E.
    + pose proof (count_from_nonneg (String a sub) s
                    (String.length (String a sub) - 1)).
      simpl orb. split; [reflexivity | lia].
    + simpl orb. exact IH.
Qed.

Lemma len_nonneg s : 0 <= len s.
Proof. unfold len; lia. Qed.

(** The three string tests of [extract_mentions] agree:
    [sub in s], [s.count(sub) > 0] and [s.find(sub) != -1]. *)
Lemma count_pos_iff_contains s sub :
  0 < count s sub <-> contains sub s = true.
Proof.
  destruct sub as [|a sub].
  - simpl. pose proof (len_nonneg s).
    assert (contains "" s = true) as ->.
    { destruct s; simpl; reflexivity. }
    split; [reflexivity | lia].
  - apply count_from_pos.
Qed.

Lemma count_zero_of_absent s sub : contains sub s = false -> count s sub = 0.
Proof.
  intro H. destruct sub as [|a sub].
  - destruct s; discriminate.
  - simpl. pose proof (count_from_nonneg (String a sub) s 0).
    destruct (Z.eq_dec (count_from (String a sub) s 0) 0) as [|N]; auto.
    assert (0 < count_from (String a sub) s 0) as P by lia.
    apply count_from_pos in P. congruence.
Qed.

Lemma lower_empty : lower "" = "".
Proof. reflexivity. Qed.

End PyStrFacts.

(** ** Facts about dictionaries *)

Module DictFacts.

Lemma get_set_same {V} k (v : V) d : Dict.get k (Dict.set k v d) = Some v.
Proof.
  induction d as [|[k' v'] d IH]; simpl.
  - now rewrite String.eqb_refl.
  - destruct (String.eqb k k') eqn:E; simpl; rewrite E; auto.
Qed.

Lemma get_set_other {V} k k' (v : V) d :
  k <> k' -> Dict.get k (Dict.set k' v d) = Dict.get k d.
Proof.
  intro N. induction d as [|[k0 v0] d IH]; simpl.
  - destruct (String.eqb k k') eqn:E; auto.
    apply String.eqb_eq in E; contradiction.
  - destruct (String.eqb k' k0) eqn:E; simpl.
    + apply String.eqb_eq in E; subst k0.
      destruct (String.eqb k k') eqn:E'; auto.
      apply String.eqb_eq in E'; contradiction.
    + now rewrite IH.
Qed.

End DictFacts.

(** ** Brand-mention extraction *)

Section ExtractMentions.

Import ResponseAnalyzer.

(** After the loop over [brands], a brand of the list is bound to the
    mention computed for it, whatever was bound before. *)
Lemma extract_loop_get text_lower brands : forall acc b,
  Dict.get b
    (fold_left (fun mentions brand =>
                  Dict.set brand (mention_of text_lower brand) mentions)
               brands acc)
  = if in_dec string_dec b brands then Some (mention_of text_lower b)
    else Dict.get b acc.
Proof.
  induction brands as [|x brands IH]; intros acc b; simpl fold_left.
  - reflexivity.
  - rewrite IH. destruct (in_dec string_dec b brands) as [i|n].
    + destruct (in_dec string_dec b (x :: brands)) as [|n']; auto.
      exfalso; apply n'; now right.
    + destruct (string_dec x b) as [->|N].
      * rewrite DictFacts.get_set_same.
        destruct (in_dec string_dec b (b :: brands)) as [|n']; auto.
        exfalso; apply n'; now left.
      * rewrite DictFacts.get_set_other by congruence.
        destruct (in_dec string_dec b (x :: brands)) as [[e|i]|]; auto;
          contradiction.
Qed.

Lemma extract_mentions_get brands text b :
  In b brands ->
  Dict.get b (extract_mentions brands text)
  = Some (mention_of (PyStr.lower text) b).
Proof.
  intro H. unfold extract_mentions. rewrite extract_loop_get.
  destruct (in_dec string_dec b brands); [reflexivity | contradiction].
Qed.

(** C1: for every tracked brand [b] of the brand list and every text [t],
    [extract_mentions] binds [b] to a [BrandMention] [m] such that
    [m] is mentioned iff the case-insensitive occurrence count of [b] in [t]
    is positive; when mentioned, [first_position] is the first index at which
    the lowered brand occurs in the lowered text and [count] is the
    occurrence count; when not mentioned, [first_position] is [None] and
    [count] is [0]; and [mentioned], [count > 0] and
    [first_position is not None] are equivalent. *)
Theorem extract_mentions_correct (brands : list string) (t b : string) :
  In b brands ->
  exists m,
    Dict.get b (extract_mentions brands t) = Some m
    /\ (mentioned m = true <-> 0 < PyStr.count (PyStr.lower t) (PyStr.lower b))
    /\ (mentioned m = true ->
        count m = PyStr.count (PyStr.lower t) (PyStr.lower b)
        /\ exists i, first_position m = Some (Z.of_nat i)
                     /\ PyStr.first_index (PyStr.lower b) (PyStr.lower t) i)
    /\ (mentioned m = false -> first_position m = None /\ count m = 0)
    /\ (mentioned m = true <-> 0 < count m)
    /\ (mentioned m = true <-> first_position m <> None).
Proof.
  intro Hin. eexists. split; [now apply extract_mentions_get|].
  unfold mention_of.
  destruct (PyStr.contains (PyStr.lower b) (PyStr.lower t)) eqn:E; simpl.
  - pose proof (proj2 (PyStrFacts.count_pos_iff_contains _ _) E) as P.
    destruct (PyStrFacts.find_from_found _ _ 0 E) as [i [Hf Hi]].
    repeat split; auto; try discriminate.
    exists i. split; [|exact Hi]. unfold PyStr.find. rewrite Hf. reflexivity.
  - pose proof (PyStrFacts.count_zero_of_absent _ _ E) as P. rewrite P.
    repeat split; auto; try discriminate; try lia; congruence.
Qed.

Lemma extract_mentions_correct_witness :
  exists m,
    Dict.get "O2" (extract_mentions ["Telekom"; "O2"] "o2 or Vodafone; O2!")
    = Some m
    /\ mentioned m = true /\ first_position m = Some 0 /\ count m = 2.
Proof.
  destruct (extract_mentions_correct ["Telekom"; "O2"] "o2 or Vodafone; O2!"
              "O2") as [m [Hg _]].
  - simpl; auto.
  - exists m. split; [exact Hg|].
    vm_compute in Hg. injection Hg as <-. repeat split.
Defined.

End ExtractMentions.

(** ** The empty brand name *)

Section EmptyBrand.

Import ResponseAnalyzer.

Lemma mention_of_empty text_lower :
  mention_of text_lower "" = mkBrandMention true (Some 0) (PyStr.len text_lower + 1).
Proof.
  unfold mention_of. rewrite PyStrFacts.lower_empty.
  assert (PyStr.contains "" text_lower = true) as ->.
  { destruct text_lower; reflexivity. }
  f_equal. unfold PyStr.find. destruct text_lower; reflexivity.
Qed.

(** C4 as stated does not hold: ["" in text] is true for every text, so
    the empty brand name is reported as mentioned; on the text ["abc"] it
    is found at offset 0 and counted 4 times. *)
Lemma empty_brand_counterexample :
  Dict.get "" (extract_mentions [""] "abc")
  = Some (mkBrandMention true (Some 0) 4)
  /\ Dict.get "" (extract_mentions [""] "abc")
     <> Some (mkBrandMention false None 0).
Proof. split; [reflexivity | discriminate]. Qed.

(** C4, amended: if the tracked brand list contains the empty brand name,
    [extract_mentions] reports it as mentioned in every text [t], with
    [first_position = 0] and [count = len(t.lower()) + 1], one more than
    the length of the lowered text that is searched. *)
Theorem empty_brand_always_mentioned (brands : list string) (t : string) :
  In "" brands ->
  Dict.get "" (extract_mentions brands t)
  = Some (mkBrandMention true (Some 0) (PyStr.len (PyStr.lower t) + 1)).
Proof.
  intro H. rewrite (extract_mentions_get _ _ _ H).
  apply f_equal, mention_of_empty.
Qed.

Lemma empty_brand_always_mentioned_witness :
  In "" ["O2"; ""]
  /\ Dict.get "" (extract_mentions ["O2"; ""] "Try O2")
     = Some (mkBrandMention true (Some 0) 7).
Proof.
  split; [simpl; auto|].
  apply (empty_brand_always_mentioned ["O2"; ""] "Try O2"). simpl; auto.
Defined.

End EmptyBrand.

(** ** Aggregation into SOM metrics *)

Section CalculateSom.

Import SOMMonitor.

Lemma counts_as_mention_ok b r :
  counts_as_mention b r = Ok (mentions_brand b r).
Proof.
  unfold counts_as_mention, mentions_brand, Dict.has, subscript.
  destruct (Dict.get b (mentions r)); reflexivity.
Qed.

Lemma is_first_mention_ok b r : is_first_mention b r = Ok (first_is b r).
Proof. unfold is_first_mention, first_is. now destruct (mention_order r). Qed.

Lemma first_is_iff b r : first_is b r = true <-> first_mentioned b r.
Proof.
  unfold first_is, first_mentioned. destruct (mention_order r) as [|x l]; simpl.
  - split; discriminate.
  - rewrite String.eqb_eq. split; congruence.
Qed.

Lemma count_where_pure {A} (p : A -> result bool) (q : A -> bool) l :
  (forall r, p r = Ok (q r)) ->
  PyList.count_where p l = Ok (Z.of_nat (List.length (filter q l))).
Proof.
  intro H. induction l as [|r l IH]; [reflexivity|].
  cbn [PyList.count_where filter]. rewrite H, IH. cbn [bind].
  destruct (q r); cbn [List.length]; f_equal; lia.
Qed.

Lemma index_from_total x l : forall i,
  PyList.contains x l = true -> exists j, PyList.index_from x l i = Ok j.
Proof.
  induction l as [|y l IH]; intros i H; [discriminate|].
  cbn [PyList.index_from]. unfold PyList.contains in H. cbn [existsb] in H.
  destruct (String.eqb y x) eqn:E; [eauto|].
  rewrite String.eqb_sym, E in H. apply IH, H.
Qed.

Lemma collect_positions_total b results : forall acc,
  exists ps, for_each (collect_position b) results acc = Ok ps.
Proof.
  induction results as [|r results IH]; intro acc; cbn [for_each].
  - eauto.
  - unfold collect_position at 1.
    destruct (PyList.contains b (mention_order r)) eqn:E; cbn [bind]; [|apply IH].
    destruct (index_from_total b (mention_order r) 0 E) as [j Hj].
    unfold PyList.index. rewrite Hj. cbn [bind]. apply IH.
Qed.

(** A loop whose body binds the current key to a value satisfying [P]
    leaves every key of the list bound to such a value. *)
Lemma for_each_set {V} (body : dict V -> string -> result (dict V))
    (P : string -> V -> Prop) :
  (forall d k, exists v, body d k = Ok (Dict.set k v d) /\ P k v) ->
  forall ks acc, exists d,
    for_each body ks acc = Ok d
    /\ (forall k, In k ks -> exists v, Dict.get k d = Some v /\ P k v)
    /\ (forall k, ~ In k ks -> Dict.get k d = Dict.get k acc).
Proof.
  intros Hbody. induction ks as [|x ks IH]; intro acc; cbn [for_each].
  - exists acc. repeat split; auto. intros k [].
  - destruct (Hbody acc x) as [v [Hb Hv]]. rewrite Hb. cbn [bind].
    destruct (IH (Dict.set x v acc)) as [d [Hd [Hin Hout]]].
    exists d. split; [exact Hd|]. split.
    + intros k Hk. destruct (in_dec string_dec k ks) as [i|n]; [now apply Hin|].
      destruct Hk as [->|Hk]; [|contradiction].
      exists v. split; [|exact Hv].
      rewrite (Hout k n). apply DictFacts.get_set_same.
    + intros k Hk. rewrite Hout by (intro; apply Hk; now right).
      apply DictFacts.get_set_other. intros ->. apply Hk. now left.
Qed.

Lemma som_for_brand_ok results d b :
  exists sm,
    som_for_brand results (PyList.len results) d b = Ok (Dict.set b sm d)
    /\ som_of results b sm.
Proof.
  unfold som_for_brand.
  rewrite (count_where_pure _ _ results (counts_as_mention_ok b)).
  cbn [bind].
  destruct (collect_positions_total b results []) as [ps ->]. cbn [bind].
  rewrite (count_where_pure _ _ results (is_first_mention_ok b)).
  cbn [bind]. eexists. split; [reflexivity|].
  unfold som_of, mention_total. cbn. repeat split.
Qed.

Lemma calculate_som_get brands results b :
  results <> [] -> In b brands ->
  exists metrics sm,
    calculate_som brands results = Ok metrics
    /\ Dict.get b metrics = Some sm
    /\ som_of results b sm.
Proof.
  intros Hne Hin. destruct results as [|r0 rs]; [contradiction|].
  unfold calculate_som.
  destruct (for_each_set (som_for_brand (r0 :: rs) (PyList.len (r0 :: rs)))
              (som_of (r0 :: rs)) (som_for_brand_ok (r0 :: rs))
              brands Dict.empty) as [d [Hd [Hk _]]].
  destruct (Hk b Hin) as [sm [Hg Hs]]. exists d, sm. auto.
Qed.

Lemma len_pos {A} (l : list A) : l <> [] -> 0 < PyList.len l.
Proof. destruct l; [congruence|]. intros _. unfold PyList.len. simpl. lia. Qed.

Lemma div_zero n : (PyList.div 0 n == 0)%Q.
Proof. unfold PyList.div, Qdiv. apply Qmult_0_l. Qed.

Lemma div_le_mono a b n :
  0 < n -> a <= b -> (PyList.div a n <= PyList.div b n)%Q.
Proof.
  intros Hn Hab. unfold PyList.div, Qdiv. apply Qmult_le_compat_r.
  - now rewrite <- Zle_Qle.
  - apply Qinv_le_0_compat. change 0%Q with (inject_Z 0).
    rewrite <- Zle_Qle. lia.
Qed.

Lemma div_self n : 0 < n -> (PyList.div n n == 1)%Q.
Proof.
  intro Hn. unfold PyList.div, Qdiv. apply Qmult_inv_r.
  change 0%Q with (inject_Z 0). rewrite inject_Z_injective. lia.
Qed.

Lemma filter_length_le {A} (p : A -> bool) l :
  (List.length (filter p l) <= List.length l)%nat.
Proof. induction l as [|x l IH]; simpl; [lia|]. destruct (p x); simpl; lia. Qed.

Lemma filter_length_mono {A} (p q : A -> bool) l :
  (forall x, In x l -> p x = true -> q x = true) ->
  (List.length (filter p l) <= List.length (filter q l))%nat.
Proof.
  induction l as [|x l IH]; intro H; simpl; [lia|].
  assert (IH' := IH (fun y Hy => H y (or_intror Hy))).
  destruct (p x) eqn:Ep.
  - rewrite (H x (or_introl eq_refl) Ep). simpl. lia.
  - destruct (q x); simpl; lia.
Qed.

Lemma filter_none {A} (p : A -> bool) l :
  (forall x, In x l -> p x = false) -> filter p l = [].
Proof.
  induction l as [|x l IH]; intro H; simpl; [reflexivity|].
  rewrite (H x (or_introl eq_refl)). apply IH. intros y Hy. apply H. now right.
Qed.

Lemma mention_total_has_key b results :
  mention_total b results
  = mention_total b (filter (fun r => Dict.has b (mentions r)) results).
Proof.
  unfold mention_total. do 2 f_equal.
  induction results as [|r rs IH]; [reflexivity|]. cbn [filter].
  destruct (Dict.has b (mentions r)) eqn:Eh.
  - cbn [filter]. destruct (mentions_brand b r); now rewrite IH.
  - assert (mentions_brand b r = false) as ->; [|exact IH].
    unfold Dict.has in Eh. unfold mentions_brand.
    destruct (Dict.get b (mentions r)); [discriminate | reflexivity].
Qed.

(** C3: for every non-empty collection of [n] records and every tracked
    brand [A] mentioned in [m] of them, [calculate_som] returns normally and
    gives [mention_rate(A) = m/n]; if [A] is the first element of no
    record's [mention_order], [first_mention_rate(A) = 0]; records whose
    [mentions] mapping lacks [A] raise nothing and contribute nothing to
    [m]. *)
Theorem calculate_som_rates (brands : list string)
    (results : list QueryResult) (A : string) :
  results <> [] -> In A brands ->
  exists metrics sm,
    calculate_som brands results = Ok metrics
    /\ Dict.get A metrics = Some sm
    /\ (mention_rate sm
        == inject_Z (mention_total A results)
           / inject_Z (Z.of_nat (List.length results)))%Q
    /\ ((forall r, In r results -> ~ first_mentioned A r) ->
        (first_mention_rate sm == 0)%Q)
    /\ mention_total A results
       = mention_total A (filter (fun r => Dict.has A (mentions r)) results).
Proof.
  intros Hne Hin.
  destruct (calculate_som_get brands results A Hne Hin)
    as [metrics [sm [Hc [Hg [_ [Hm [Hf _]]]]]]].
  exists metrics, sm. repeat split; auto.
  - rewrite Hm. reflexivity.
  - intro Hnf. rewrite Hf, filter_none; [apply div_zero|].
    intros r Hr. destruct (first_is A r) eqn:E; auto.
    apply first_is_iff in E. now apply Hnf in E.
  - apply mention_total_has_key.
Qed.

Lemma calculate_som_rates_witness :
  exists metrics sm,
    calculate_som ["OpenAI"; "Anthropic"] test_results = Ok metrics
    /\ Dict.get "OpenAI" metrics = Some sm
    /\ (mention_rate sm == 1 # 2)%Q.
Proof.
  destruct (calculate_som_rates ["OpenAI"; "Anthropic"] test_results "OpenAI")
    as [metrics [sm [Hc [Hg [Hm _]]]]].
  - discriminate.
  - simpl; auto.
  - exists metrics, sm. split; [exact Hc|]. split; [exact Hg|].
    rewrite Hm. reflexivity.
Defined.

(** C9: for every non-empty collection whose records satisfy the
    [QueryResult] invariant ([mention_order] holds exactly the brands flagged
    [mentioned]), [calculate_som] gives every tracked brand
    [first_mention_rate <= mention_rate], with both rates in [0, 1]. *)
Theorem first_mention_rate_le_mention_rate (brands : list string)
    (results : list QueryResult) (b : string) :
  results <> [] ->
  (forall r, In r results -> order_invariant r) ->
  In b brands ->
  exists metrics sm,
    calculate_som brands results = Ok metrics
    /\ Dict.get b metrics = Some sm
    /\ (first_mention_rate sm <= mention_rate sm)%Q
    /\ (0 <= first_mention_rate sm)%Q /\ (first_mention_rate sm <= 1)%Q
    /\ (0 <= mention_rate sm)%Q /\ (mention_rate sm <= 1)%Q.
Proof.
  intros Hne Hinv Hin.
  destruct (calculate_som_get brands results b Hne Hin)
    as [metrics [sm [Hc [Hg [_ [Hm [Hf _]]]]]]].
  exists metrics, sm. split; [exact Hc|]. split; [exact Hg|].
  pose proof (len_pos results Hne) as Hn.
  assert (Hfm : (List.length (filter (first_is b) results)
                 <= List.length (filter (mentions_brand b) results))%nat).
  { apply filter_length_mono. intros r Hr E. apply (Hinv r Hr).
    unfold first_is in E. destruct (mention_order r) as [|x l]; [discriminate|].
    apply String.eqb_eq in E. subst x. now left. }
  pose proof (filter_length_le (mentions_brand b) results) as Hmn.
  assert (H0 : (0 <= PyList.div
                       (Z.of_nat (List.length (filter (first_is b) results)))
                       (PyList.len results))%Q).
  { rewrite <- (div_zero (PyList.len results)). apply div_le_mono; lia. }
  assert (H1 : (PyList.div (mention_total b results) (PyList.len results)
                <= 1)%Q).
  { rewrite <- (div_self (PyList.len results) Hn).
    apply div_le_mono; [exact Hn|]. unfold mention_total, PyList.len. lia. }
  assert (H2 : (first_mention_rate sm <= mention_rate sm)%Q).
  { rewrite Hf, Hm. apply div_le_mono; [exact Hn|]. unfold mention_total. lia. }
  rewrite Hf in *. rewrite Hm in *.
  repeat split; auto; eapply Qle_trans; eauto.
Qed.

Lemma first_mention_rate_le_mention_rate_witness :
  exists metrics sm,
    calculate_som ["OpenAI"; "Anthropic"] test_results = Ok metrics
    /\ Dict.get "Anthropic" metrics = Some sm
    /\ (first_mention_rate sm <= mention_rate sm)%Q.
Proof.
  destruct (first_mention_rate_le_mention_rate
              ["OpenAI"; "Anthropic"] test_results "Anthropic")
    as [metrics [sm [Hc [Hg [Hle _]]]]].
  - discriminate.
  - intros r [<-|[<-|[]]] b; unfold mentions_brand; simpl.
    + split.
      * intros [<-|[<-|[]]]; reflexivity.
      * destruct (String.eqb b "OpenAI") eqn:E1.
        -- apply String.eqb_eq in E1. auto.
        -- destruct (String.eqb b "Anthropic") eqn:E2; [|discriminate].
           apply String.eqb_eq in E2. auto.
    + split.
      * intros [<-|[]]; reflexivity.
      * destruct (String.eqb b "OpenAI") eqn:E1; [discriminate|].
        destruct (String.eqb b "Anthropic") eqn:E2; [|discriminate].
        apply String.eqb_eq in E2. auto.
  - simpl; auto.
  - exists metrics, sm. auto.
Defined.

End CalculateSom.

(** ** Data-quality grades *)

Section DataQualityGrades.

Import ConfidenceCalculator.

(** C6: for every integer sample size [n], [evaluate_data_quality]
    assigns exactly one of the four grades by the thresholds
    [n < 30] LOW, [n < 100] MODERATE, [n < 300] GOOD, otherwise EXCELLENT,
    each with its recommendation string; at the boundaries,
    [29] is LOW, [30] is MODERATE, [100] is GOOD and [300] is EXCELLENT. *)
Theorem evaluate_data_quality_grades :
  (forall n : Z,
      let r := evaluate_data_quality n in
      (n < 30 /\ quality r = "LOW"
       /\ recommendation r
          = "Collect " ++ str_of_int (30 - n)
              ++ " more samples for statistical significance")
      \/ (30 <= n < 100 /\ quality r = "MODERATE"
          /\ recommendation r
             = "Consider " ++ str_of_int (100 - n)
                 ++ " more samples for higher confidence")
      \/ (100 <= n < 300 /\ quality r = "GOOD"
          /\ recommendation r = "Sample size adequate for reliable insights")
      \/ (300 <= n /\ quality r = "EXCELLENT"
          /\ recommendation r
             = "Sample size excellent for high-confidence analysis"))
  /\ evaluate_data_quality 29
     = mkDataQuality "LOW" "#f44336"
         "Collect 1 more samples for statistical significance" "⚠️" 29
  /\ evaluate_data_quality 30
     = mkDataQuality "MODERATE" "#ff9800"
         "Consider 70 more samples for higher confidence" "⚡" 30
  /\ evaluate_data_quality 100
     = mkDataQuality "GOOD" "#4caf50"
         "Sample size adequate for reliable insights" "✓" 100
  /\ evaluate_data_quality 300
     = mkDataQuality "EXCELLENT" "#2196f3"
         "Sample size excellent for high-confidence analysis" "⭐" 300.
Proof.
  split; [|repeat split].
  intros n r. subst r. unfold evaluate_data_quality.
  destruct (Z.ltb_spec n 30); [left; repeat split; auto|].
  destruct (Z.ltb_spec n 100); [right; left; repeat split; auto|].
  destruct (Z.ltb_spec n 300); [right; right; left; repeat split; auto|].
  right; right; right; repeat split; auto.
Qed.

End DataQualityGrades.

(** ** Insight texts *)

Section InsightsTextFacts.

Variable pct0 : PyFloat.t -> string.

Lemma has_true_get {V} k (d : dict V) :
  Dict.has k d = true -> exists v, Dict.get k d = Some v.
Proof. unfold Dict.has. destruct (Dict.get k d); [eauto | discriminate]. Qed.

(** One turn of the loop appends the insights due for the narrative. *)
Lemma insight_step_spec b insights n :
  gap_recorded b n ->
  insight_step pct0 b insights n = Ok (insights ++ insights_of pct0 b n)%list.
Proof.
  intro Hcov. unfold insight_step, insights_of, category_of.
  destruct (Dict.has b (brand_ownership n)) eqn:Eo; cbn [negb].
  - destruct (has_true_get _ _ (Hcov Eo)) as [g Hg].
    destruct (has_true_get _ _ Eo) as [s Hs].
    unfold subscript. rewrite Hs, Hg. cbn [bind].
    destruct (String.eqb (leader n) b); [reflexivity|].
    destruct (PyFloat.gt g (PyFloat.Fin (15 # 100))); [reflexivity|].
    destruct (PyFloat.gt g (PyFloat.Fin (5 # 100))
              && PyFloat.lt (leader_score n) (PyFloat.Fin (50 # 100)));
      cbn [message_of]; [reflexivity | now rewrite app_nil_r].
  - unfold Dict.has in Eo.
    destruct (Dict.get b (brand_ownership n)); [discriminate|].
    now rewrite app_nil_r.
Qed.

Lemma insight_loop_spec b narratives : forall insights,
  (forall n, In n narratives -> gap_recorded b n) ->
  for_each (insight_step pct0 b) narratives insights
  = Ok (insights ++ flat_map (insights_of pct0 b) narratives)%list.
Proof.
  induction narratives as [|n ns IH]; intros insights Hcov; cbn [for_each flat_map].
  - now rewrite app_nil_r.
  - rewrite insight_step_spec by (apply Hcov; now left). cbn [bind].
    rewrite IH by (intros m Hm; apply Hcov; now right).
    now rewrite app_assoc.
Qed.

Lemma category_of_exclusive n b g :
  (category_of n b g = Some OwnershipInsight <-> leader n = b)
  /\ (category_of n b g = Some DominatedInsight
      <-> leader n <> b /\ PyFloat.gt g (PyFloat.Fin (15 # 100)) = true)
  /\ (category_of n b g = Some ContestedOpportunity
      <-> leader n <> b
          /\ PyFloat.gt g (PyFloat.Fin (15 # 100)) = false
          /\ PyFloat.gt g (PyFloat.Fin (5 # 100)) = true
          /\ PyFloat.lt (leader_score n) (PyFloat.Fin (50 # 100)) = true)
  /\ (category_of n b g = None
      <-> leader n <> b
          /\ PyFloat.gt g (PyFloat.Fin (15 # 100)) = false
          /\ (PyFloat.gt g (PyFloat.Fin (5 # 100)) = false
              \/ PyFloat.lt (leader_score n) (PyFloat.Fin (50 # 100)) = false)).
Proof.
  unfold category_of.
  destruct (String.eqb_spec (leader n) b) as [E|E];
    [|destruct (PyFloat.gt g (PyFloat.Fin (15 # 100)));
      [|destruct (PyFloat.gt g (PyFloat.Fin (5 # 100)));
        destruct (PyFloat.lt (leader_score n) (PyFloat.Fin (50 # 100)))]];
    cbn [andb]; intuition (try discriminate; try congruence).
Qed.

Lemma in_firstn {A} (x : A) k l : In x (firstn k l) -> In x l.
Proof.
  revert l. induction k as [|k IH]; intros [|y l] H; cbn [firstn] in H;
    try contradiction.
  destruct H as [->|H]; [now left | right; now apply IH].
Qed.

Lemma insights_of_participates b n s :
  In s (insights_of pct0 b n) -> participates b n.
Proof.
  unfold insights_of, participates, Dict.has.
  destruct (Dict.get b (brand_ownership n)); [reflexivity | intros []].
Qed.

(** C7: on narratives that record the target brand's gap wherever they
    record its ownership score, [generate_insights_text] returns at most 5
    insights; they are the first 5, in narrative order, of the insights due
    narrative by narrative; every one of them is due for a narrative in
    which the brand participates, and a narrative in which it does not
    yields none; a participating narrative falls in exactly one of the three
    categories, tried in priority order (leader; else gap above 0.15; else
    gap above 0.05 and leader score below 0.50), or in none. *)
Theorem generate_insights_text_spec (narratives : list NarrativeAnalysis)
    (your_brand : string) :
  (forall n, In n narratives -> gap_recorded your_brand n) ->
  exists out,
    generate_insights_text pct0 narratives your_brand = Ok out
    /\ (List.length out <= 5)%nat
    /\ out = firstn 5 (flat_map (insights_of pct0 your_brand) narratives)
    /\ (forall s, In s out ->
          exists n, In n narratives /\ participates your_brand n
                    /\ In s (insights_of pct0 your_brand n))
    /\ (forall n, ~ participates your_brand n ->
                  insights_of pct0 your_brand n = [])
    /\ (forall n g,
          (category_of n your_brand g = Some OwnershipInsight
           <-> leader n = your_brand)
          /\ (category_of n your_brand g = Some DominatedInsight
              <-> leader n <> your_brand
                  /\ PyFloat.gt g (PyFloat.Fin (15 # 100)) = true)
          /\ (category_of n your_brand g = Some ContestedOpportunity
              <-> leader n <> your_brand
                  /\ PyFloat.gt g (PyFloat.Fin (15 # 100)) = false
                  /\ PyFloat.gt g (PyFloat.Fin (5 # 100)) = true
                  /\ PyFloat.lt (leader_score n) (PyFloat.Fin (50 # 100))
                     = true)
          /\ (category_of n your_brand g = None
              <-> leader n <> your_brand
                  /\ PyFloat.gt g (PyFloat.Fin (15 # 100)) = false
                  /\ (PyFloat.gt g (PyFloat.Fin (5 # 100)) = false
                      \/ PyFloat.lt (leader_score n) (PyFloat.Fin (50 # 100))
                         = false))).
Proof.
  intro Hcov. unfold generate_insights_text.
  rewrite insight_loop_spec by exact Hcov. cbn [bind app].
  eexists. split; [reflexivity|]. split; [apply firstn_le_length|].
  split; [reflexivity|]. split; [|split].
  - intros s Hs. apply in_firstn, in_flat_map in Hs.
    destruct Hs as [n [Hn Hs]]. exists n. repeat split; auto.
    eapply insights_of_participates; eauto.
  - intros n Hn. unfold participates, Dict.has in Hn. unfold insights_of.
    destruct (Dict.get your_brand (brand_ownership n)); [|reflexivity].
    now contradiction Hn.
  - intros n g. apply category_of_exclusive.
Qed.

End InsightsTextFacts.

Lemma generate_insights_text_spec_witness :
  exists out,
    generate_insights_text pct0_opaque sample_narratives "O2" = Ok out
    /\ (List.length out <= 5)%nat
    /\ out = [ "⚠️ **Network Excellence**: Telekom dominates (_% vs your _%). Gap: _%";
               "✅ **Value Proposition**: You own this narrative (_% association rate)" ].
Proof.
  destruct (generate_insights_text_spec pct0_opaque sample_narratives "O2")
    as [out [H1 [H2 [H3 _]]]].
  - intros n [<-|[<-|[]]] _; reflexivity.
  - exists out. split; [exact H1|]. split; [exact H2|].
    rewrite H3. reflexivity.
Defined.

(** ** Velocity and acceleration *)

Section Acceleration.

Import TrendAnalyzer.

Variable kendalltau : list PyFloat.t -> PyFloat.t * PyFloat.t.

Lemma sub_nan_r a : PyFloat.sub a PyFloat.NaN = PyFloat.NaN.
Proof. now destruct a. Qed.

(** Whatever the guard intends, a series of exactly three points has two
    differences, [changes[:-2]] is empty, and the acceleration is [nan]. *)
Lemma acceleration_three_points a b c :
  acceleration_of (calculate_velocity kendalltau [a; b; c]) = PyFloat.NaN
  /\ is_accelerating_of (calculate_velocity kendalltau [a; b; c])
     = Some false.
Proof.
  unfold calculate_velocity. cbn [List.length Nat.ltb Nat.leb changes_of].
  cbn [all_but_last_two List.length Nat.sub firstn PyFloat.mean].
  rewrite sub_nan_r.
  destruct (PyFloat.gt _ _); [|destruct (PyFloat.lt _ _)];
    destruct (kendalltau [a; b; c]); split; reflexivity.
Qed.

(** C5 fails on the three-point series [0.1, 0.2, 0.3]: the guard admits
    two differences, the mean of the empty slice [changes[:-2]] is [nan],
    so [acceleration] is [nan] (no difference of two means) and
    [is_accelerating] is [False]. *)
Theorem acceleration_nan_on_three_points :
  let series := [PyFloat.Fin (1 # 10); PyFloat.Fin (2 # 10);
                 PyFloat.Fin (3 # 10)] in
  acceleration_of (calculate_velocity kendalltau series) = PyFloat.NaN
  /\ (forall q, acceleration_of (calculate_velocity kendalltau series)
                <> PyFloat.Fin q)
  /\ is_accelerating_of (calculate_velocity kendalltau series) = Some false.
Proof.
  intro series. subst series.
  destruct (acceleration_three_points (PyFloat.Fin (1 # 10))
              (PyFloat.Fin (2 # 10)) (PyFloat.Fin (3 # 10))) as [Ha Hb].
  rewrite Ha. repeat split; [discriminate | exact Hb].
Qed.

Lemma changes_of_length ts :
  List.length (changes_of ts) = (List.length ts - 1)%nat.
Proof.
  induction ts as [|a [|b ts] IH]; [reflexivity | reflexivity |].
  cbn [changes_of List.length] in *. rewrite IH. lia.
Qed.

(** What the code computes, in NumPy's terms: from three points on, the
    difference of [np.mean] over the last two changes and over the others,
    an empty slice included; with exactly two points, zero. *)
Lemma acceleration_formula ts :
  ((3 <= List.length ts)%nat ->
   acceleration_of (calculate_velocity kendalltau ts)
   = PyFloat.sub (PyFloat.mean (last_two (changes_of ts)))
                 (PyFloat.mean (all_but_last_two (changes_of ts))))
  /\ ((List.length ts < 3)%nat ->
      acceleration_of (calculate_velocity kendalltau ts) = PyFloat.Fin 0).
Proof.
  unfold calculate_velocity. split; intro H.
  - destruct (Nat.ltb_spec (List.length ts) 2); [lia|].
    destruct (Nat.leb_spec 2 (List.length (changes_of ts))) as [_|L];
      [|rewrite changes_of_length in L; lia].
    destruct (PyFloat.gt _ _); [|destruct (PyFloat.lt _ _)];
      destruct (3 <=? List.length ts)%nat; try destruct (kendalltau ts);
      reflexivity.
  - destruct (Nat.ltb_spec (List.length ts) 2); [reflexivity|].
    destruct (Nat.leb_spec 2 (List.length (changes_of ts))) as [L|_];
      [rewrite changes_of_length in L; lia|].
    destruct (PyFloat.gt _ _); [|destruct (PyFloat.lt _ _)];
      destruct (3 <=? List.length ts)%nat; try destruct (kendalltau ts);
      reflexivity.
Qed.

(** [is_accelerating] is [abs(acceleration) > 0.005] whenever the key is
    present. *)
Lemma is_accelerating_threshold ts :
  (2 <= List.length ts)%nat ->
  is_accelerating_of (calculate_velocity kendalltau ts)
  = Some (PyFloat.gt
            (PyFloat.abs (acceleration_of (calculate_velocity kendalltau ts)))
            (PyFloat.Fin (5 # 1000))).
Proof.
  intro H. unfold calculate_velocity.
  destruct (Nat.ltb_spec (List.length ts) 2); [lia|].
  destruct (PyFloat.gt _ _); [|destruct (PyFloat.lt _ _)];
    destruct (3 <=? List.length ts)%nat; try destruct (kendalltau ts);
    reflexivity.
Qed.

End Acceleration.

(** ** Wilson interval *)

Section WilsonBounds.

Import ConfidenceCalculator.

(** With no trials the metrics are all zero and not significant, for every
    calculator and every count of successes. *)
Lemma proportion_confidence_no_trials self successes :
  calculate_proportion_confidence self successes 0
  = mkConfidenceMetrics 0 0 0 (calc_confidence_level self) 0 0 false 0.
Proof. reflexivity. Qed.

(** C2 fails in binary64 arithmetic at the ends of the range. With the
    default calculator, [0] successes of [3] give
    [lower_bound = 2^-54 > 0 = value], and [10] successes of [10] give
    [upper_bound = 1 - 2^-53 < 1 = value]: [center - margin] and
    [center + margin] are each one rounding away from the proportion and
    the clamps to [0] and [1] do not restore the order. The case
    [total = 0] is as claimed. *)
Theorem wilson_bounds_miss_value :
  (let m := calculate_proportion_confidence default_calculator 0 3 in
   value m = 0%float
   /\ lower_bound m = 0x1p-54%float
   /\ PrimFloat.leb (lower_bound m) (value m) = false)
  /\ (let m := calculate_proportion_confidence default_calculator 10 10 in
      value m = 1%float
      /\ upper_bound m = 0x1.fffffffffffffp-1%float
      /\ PrimFloat.leb (value m) (upper_bound m) = false)
  /\ calculate_proportion_confidence default_calculator 0 0
     = mkConfidenceMetrics 0 0 0 0x1.e666666666666p-1 0 0 false 0.
Proof. vm_compute. repeat split. Qed.

End WilsonBounds.

(** In exact arithmetic the bounds do enclose the proportion: the defect
    above is one of rounding only. *)
Lemma wilson_exact_bounds (z p n : R) :
  (0 <= z)%R -> (0 < n)%R -> (0 <= p <= 1)%R ->
  (0 <= WilsonExact.lower z p n <= p)%R
  /\ (p <= WilsonExact.upper z p n <= 1)%R.
Proof.
  intros Hz Hn [Hp0 Hp1].
  unfold WilsonExact.lower, WilsonExact.upper, WilsonExact.center,
    WilsonExact.margin, WilsonExact.denominator.
  set (A := ((p * (1 - p) + z * z / (4 * n)) / n)%R).
  set (h := (z / (2 * n))%R).
  assert (Hh : (0 <= h)%R).
  { unfold h. apply Rmult_le_pos; [exact Hz|].
    apply Rlt_le, Rinv_0_lt_compat. lra. }
  assert (HA : (A = p * (1 - p) / n + h * h)%R).
  { unfold A, h. field. lra. }
  assert (Hpq : (0 <= p * (1 - p) / n)%R).
  { apply Rmult_le_pos; [nra|]. apply Rlt_le, Rinv_0_lt_compat. lra. }
  assert (HA0 : (0 <= A)%R) by nra.
  pose proof (sqrt_pos A) as Hs0.
  pose proof (sqrt_sqrt A HA0) as Hss.
  set (s := sqrt A) in *.
  assert (Hd : (0 < 1 + z * z / n)%R).
  { assert (0 <= z * z / n)%R; [|lra].
    apply Rmult_le_pos; [nra|]. apply Rlt_le, Rinv_0_lt_compat. lra. }
  assert (Hzz : (z * z / n = 2 * z * h)%R) by (unfold h; field; lra).
  assert (Hz2 : (z * z / (2 * n) = z * h)%R) by (unfold h; field; lra).
  rewrite Hz2, Hzz in *.
  set (d := (1 + 2 * z * h)%R) in *.
  assert (Hsh : (h <= s)%R) by nra.
  assert (H12 : (h * (1 - 2 * p) <= s)%R) by nra.
  assert (H21 : (h * (2 * p - 1) <= s)%R) by nra.
  assert (Hlo : ((p + z * h) / d - z * s / d <= p)%R).
  { apply Rmult_le_reg_r with d; [exact Hd|].
    replace (((p + z * h) / d - z * s / d) * d)%R with (p + z * h - z * s)%R
      by (field; lra).
    unfold d. nra. }
  assert (Hhi : (p <= (p + z * h) / d + z * s / d)%R).
  { apply Rmult_le_reg_r with d; [exact Hd|].
    replace (((p + z * h) / d + z * s / d) * d)%R with (p + z * h + z * s)%R
      by (field; lra).
    unfold d. nra. }
  repeat split.
  - apply Rmax_l.
  - apply Rmax_lub; assumption.
  - apply Rmin_glb; assumption.
  - apply Rmin_l.
Qed.

(** ** Persistence round trip *)

Section StorageRoundTrip.

Import StorageManager.

Lemma each_map {A B} (f : B -> result A) (g : A -> B) l :
  (forall x, f (g x) = Ok x) -> Decode.each f (map g l) = Ok l.
Proof.
  intro H. induction l as [|x l IH]; [reflexivity|].
  cbn [map Decode.each]. rewrite H, IH. reflexivity.
Qed.

Lemma brand_mention_roundtrip m :
  Decode.brand_mention (Models.brand_mention_to_dict m) = Ok m.
Proof. destruct m as [b [p|] c]; reflexivity. Qed.

Lemma mentions_roundtrip (ms : dict BrandMention) :
  Decode.mentions_dict
    (JObj (map (fun kv => (fst kv, Models.brand_mention_to_dict (snd kv))) ms))
  = Ok ms.
Proof.
  unfold Decode.mentions_dict. apply each_map.
  intros [k m]. cbn [fst snd]. now rewrite brand_mention_roundtrip.
Qed.

Lemma str_list_roundtrip l : Decode.str_list (JList (map JStr l)) = Ok l.
Proof. unfold Decode.str_list. now apply each_map. Qed.

(** Rebuilding a record from its dictionary gives the record back. *)
Lemma query_result_roundtrip r :
  query_result_of (Models.to_dict r) = Ok r.
Proof.
  destruct r as [ts cat q rn md pv rs ms mo tm].
  unfold query_result_of, Models.to_dict, Decode.item, subscript.
  cbn [Dict.get String.eqb Ascii.eqb Bool.eqb bind
       timestamp category query run model provider response mentions
       mention_order total_mentioned Decode.str Decode.int].
  rewrite mentions_roundtrip. cbn [bind].
  rewrite str_list_roundtrip. reflexivity.
Qed.

Lemma in_set {V} k (v : V) d : In (k, v) (Dict.set k v d).
Proof.
  induction d as [|[k' v'] d IH]; cbn [Dict.set]; [now left|].
  destruct (String.eqb_spec k k') as [->|N]; [now left | now right].
Qed.

Lemma in_set_inv {V} k (v : V) d e :
  In e (Dict.set k v d) -> In e d \/ e = (k, v).
Proof.
  induction d as [|[k' v'] d IH]; cbn [Dict.set].
  - intros [<-|[]]. now right.
  - destruct (String.eqb_spec k k') as [->|N].
    + intros [<-|H]; [now right | left; now right].
    + intros [<-|H]; [left; now left|].
      destruct (IH H) as [H'|H']; [left; now right | now right].
Qed.

Lemma glob_set_other k (f : File) disk :
  is_results_file k = false ->
  glob_results (Dict.set k f disk) = glob_results disk.
Proof.
  intro Hk. unfold glob_results.
  induction disk as [|[k' f'] disk IH]; cbn [Dict.set filter fst].
  - now rewrite Hk.
  - destruct (String.eqb k k') eqn:E; cbn [filter fst].
    + apply String.eqb_eq in E. subst k'. now rewrite Hk.
    + now rewrite IH.
Qed.

Lemma most_recent_spec others : forall first,
  In (most_recent first others) (first :: others)
  /\ mtime (snd first) <= mtime (snd (most_recent first others))
  /\ forall e, In e others ->
               mtime (snd e) <= mtime (snd (most_recent first others)).
Proof.
  unfold most_recent.
  induction others as [|x others IH]; intro first; cbn [fold_left].
  - repeat split; [now left | lia | intros e []].
  - destruct (Z.ltb_spec (mtime (snd first)) (mtime (snd x))) as [L|L].
    + destruct (IH x) as [Hin [Hge Hall]]. repeat split.
      * right. exact Hin.
      * lia.
      * intros e [<-|He]; [exact Hge | now apply Hall].
    + destruct (IH first) as [Hin [Hge Hall]]. repeat split.
      * destruct Hin as [Hin|Hin]; [now left | right; now right].
      * exact Hge.
      * intros e [<-|He]; [lia | now apply Hall].
Qed.

Lemma drop_app a b : PyStr.drop (String.length a) (a ++ b) = b.
Proof. induction a as [|c a IH]; [now destruct b | exact IH]. Qed.

Lemma length_app a b :
  String.length (a ++ b) = (String.length a + String.length b)%nat.
Proof. induction a as [|c a IH]; cbn; [reflexivity | now rewrite IH]. Qed.

Lemma drop_app_plus a b n :
  PyStr.drop (String.length a + n) (a ++ b) = PyStr.drop n b.
Proof. induction a as [|c a IH]; [reflexivity | exact IH]. Qed.

Lemma prefix_app a b : String.prefix a (a ++ b) = true.
Proof.
  induction a as [|c a IH]; cbn; [now destruct b|].
  destruct (ascii_dec c c); [exact IH | congruence].
Qed.

Lemma generated_name_is_results_file clock :
  is_results_file (results_filename clock None) = true.
Proof.
  unfold results_filename, is_results_file.
  rewrite prefix_app, !length_app.
  replace (String.length "som_results_"
           + (String.length (stamp clock) + String.length ".json")
           - 5)%nat
    with (String.length "som_results_" + String.length (stamp clock))%nat
    by (cbn [String.length]; lia).
  rewrite drop_app_plus, drop_app, String.eqb_refl.
  cbn [andb String.length]. rewrite andb_true_r. apply Nat.leb_le. lia.
Qed.

Lemma generated_name_not_history clock :
  results_filename clock None <> HISTORY_FILE.
Proof. discriminate. Qed.

Section WithPandas.

Variable read_csv : file_content -> result (list HistoryRow).

(** The directory after [save_results]: the results file has been written,
    and the history file too unless its update raised. *)
Lemma save_results_disk disk clock results filename :
  let name := results_filename clock filename in
  let disk1 := write_file disk name (time clock)
                 (JsonDoc (JList (map Models.to_dict results))) in
  fst (save_results read_csv disk clock results filename) = disk1
  \/ exists df,
       fst (save_results read_csv disk clock results filename)
       = write_file disk1 HISTORY_FILE (time clock) (CsvDoc df).
Proof.
  intros name disk1. unfold save_results. fold name. fold disk1.
  unfold _update_history.
  destruct (Decode.each _ results) as [rows|e]; [|now left].
  destruct (Dict.get HISTORY_FILE disk1) as [f|];
    [destruct (content f) eqn:Ec|];
    repeat match goal with
      | |- context [read_csv ?c] => destruct (read_csv c) as [df|e]
      | |- context [is_empty_data_error ?e] =>
          destruct (is_empty_data_error e)
      end;
    cbn [fst]; first [left; reflexivity | right; eexists; reflexivity].
Qed.

Lemma saved_file_get disk clock results filename :
  results_filename clock filename <> HISTORY_FILE ->
  Dict.get (results_filename clock filename)
    (fst (save_results read_csv disk clock results filename))
  = Some (mkFile (time clock) (JsonDoc (JList (map Models.to_dict results)))).
Proof.
  intro Hn.
  destruct (save_results_disk disk clock results filename) as [->|[df ->]];
    unfold write_file.
  - apply DictFacts.get_set_same.
  - rewrite DictFacts.get_set_other by exact Hn. apply DictFacts.get_set_same.
Qed.

Lemma load_saved_file disk' name t results :
  Dict.get name disk'
  = Some (mkFile t (JsonDoc (JList (map Models.to_dict results)))) ->
  load_results disk' (Some name) = Ok results.
Proof.
  intro Hg. unfold load_results. rewrite Hg. cbn [content json_load bind].
  apply each_map, query_result_roundtrip.
Qed.

(** C8: after [save_results] has written a sequence of records, under a
    name given by the caller (other than the history file's) or under the
    generated name, [load_results] on that name returns the very same
    sequence, field for field, a [None] first position included; and after a
    save under the generated name into a directory whose files are all
    older, [load_results] without a name returns it too. *)
Theorem save_load_roundtrip (disk : Disk) (clock : Clock)
    (results : list QueryResult) (filename : option string) :
  filename <> Some HISTORY_FILE ->
  let disk' := fst (save_results read_csv disk clock results filename) in
  load_results disk' (Some (results_filename clock filename)) = Ok results
  /\ (filename = None ->
      (forall name f, In (name, f) disk -> mtime f < time clock) ->
      load_results disk' None = Ok results).
Proof.
  intros Hn disk'.
  assert (Hname : results_filename clock filename <> HISTORY_FILE).
  { destruct filename as [name|]; [cbn; congruence|].
    apply generated_name_not_history. }
  pose proof (saved_file_get disk clock results filename Hname) as Hg.
  fold disk' in Hg. split.
  - eapply load_saved_file; exact Hg.
  - intros -> Hold.
    set (name := results_filename clock None) in *.
    set (newf := mkFile (time clock)
                   (JsonDoc (JList (map Models.to_dict results)))) in *.
    assert (Hglob : glob_results disk'
                    = glob_results (Dict.set name newf disk)).
    { subst disk'.
      destruct (save_results_disk disk clock results None) as [->|[df ->]];
        [reflexivity|].
      unfold write_file at 1. now rewrite glob_set_other. }
    assert (Hnew : In (name, newf) (glob_results (Dict.set name newf disk))).
    { unfold glob_results. apply filter_In. split; [apply in_set|].
      apply generated_name_is_results_file. }
    unfold load_results. rewrite Hglob.
    destruct (glob_results (Dict.set name newf disk)) as [|first others] eqn:El;
      [destruct Hnew|].
    destruct (most_recent_spec others first) as [Hin [Hfirst Hall]].
    assert (Hmax : time clock <= mtime (snd (most_recent first others))).
    { destruct Hnew as [->|Hnew]; [exact Hfirst|].
      exact (Hall _ Hnew). }
    assert (Hbest : fst (most_recent first others) = name).
    { rewrite <- El in Hin. unfold glob_results in Hin.
      apply filter_In in Hin. destruct Hin as [Hin _].
      apply in_set_inv in Hin. destruct Hin as [Hin| ->]; [|reflexivity].
      destruct (most_recent first others) as [n f]. cbn [snd] in Hmax.
      specialize (Hold n f Hin). lia. }
    rewrite Hbest, Hg. cbn [content newf json_load bind].
    apply each_map, query_result_roundtrip.
Qed.

End WithPandas.

End StorageRoundTrip.

Lemma save_load_roundtrip_witness :
  Some "survey.json" <> Some HISTORY_FILE
  /\ StorageManager.load_results
       (fst (StorageManager.save_results read_csv_table []
               (mkClock "20240101_000000" 5) test_results
               (Some "survey.json")))
       (Some "survey.json")
     = Ok test_results.
Proof.
  split; [discriminate|].
  refine (proj1 (save_load_roundtrip read_csv_table []
                   (mkClock "20240101_000000" 5) test_results
                   (Some "survey.json") _)).
  discriminate.
Defined.

(** ** Theme extraction and missing brands *)

Section ExtractThemes.

Import ThemeAnalyzer.

Lemma for_each_total {A S} (body : S -> A -> result S) l :
  (forall s x, exists s', body s x = Ok s') ->
  forall s, exists s', for_each body l s = Ok s'.
Proof.
  intro H. induction l as [|x l IH]; intro s; cbn [for_each]; [eauto|].
  destruct (H s x) as [s' ->]. cbn [bind]. apply IH.
Qed.

(** A loop whose turns keep an invariant or raise an exception in [P], and
    which meets an element on which the turn raises, raises an exception in
    [P]. *)
Lemma for_each_raises {A S} (body : S -> A -> result S)
    (Inv : S -> Prop) (P : exn -> Prop) (bad : A -> Prop) l :
  (forall s x, In x l -> Inv s ->
     (exists s', body s x = Ok s' /\ Inv s')
     \/ (exists e, body s x = Raise e /\ P e)) ->
  (forall s x, In x l -> Inv s -> bad x -> exists e, body s x = Raise e /\ P e) ->
  (exists x, In x l /\ bad x) ->
  forall s, Inv s -> exists e, for_each body l s = Raise e /\ P e.
Proof.
  induction l as [|x l IH]; intros Hstep Hbad [y [Hy By]] s Hs.
  - destruct Hy.
  - cbn [for_each].
    destruct (Hstep s x (or_introl eq_refl) Hs) as [[s' [E Hs']]|[e [E He]]].
    + rewrite E. cbn [bind]. apply IH; auto.
      * intros s0 x0 Hx0. apply Hstep. now right.
      * intros s0 x0 Hx0. apply Hbad. now right.
      * destruct Hy as [<-|Hy]; [|eauto].
        destruct (Hbad s x (or_introl eq_refl) Hs By) as [e [E' _]].
        congruence.
    + rewrite E. cbn [bind]. eauto.
Qed.

Lemma has_set {V} k k' (v : V) d :
  Dict.has k d = true -> Dict.has k (Dict.set k' v d) = true.
Proof.
  unfold Dict.has. intro H. destruct (string_dec k k') as [->|N].
  - now rewrite DictFacts.get_set_same.
  - now rewrite DictFacts.get_set_other.
Qed.

Lemma has_set_same {V} k (v : V) d : Dict.has k (Dict.set k v d) = true.
Proof. unfold Dict.has. now rewrite DictFacts.get_set_same. Qed.

Lemma initial_themes_cover {V} (v : V) brands : forall d0,
  covers brands (fold_left (fun d brand => Dict.set brand v d) brands d0)
  /\ forall b, Dict.has b d0 = true ->
               Dict.has b (fold_left (fun d brand => Dict.set brand v d)
                                     brands d0) = true.
Proof.
  induction brands as [|x brands IH]; intro d0; cbn [fold_left].
  - split; [intros b [] | auto].
  - destruct (IH (Dict.set x v d0)) as [Hc Hk]. split.
    + intros b [<-|Hb]; [apply Hk, has_set_same | now apply Hc].
    + intros b Hb. now apply Hk, has_set.
Qed.

Lemma note_context_total themes context :
  exists themes', note_context themes context = Ok themes'.
Proof.
  unfold note_context. apply for_each_total. intros s attr.
  unfold note_attribute. destruct (pattern_search _ _); eauto.
Qed.

(** One turn of the loop over the brands: it raises [KeyError] on a brand
    the record's [mentions] lacks, and otherwise goes on with every tracked
    brand still present in [brand_themes]. *)
Lemma scan_brand_step brands r themes b :
  In b brands -> covers brands themes ->
  (exists themes', scan_brand r themes b = Ok themes' /\ covers brands themes')
  \/ (Dict.has b (mentions r) = false
      /\ scan_brand r themes b = Raise (KeyError b)).
Proof.
  intros Hb Hc. unfold scan_brand, subscript, Dict.has.
  destruct (Dict.get b (mentions r)) as [m|] eqn:Em; cbn [bind];
    [left | right; auto].
  destruct (mentioned m); cbn [negb]; [|eauto].
  pose proof (Hc b Hb) as Hh. unfold Dict.has in Hh.
  destruct (Dict.get b themes) as [t|]; [|discriminate]. cbn [bind].
  destruct (for_each_total note_context
              (_extract_brand_contexts (response r) b 150)
              (fun s x => note_context_total s x) t) as [t' ->].
  cbn [bind]. eexists. split; [reflexivity|].
  intros k Hk. apply has_set, Hc, Hk.
Qed.

Lemma scan_result_step brands results r themes :
  In r results -> covers brands themes ->
  (exists themes', scan_result brands themes r = Ok themes'
                   /\ covers brands themes')
  \/ (exists e, scan_result brands themes r = Raise e
                /\ missing_brand_error brands results e).
Proof.
  intros Hr. unfold scan_result.
  assert (G : forall l themes, incl l brands -> covers brands themes ->
            (exists themes', for_each (scan_brand r) l themes = Ok themes'
                             /\ covers brands themes')
            \/ (exists e, for_each (scan_brand r) l themes = Raise e
                          /\ missing_brand_error brands results e)).
  { induction l as [|b l IH]; intros t Hl Hc; cbn [for_each]; [left; eauto|].
    destruct (scan_brand_step brands r t b (Hl b (or_introl eq_refl)) Hc)
      as [[t' [E Hc']]|[Hm E]]; rewrite E; cbn [bind].
    - apply IH; [|exact Hc']. intros x Hx. apply Hl. now right.
    - right. eexists. split; [reflexivity|].
      exists r, b. repeat split; auto. apply Hl. now left. }
  intros Hc. apply G; [apply incl_refl | exact Hc].
Qed.

Lemma scan_result_bad brands results r themes :
  In r results -> covers brands themes ->
  (exists b, In b brands /\ Dict.has b (mentions r) = false) ->
  exists e, scan_result brands themes r = Raise e
            /\ missing_brand_error brands results e.
Proof.
  intros Hr Hc Hbad. unfold scan_result.
  apply (for_each_raises (scan_brand r) (covers brands)
           (missing_brand_error brands results)
           (fun b => Dict.has b (mentions r) = false) brands); auto.
  - intros s b Hb Hs.
    destruct (scan_brand_step brands r s b Hb Hs) as [H|[Hm E]]; [now left|].
    right. eexists. split; [exact E|]. exists r, b. auto.
  - intros s b Hb Hs Hm.
    destruct (scan_brand_step brands r s b Hb Hs) as [[t' [E _]]|[_ E]].
    + exfalso. unfold scan_brand, subscript in E. unfold Dict.has in Hm.
      destruct (Dict.get b (mentions r)); discriminate.
    + eexists. split; [exact E|]. exists r, b. auto.
Qed.

Lemma calculate_som_total brands results :
  exists metrics, SOMMonitor.calculate_som brands results = Ok metrics.
Proof.
  unfold SOMMonitor.calculate_som. destruct results as [|r0 rs]; [eauto|].
  destruct (for_each_set
              (SOMMonitor.som_for_brand (r0 :: rs) (PyList.len (r0 :: rs)))
              (som_of (r0 :: rs)) (som_for_brand_ok (r0 :: rs))
              brands Dict.empty) as [d [Hd _]].
  eauto.
Qed.

(** C10: [extract_themes] reads [result.mentions[brand]] for every tracked
    brand of every record, so whenever some record's [mentions] mapping
    lacks a tracked brand it raises [KeyError] for such a brand, where
    [calculate_som] on the same input returns normally. *)
Theorem extract_themes_missing_brand_raises (brands : list string)
    (results : list QueryResult) :
  (exists r b, In r results /\ In b brands
               /\ Dict.has b (mentions r) = false) ->
  (exists r b, In r results /\ In b brands
               /\ Dict.has b (mentions r) = false
               /\ extract_themes brands results = Raise (KeyError b))
  /\ exists metrics, SOMMonitor.calculate_som brands results = Ok metrics.
Proof.
  intros [r [b [Hr [Hb Hm]]]]. split; [|apply calculate_som_total].
  unfold extract_themes.
  destruct (for_each_raises (scan_result brands) (covers brands)
              (missing_brand_error brands results)
              (fun r => exists b, In b brands
                                  /\ Dict.has b (mentions r) = false)
              results) with
    (s := fold_left (fun d brand => Dict.set brand (@Dict.empty ThemeData) d)
                    brands Dict.empty)
    as [e [E [r' [b' [Hr' [Hb' [Hm' ->]]]]]]].
  - intros s x Hx Hs. now apply scan_result_step.
  - intros s x Hx Hs Hbad. now apply scan_result_bad.
  - exists r. split; [exact Hr|]. exists b. auto.
  - apply initial_themes_cover.
  - rewrite E. cbn [bind]. exists r', b'. auto.
Qed.

Lemma extract_themes_missing_brand_raises_witness :
  extract_themes ["O2"; "Telekom"] [stale_record] = Raise (KeyError "Telekom")
  /\ exists metrics,
       SOMMonitor.calculate_som ["O2"; "Telekom"] [stale_record] = Ok metrics.
Proof.
  destruct (extract_themes_missing_brand_raises ["O2"; "Telekom"]
              [stale_record]) as [_ Hsom].
  - exists stale_record, "Telekom". repeat split; simpl; auto.
  - split; [reflexivity | exact Hsom].
Defined.

End ExtractThemes.

(** * Further properties *)

(** ** The stable sort *)

Module PySortFacts.

Section Facts.

Context {A : Type}.
Variable lt : A -> A -> bool.

(** The elements the comparison is a strict weak order on. *)
Variable P : A -> Prop.

Hypothesis asym : forall x y, P x -> P y -> lt x y = true -> lt y x = false.

Hypothesis negtrans : forall x y z, P x -> P y -> P z ->
  lt x y = false -> lt y z = false -> lt x z = false.

#[local] Abbreviation ordered := (PySort.ordered lt).
#[local] Abbreviation same_rank := (PySort.same_rank lt).

Lemma insert_perm x l : Permutation (PySort.insert lt x l) (x :: l).
Proof.
  induction l as [|y l IH]; cbn [PySort.insert]; [reflexivity|].
  destruct (lt y x); [|reflexivity].
  rewrite IH. apply perm_swap.
Qed.

Lemma sort_perm l : Permutation (PySort.sort lt l) l.
Proof.
  induction l as [|x l IH]; cbn [PySort.sort fold_right]; [reflexivity|].
  fold (PySort.sort lt l). rewrite insert_perm. now constructor.
Qed.

Lemma sort_keeps (l : list A) : Forall P l -> Forall P (PySort.sort lt l).
Proof.
  intro H. rewrite Forall_forall in *. intros x Hx. apply H.
  eapply Permutation_in; [apply sort_perm | exact Hx].
Qed.

Lemma insert_sorted x l :
  P x -> Forall P l -> StronglySorted ordered l ->
  StronglySorted ordered (PySort.insert lt x l).
Proof.
  intros Px Pl Hs. induction l as [|y l IH]; cbn [PySort.insert].
  - constructor; constructor.
  - inversion Pl as [|? ? Py Pl']; subst.
    inversion Hs as [|? ? Hs' Hy]; subst.
    destruct (lt y x) eqn:E.
    + constructor; [now apply IH|].
      rewrite Forall_forall in *. intros z Hz.
      apply (Permutation_in _ (insert_perm x l)) in Hz.
      destruct Hz as [<-|Hz]; [now apply asym | now apply Hy].
    + constructor; [exact Hs|]. constructor; [exact E|].
      rewrite Forall_forall in *. intros z Hz. unfold ordered.
      apply (negtrans z y x); auto. now apply Hy.
Qed.

Lemma sort_sorted l :
  Forall P l -> StronglySorted ordered (PySort.sort lt l).
Proof.
  induction l as [|x l IH]; intro H; cbn [PySort.sort fold_right];
    [constructor|].
  inversion H; subst. fold (PySort.sort lt l).
  apply insert_sorted; auto using sort_keeps.
Qed.

Lemma insert_stable a x l :
  P a -> P x -> Forall P l ->
  filter (same_rank a) (PySort.insert lt x l) = filter (same_rank a) (x :: l).
Proof.
  intros Pa Px Pl. induction l as [|y l IH]; cbn [PySort.insert];
    [reflexivity|].
  inversion Pl as [|? ? Py Pl']; subst.
  destruct (lt y x) eqn:E; [|reflexivity].
  cbn [filter]. rewrite (IH Pl'). cbn [filter].
  destruct (same_rank a y) eqn:Ey; [|reflexivity].
  destruct (same_rank a x) eqn:Ex; [|reflexivity].
  exfalso. unfold same_rank in *.
  apply andb_true_iff in Ey, Ex. destruct Ey as [_ Hya], Ex as [Hax _].
  apply negb_true_iff in Hya, Hax.
  rewrite (negtrans y a x) in E; auto. discriminate.
Qed.

Lemma sort_stable a l :
  P a -> Forall P l ->
  filter (same_rank a) (PySort.sort lt l) = filter (same_rank a) l.
Proof.
  intros Pa. induction l as [|x l IH]; intro H; [reflexivity|].
  inversion H; subst. cbn [PySort.sort fold_right]. fold (PySort.sort lt l).
  rewrite insert_stable; auto using sort_keeps.
  cbn [filter]. now rewrite IH.
Qed.

End Facts.

(** Pairs ordered by an integer second component. *)
Section ByPosition.

Context {A : Type}.

Lemma sort_snd_perm (l : list (A * Z)) :
  Permutation (PySort.sort PySort.lt_snd l) l.
Proof. apply sort_perm. Qed.

Lemma sort_snd_sorted (l : list (A * Z)) :
  StronglySorted (fun p q => snd p <= snd q) (PySort.sort PySort.lt_snd l).
Proof.
  assert (H : StronglySorted (PySort.ordered PySort.lt_snd)
                (PySort.sort PySort.lt_snd l)).
  { apply (sort_sorted (@PySort.lt_snd A) (fun _ => True)).
    - intros x y _ _ H. unfold PySort.lt_snd in *.
      apply Z.ltb_lt in H. apply Z.ltb_ge. lia.
    - intros x y z _ _ _ H1 H2. unfold PySort.lt_snd in *.
      apply Z.ltb_ge in H1, H2. apply Z.ltb_ge. lia.
    - apply Forall_forall. auto. }
  induction H as [|a l' Hs IH Ha]; constructor; auto.
  rewrite Forall_forall in *. intros q Hq.
  specialize (Ha q Hq). unfold PySort.ordered, PySort.lt_snd in Ha.
  now apply Z.ltb_ge in Ha.
Qed.

Lemma sort_snd_stable (p : Z) (l : list (A * Z)) :
  filter (fun e => snd e =? p) (PySort.sort PySort.lt_snd l)
  = filter (fun e : A * Z => snd e =? p) l.
Proof.
  destruct l as [|e0 l0]; [reflexivity|].
  set (l := e0 :: l0).
  pose proof (sort_stable (@PySort.lt_snd A) (fun _ => True)) as H.
  assert (Hext : forall e : A * Z,
             PySort.same_rank PySort.lt_snd (fst e0, p) e = (snd e =? p)).
  { intro e. unfold PySort.same_rank, PySort.lt_snd. cbn [snd].
    destruct (Z.ltb_spec p (snd e)), (Z.ltb_spec (snd e) p),
      (Z.eqb_spec (snd e) p); cbn; auto; lia. }
  rewrite <- (filter_ext _ _ Hext (PySort.sort PySort.lt_snd l)).
  rewrite <- (filter_ext _ _ Hext l).
  apply H; auto.
  - intros x y z _ _ _ H1 H2. unfold PySort.lt_snd in *.
    apply Z.ltb_ge in H1, H2. apply Z.ltb_ge. lia.
  - apply Forall_forall. auto.
Qed.

End ByPosition.

End PySortFacts.

(** ** Mention order and position score *)

Section MentionOrder.

Import ResponseAnalyzerOrder.

Lemma known_keys_present mentions :
  positions_present mentions ->
  PySort.known_keys (mentioned_pairs mentions)
  = Some (mentioned_positions mentions)
  /\ mentioned_pairs mentions
     = map (fun p => (fst p, Some (snd p))) (mentioned_positions mentions).
Proof.
  unfold mentioned_pairs.
  induction mentions as [|[b m] rest IH]; intro H; [split; reflexivity|].
  assert (Hrest : positions_present rest).
  { intros b' m' Hin Hm. apply (H b' m'); [now right | exact Hm]. }
  destruct (IH Hrest) as [IH1 IH2].
  cbn [filter map mentioned_positions snd fst].
  destruct (mentioned m) eqn:Em; [|split; assumption].
  destruct (first_position m) as [p|] eqn:Ep.
  - cbn [map PySort.known_keys fst snd]. rewrite Ep, IH1, <- IH2.
    split; reflexivity.
  - exfalso. apply (H b m); [now left | exact Em | exact Ep].
Qed.

Lemma map_fst_some {A} (l : list (A * Z)) :
  map fst (map (fun p => (fst p, Some (snd p))) l) = map fst l.
Proof. rewrite map_map. apply map_ext. reflexivity. Qed.

Lemma get_mention_order_value mentions :
  positions_present mentions ->
  get_mention_order mentions
  = Ok (map fst (PySort.sort PySort.lt_snd (mentioned_positions mentions))).
Proof.
  intro H. destruct (known_keys_present mentions H) as [Hk Hm].
  unfold get_mention_order. fold (mentioned_pairs mentions).
  unfold PySort.sort_by_optional_key. rewrite Hk, Hm.
  destruct (mentioned_positions mentions) as [|e1 [|e2 l]];
    cbn [map bind]; try reflexivity.
  now rewrite map_fst_some.
Qed.

(** X1: on a mapping whose flagged entries all carry a position,
    [get_mention_order] returns the brands of the flagged entries, each
    once per entry, in non-decreasing order of [first_position], entries
    with equal positions in the order of the mapping. *)
Theorem get_mention_order_sorted (mentions : dict BrandMention) :
  positions_present mentions ->
  exists sorted,
    get_mention_order mentions = Ok (map fst sorted)
    /\ Permutation sorted (mentioned_positions mentions)
    /\ StronglySorted (fun e1 e2 => snd e1 <= snd e2) sorted
    /\ forall p, at_position p sorted
                 = at_position p (mentioned_positions mentions).
Proof.
  intro H.
  exists (PySort.sort PySort.lt_snd (mentioned_positions mentions)).
  split; [now apply get_mention_order_value|].
  split; [apply PySortFacts.sort_snd_perm|].
  split; [apply PySortFacts.sort_snd_sorted|].
  intro p. apply PySortFacts.sort_snd_stable.
Qed.

Lemma get_mention_order_sorted_witness :
  get_mention_order
    [("OpenAI", mkBrandMention true (Some 19) 1);
     ("Anthropic", mkBrandMention true (Some 35) 1);
     ("Meta", mkBrandMention false None 0);
     ("Google", mkBrandMention true (Some 6) 1)]
  = Ok ["Google"; "OpenAI"; "Anthropic"].
Proof.
  destruct (get_mention_order_sorted
              [("OpenAI", mkBrandMention true (Some 19) 1);
               ("Anthropic", mkBrandMention true (Some 35) 1);
               ("Meta", mkBrandMention false None 0);
               ("Google", mkBrandMention true (Some 6) 1)])
    as [sorted [Hg _]].
  - intros b m [E|[E|[E|[E|[]]]]]; inversion E; subst; cbn;
      discriminate.
  - reflexivity.
Defined.

Lemma known_keys_none {A} (l : list (A * option Z)) :
  PySort.known_keys l = None <-> exists x, In (x, None) l.
Proof.
  induction l as [|[x [k|]] l IH]; cbn [PySort.known_keys].
  - split; [discriminate | intros [x []]].
  - destruct (PySort.known_keys l); split.
    + discriminate.
    + intros [y [E|Hy]]; [discriminate|].
      assert (C : @Some (list (A * Z)) l0 = None) by (apply IH; eauto).
      discriminate.
    + intros _. destruct (proj1 IH eq_refl) as [y Hy]. exists y. now right.
    + reflexivity.
  - split; [intros _; exists x; now left | reflexivity].
Qed.

Lemma in_mentioned_pairs b o mentions :
  In (b, o) (mentioned_pairs mentions)
  <-> exists m, In (b, m) mentions /\ mentioned m = true
                /\ first_position m = o.
Proof.
  unfold mentioned_pairs. rewrite in_map_iff. split.
  - intros [[b' m] [E Hin]]. apply filter_In in Hin. destruct Hin as [Hin Hm].
    cbn in *. inversion E; subst. eauto.
  - intros [m [Hin [Hm Ho]]]. exists (b, m). cbn. split; [now rewrite Ho|].
    apply filter_In. auto.
Qed.

(** X2: [get_mention_order] raises [TypeError] exactly when at least two
    entries are flagged [mentioned] and one of them has no position; with
    a single flagged entry it returns that brand whatever its position. *)
Theorem get_mention_order_type_error (mentions : dict BrandMention) :
  get_mention_order mentions = Raise TypeError
  <-> (2 <= List.length (filter (fun kv => mentioned (snd kv)) mentions))%nat
      /\ exists b m, In (b, m) mentions /\ mentioned m = true
                     /\ first_position m = None.
Proof.
  unfold get_mention_order. fold (mentioned_pairs mentions).
  assert (Hlen : List.length (mentioned_pairs mentions)
                 = List.length (filter (fun kv => mentioned (snd kv)) mentions)).
  { unfold mentioned_pairs. apply length_map. }
  rewrite <- Hlen.
  assert (Hnone : PySort.known_keys (mentioned_pairs mentions) = None
                  <-> exists b m, In (b, m) mentions /\ mentioned m = true
                                  /\ first_position m = None).
  { rewrite known_keys_none. split.
    - intros [b Hb]. apply in_mentioned_pairs in Hb.
      destruct Hb as [m Hm]. eauto.
    - intros [b [m Hm]]. exists b. apply in_mentioned_pairs. eauto. }
  unfold PySort.sort_by_optional_key.
  destruct (mentioned_pairs mentions) as [|e1 [|e2 l]] eqn:El.
  - cbn. split; [discriminate | intros [H _]; lia].
  - cbn. split; [discriminate | intros [H _]; lia].
  - destruct (PySort.known_keys (e1 :: e2 :: l)) eqn:Ek; cbn [bind].
    + split; [discriminate|]. intros [_ H]. apply Hnone in H. discriminate.
    + split; [|reflexivity]. intros _. split; [cbn; lia|].
      now apply Hnone.
Qed.

Lemma set_keys_nodup {V} k (v : V) d :
  NoDup (map fst d) -> NoDup (map fst (Dict.set k v d)).
Proof.
  induction d as [|[k' v'] d IH]; intro H; cbn [Dict.set].
  - cbn. constructor; [intros [] | constructor].
  - inversion H as [|? ? Hn Hd]; subst.
    destruct (String.eqb_spec k k') as [->|N]; cbn [map fst].
    + constructor; assumption.
    + constructor; [|now apply IH].
      intro Hin. apply in_map_iff in Hin. destruct Hin as [[k0 v0] [E Hin]].
      cbn in E. subst k0. apply in_set_inv in Hin.
      destruct Hin as [Hin|Hin]; [|congruence].
      apply Hn. apply in_map_iff. exists (k', v0). auto.
Qed.

Lemma get_in {V} k (v : V) d : Dict.get k d = Some v -> In (k, v) d.
Proof.
  induction d as [|[k' v'] d IH]; cbn [Dict.get]; [discriminate|].
  destruct (String.eqb_spec k k') as [->|N].
  - intro E. inversion E. now left.
  - intro E. right. now apply IH.
Qed.

Lemma in_get {V} k (v : V) d :
  NoDup (map fst d) -> In (k, v) d -> Dict.get k d = Some v.
Proof.
  induction d as [|[k' v'] d IH]; intros Hn Hin; [destruct Hin|].
  inversion Hn as [|? ? Hk Hd]; subst. cbn [Dict.get].
  destruct Hin as [E|Hin].
  - inversion E; subst. now rewrite String.eqb_refl.
  - destruct (String.eqb_spec k k') as [->|N]; [|now apply IH].
    exfalso. apply Hk. apply in_map_iff. exists (k', v). auto.
Qed.

(** The mapping built by [extract_mentions]: distinct keys, each bound to
    the mention computed for it. *)
Lemma extract_mentions_entries brands text :
  NoDup (map fst (ResponseAnalyzer.extract_mentions brands text))
  /\ forall b m, In (b, m) (ResponseAnalyzer.extract_mentions brands text) ->
       In b brands
       /\ m = ResponseAnalyzer.mention_of (PyStr.lower text) b.
Proof.
  unfold ResponseAnalyzer.extract_mentions.
  set (f := ResponseAnalyzer.mention_of (PyStr.lower text)).
  assert (G : forall l acc,
             NoDup (map fst acc) ->
             (forall b m, In (b, m) acc -> In b brands /\ m = f b) ->
             incl l brands ->
             let d := fold_left (fun mentions brand => Dict.set brand (f brand) mentions)
                                l acc in
             NoDup (map fst d)
             /\ forall b m, In (b, m) d -> In b brands /\ m = f b).
  { induction l as [|x l IH]; intros acc Hn Hacc Hl; cbn [fold_left];
      [split; assumption|].
    apply IH.
    - now apply set_keys_nodup.
    - intros b m Hin. apply in_set_inv in Hin. destruct Hin as [Hin|E].
      + now apply Hacc.
      + inversion E; subst. split; [apply Hl; now left | reflexivity].
    - intros y Hy. apply Hl. now right. }
  apply (G brands Dict.empty).
  - constructor.
  - intros b m [].
  - apply incl_refl.
Qed.

Lemma extract_mentions_positions_present brands text :
  positions_present (ResponseAnalyzer.extract_mentions brands text).
Proof.
  intros b m Hin Hm.
  destruct (extract_mentions_entries brands text) as [_ H].
  destruct (H b m Hin) as [_ ->]. revert Hm.
  unfold ResponseAnalyzer.mention_of.
  destruct (PyStr.contains _ _); cbn; [discriminate | discriminate].
Qed.

Lemma in_mentioned_positions b p mentions :
  In (b, p) (mentioned_positions mentions)
  <-> exists m, In (b, m) mentions /\ mentioned m = true
                /\ first_position m = Some p.
Proof.
  induction mentions as [|[b' m'] rest IH]; cbn [mentioned_positions].
  - split; [intros [] | intros [m [[] _]]].
  - destruct (mentioned m') eqn:Em; [destruct (first_position m') eqn:Ep|].
    + cbn [In]. rewrite IH. split.
      * intros [E|[m [Hin H]]].
        -- inversion E; subst. exists m'. split; [now left | auto].
        -- exists m. split; [now right | exact H].
      * intros [m [[E|Hin] [Hm Hp]]].
        -- inversion E; subst. left. congruence.
        -- right. eauto.
    + rewrite IH. split.
      * intros [m [Hin H]]. exists m. split; [now right | exact H].
      * intros [m [[E|Hin] [Hm Hp]]]; [inversion E; subst; congruence|].
        eauto.
    + rewrite IH. split.
      * intros [m [Hin H]]. exists m. split; [now right | exact H].
      * intros [m [[E|Hin] [Hm Hp]]]; [inversion E; subst; congruence|].
        eauto.
Qed.

Lemma mentioned_positions_keys mentions b :
  In b (map fst (mentioned_positions mentions)) -> In b (map fst mentions).
Proof.
  intro H. apply in_map_iff in H. destruct H as [[b' p] [E Hin]].
  cbn in E. subst b'. apply in_mentioned_positions in Hin.
  destruct Hin as [m [Hin _]]. apply in_map_iff. exists (b, m). auto.
Qed.

Lemma mentioned_positions_nodup mentions :
  NoDup (map fst mentions) -> NoDup (map fst (mentioned_positions mentions)).
Proof.
  induction mentions as [|[b m] rest IH]; intro H;
    cbn [mentioned_positions]; [constructor|].
  inversion H as [|? ? Hn Hd]; subst.
  destruct (mentioned m); [destruct (first_position m)|]; auto.
  cbn [map fst]. constructor; [|auto].
  intro Hin. apply Hn. now apply mentioned_positions_keys.
Qed.

Lemma analyze_total (brands : list string) (text : string) :
  exists order,
    analyze brands text
    = Ok (ResponseAnalyzer.extract_mentions brands text, order,
          Z.of_nat (List.length order))
    /\ NoDup order
    /\ forall b,
         In b order
         <-> exists m,
               Dict.get b (ResponseAnalyzer.extract_mentions brands text)
               = Some m
               /\ mentioned m = true.
Proof.
  set (d := ResponseAnalyzer.extract_mentions brands text).
  pose proof (extract_mentions_positions_present brands text) as Hp.
  destruct (extract_mentions_entries brands text) as [Hn _].
  fold d in Hp, Hn.
  set (sorted := PySort.sort PySort.lt_snd (mentioned_positions d)).
  pose proof (get_mention_order_value d Hp) as Hg. fold sorted in Hg.
  assert (Hperm : Permutation sorted (mentioned_positions d))
    by apply PySortFacts.sort_snd_perm.
  exists (map fst sorted). unfold analyze. fold d. rewrite Hg. cbn [bind].
  split; [reflexivity|].
  assert (Hperm' : Permutation (map fst sorted)
                     (map fst (mentioned_positions d))).
  { now apply Permutation_map. }
  split.
  - eapply Permutation_NoDup; [symmetry; exact Hperm'|].
    now apply mentioned_positions_nodup.
  - intro b. split.
    + intro Hin. apply (Permutation_in _ Hperm') in Hin.
      apply in_map_iff in Hin. destruct Hin as [[b' p] [E Hin]].
      cbn in E. subst b'. apply in_mentioned_positions in Hin.
      destruct Hin as [m [Hin [Hm _]]]. exists m. split; [|exact Hm].
      now apply in_get.
    + intros [m [Hget Hm]]. apply get_in in Hget.
      destruct (first_position m) as [p|] eqn:Ep;
        [|exfalso; exact (Hp b m Hget Hm Ep)].
      apply (Permutation_in _ (Permutation_sym Hperm')).
      apply in_map_iff. exists (b, p). split; [reflexivity|].
      apply in_mentioned_positions. eauto.
Qed.

(** X3: [analyze] never raises on the mentions it extracts; the order it
    returns has no duplicates and holds exactly the brands whose entry is
    flagged [mentioned], and [total_mentioned] is its length. *)
Theorem analyze_mention_order (brands : list string) (text : string) :
  exists order,
    analyze brands text
    = Ok (ResponseAnalyzer.extract_mentions brands text, order,
          Z.of_nat (List.length order))
    /\ NoDup order
    /\ forall b,
         In b order
         <-> exists m,
               Dict.get b (ResponseAnalyzer.extract_mentions brands text)
               = Some m
               /\ mentioned m = true.
Proof.
  exact (analyze_total brands text).
Qed.

Lemma index_from_first x l : forall k i,
  nth_error l k = Some x -> ~ In x (firstn k l) ->
  PyList.index_from x l i = Ok (i + Z.of_nat k).
Proof.
  induction l as [|y l IH]; intros [|k] i Hn Hf; cbn in Hn; try discriminate.
  - inversion Hn; subst. cbn [PyList.index_from]. rewrite String.eqb_refl.
    f_equal. lia.
  - cbn [PyList.index_from firstn] in *.
    destruct (String.eqb_spec y x) as [->|N].
    + exfalso. apply Hf. now left.
    + rewrite (IH k (i + 1)); auto; [f_equal; lia|].
      intro H. apply Hf. now right.
Qed.

Lemma contains_in x l : PyList.contains x l = true <-> In x l.
Proof.
  unfold PyList.contains. rewrite existsb_exists. split.
  - intros [y [Hy E]]. apply String.eqb_eq in E. now subst.
  - intro H. exists x. split; [exact H | apply String.eqb_refl].
Qed.

Lemma index_from_bounds x l : forall i j,
  PyList.index_from x l i = Ok j -> i <= j.
Proof.
  induction l as [|y l IH]; intros i j; cbn [PyList.index_from];
    [discriminate|].
  destruct (String.eqb y x).
  - intro E. inversion E. lia.
  - intro E. apply IH in E. lia.
Qed.

(** X4: [calculate_position_score] never raises; the score lies in
    [0, 1]; it is [0] for a brand that is not in the order and [1/(k+1)]
    for a brand whose first occurrence is at index [k], so [1] for the
    first brand. *)
Theorem position_score_values (mention_order : list string) (b : string) :
  exists q,
    calculate_position_score mention_order b = Ok q
    /\ (0 <= q <= 1)%Q
    /\ (~ In b mention_order -> q = 0%Q)
    /\ forall k, nth_error mention_order k = Some b ->
                 ~ In b (firstn k mention_order) ->
                 q = (1 / inject_Z (Z.of_nat k + 1))%Q.
Proof.
  unfold calculate_position_score.
  destruct (PyList.contains b mention_order) eqn:E; cbn [negb].
  - destruct (index_from_total b mention_order 0 E) as [j Hj].
    unfold PyList.index. rewrite Hj. cbn [bind]. eexists.
    split; [reflexivity|].
    pose proof (index_from_bounds _ _ _ _ Hj) as Hb.
    split; [|split].
    + unfold Qdiv. rewrite Qmult_1_l.
      assert (Hpos : (0 < inject_Z (j + 1))%Q).
      { change 0%Q with (inject_Z 0). rewrite <- Zlt_Qlt. lia. }
      split; [apply Qlt_le_weak, Qinv_lt_0_compat, Hpos|].
      unfold Qle, Qinv, inject_Z. cbn.
      destruct (j + 1) eqn:Ej; cbn; lia.
    + intro Hn. apply contains_in in E. contradiction.
    + intros k Hk Hf. rewrite (index_from_first b mention_order k 0 Hk Hf) in Hj.
      inversion Hj. reflexivity.
  - exists 0%Q. split; [reflexivity|]. split; [split; discriminate|].
    split; [reflexivity|].
    intros k Hk _. exfalso. apply nth_error_In in Hk.
    apply contains_in in Hk. congruence.
Qed.

End MentionOrder.

(** ** More on the SOM metrics *)

Section SomMetricsFacts.

Import SOMMonitor.

Lemma index_from_ok_ge x l i j : PyList.index_from x l i = Ok j -> i <= j.
Proof. apply index_from_bounds. Qed.

(** The positions collected for a brand: one for each record whose order
    holds the brand, each at least 1. *)
Lemma collect_positions_spec b results : forall acc,
  exists ps,
    for_each (collect_position b) results acc = Ok (acc ++ ps)%list
    /\ List.length ps = List.length (filter (in_order b) results)
    /\ Forall (fun p => 1 <= p) ps.
Proof.
  induction results as [|r results IH]; intro acc; cbn [for_each filter].
  - exists []. rewrite app_nil_r. repeat split. constructor.
  - unfold collect_position at 1. unfold in_order at 1.
    destruct (PyList.contains b (mention_order r)) eqn:E; cbn [bind].
    + destruct (index_from_total b (mention_order r) 0 E) as [j Hj].
      unfold PyList.index. rewrite Hj. cbn [bind].
      destruct (IH (acc ++ [j + 1])%list) as [ps [H1 [H2 H3]]].
      exists ((j + 1) :: ps). rewrite H1, <- app_assoc. cbn [app List.length].
      repeat split; [now rewrite H2|].
      constructor; [|exact H3]. apply index_from_ok_ge in Hj. lia.
    + apply IH.
Qed.

Lemma sum_ge_length ps : forall a,
  Forall (fun p => 1 <= p) ps ->
  a + Z.of_nat (List.length ps) <= fold_left Z.add ps a.
Proof.
  induction ps as [|p ps IH]; intros a H; cbn [fold_left List.length]; [lia|].
  inversion H; subst. specialize (IH (a + p) H3). lia.
Qed.

Lemma som_for_brand_entry results d b :
  exists sm,
    som_for_brand results (PyList.len results) d b = Ok (Dict.set b sm d)
    /\ som_entry results b sm.
Proof.
  unfold som_for_brand.
  rewrite (count_where_pure _ _ results (counts_as_mention_ok b)).
  cbn [bind].
  destruct (collect_positions_spec b results []) as [ps [-> [Hl Hf]]].
  cbn [bind app].
  rewrite (count_where_pure _ _ results (is_first_mention_ok b)).
  cbn [bind]. eexists. split; [reflexivity|].
  split; [unfold som_of, mention_total; cbn; repeat split|].
  cbn [avg_position]. destruct ps as [|p ps].
  - cbn in Hl. split; [split; intros _|intros a; discriminate].
    + destruct (filter (in_order b) results); [reflexivity | discriminate].
    + reflexivity.
  - split.
    + split; [discriminate|]. intro E. rewrite E in Hl. discriminate.
    + intros a E. inversion E; subst a.
      assert (Hpos : 0 < PyList.len (p :: ps)).
      { unfold PyList.len. cbn [List.length]. lia. }
      rewrite <- (div_self (PyList.len (p :: ps)) Hpos).
      apply div_le_mono; [exact Hpos|].
      pose proof (sum_ge_length (p :: ps) 0 Hf). unfold PyList.sum, PyList.len.
      lia.
Qed.

Lemma calculate_som_entries brands results :
  results <> [] ->
  exists metrics,
    calculate_som brands results = Ok metrics
    /\ (forall b, In b brands ->
          exists sm, Dict.get b metrics = Some sm /\ som_entry results b sm)
    /\ (forall b, ~ In b brands -> Dict.get b metrics = None).
Proof.
  intros Hne. destruct results as [|r0 rs]; [contradiction|].
  unfold calculate_som.
  destruct (for_each_set (som_for_brand (r0 :: rs) (PyList.len (r0 :: rs)))
              (som_entry (r0 :: rs)) (som_for_brand_entry (r0 :: rs))
              brands Dict.empty) as [d [Hd [Hk Ho]]].
  exists d. split; [exact Hd|]. split; [exact Hk|].
  intros b Hb. now rewrite (Ho b Hb).
Qed.

(** X5: on a non-empty collection [calculate_som] binds exactly the
    tracked brands; an entry carries its own brand, the number of records
    as [total_queries], and a [mention_rate] equal to
    [total_mentions / total_queries]. *)
Theorem calculate_som_entries_consistent (brands : list string)
    (results : list QueryResult) :
  results <> [] ->
  exists metrics,
    calculate_som brands results = Ok metrics
    /\ forall b,
         (In b brands ->
          exists sm,
            Dict.get b metrics = Some sm
            /\ brand sm = b
            /\ total_queries sm = Z.of_nat (List.length results)
            /\ 0 <= total_mentions sm <= total_queries sm
            /\ (mention_rate sm
                == inject_Z (total_mentions sm) / inject_Z (total_queries sm))%Q)
         /\ (~ In b brands -> Dict.get b metrics = None).
Proof.
  intro Hne. destruct (calculate_som_entries brands results Hne)
    as [metrics [Hc [Hin Hout]]].
  exists metrics. split; [exact Hc|]. intro b. split; [|apply Hout].
  intro Hb. destruct (Hin b Hb) as [sm [Hg [[H1 [H2 [H3 [H4 H5]]]] _]]].
  exists sm. split; [exact Hg|]. split; [exact H1|]. split; [exact H5|].
  split.
  - rewrite H4, H5. unfold mention_total, PyList.len.
    pose proof (filter_length_le (mentions_brand b) results). lia.
  - rewrite H2, H4, H5. reflexivity.
Qed.

Lemma calculate_som_entries_consistent_witness :
  exists metrics,
    calculate_som ["OpenAI"; "Anthropic"] test_results = Ok metrics
    /\ Dict.get "Google" metrics = None.
Proof.
  destruct (calculate_som_entries_consistent ["OpenAI"; "Anthropic"]
              test_results) as [metrics [Hc H]]; [discriminate|].
  exists metrics. split; [exact Hc|]. apply (proj2 (H "Google")).
  intros [E|[E|[]]]; discriminate.
Defined.

(** X6: the [avg_position] of a tracked brand is [None] exactly when the
    brand occurs in no record's [mention_order]; otherwise it is at
    least 1. *)
Theorem avg_position_defined (brands : list string)
    (results : list QueryResult) (b : string) :
  results <> [] -> In b brands ->
  exists metrics sm,
    calculate_som brands results = Ok metrics
    /\ Dict.get b metrics = Some sm
    /\ (avg_position sm = None
        <-> forall r, In r results -> ~ In b (mention_order r))
    /\ forall a, avg_position sm = Some a -> (1 <= a)%Q.
Proof.
  intros Hne Hb. destruct (calculate_som_entries brands results Hne)
    as [metrics [Hc [Hin _]]].
  destruct (Hin b Hb) as [sm [Hg [_ [Hnone Hge]]]].
  exists metrics, sm. repeat split; auto.
  - intros E r Hr Hbr. apply Hnone in E.
    assert (Hf : In r (filter (in_order b) results)).
    { apply filter_In. split; [exact Hr|]. now apply contains_in. }
    rewrite E in Hf. destruct Hf.
  - intro H. apply Hnone. apply filter_none. intros r Hr.
    destruct (in_order b r) eqn:E; [|reflexivity].
    apply contains_in in E. exfalso. exact (H r Hr E).
Qed.

Lemma avg_position_defined_witness :
  exists metrics sm,
    calculate_som ["OpenAI"; "Anthropic"] test_results = Ok metrics
    /\ Dict.get "Anthropic" metrics = Some sm
    /\ forall a, avg_position sm = Some a -> (1 <= a)%Q.
Proof.
  destruct (avg_position_defined ["OpenAI"; "Anthropic"] test_results
              "Anthropic") as [metrics [sm [Hc [Hg [_ Ha]]]]].
  - discriminate.
  - simpl; auto.
  - exists metrics, sm. auto.
Defined.

Lemma sumZ_ext f g brands :
  (forall b, In b brands -> f b = g b) -> sumZ f brands = sumZ g brands.
Proof.
  induction brands as [|x brands IH]; intro H; cbn; [reflexivity|].
  rewrite H by now left. f_equal. apply IH.
  intros b Hb. apply H. now right.
Qed.

Lemma sumZ_add f g brands :
  sumZ (fun b => f b + g b) brands = sumZ f brands + sumZ g brands.
Proof.
  induction brands as [|x brands IH]; [reflexivity|].
  change (f x + g x + sumZ (fun b => f b + g b) brands
          = f x + sumZ f brands + (g x + sumZ g brands)).
  lia.
Qed.

Lemma sumZ_zero f brands :
  (forall b, In b brands -> f b = 0) -> sumZ f brands = 0.
Proof.
  induction brands as [|x brands IH]; intro H; [reflexivity|].
  change (f x + sumZ f brands = 0).
  rewrite H by now left. rewrite IH; [reflexivity|].
  intros b Hb. apply H. now right.
Qed.

(** A record has one first mention at most. *)
Lemma one_first_mention r brands :
  NoDup brands ->
  0 <= sumZ (fun b => if first_is b r then 1 else 0) brands <= 1.
Proof.
  induction brands as [|x brands IH]; intro H; [cbn; lia|].
  inversion H as [|? ? Hx Hn]; subst.
  change (0 <= (if first_is x r then 1 else 0)
               + sumZ (fun b => if first_is b r then 1 else 0) brands <= 1).
  destruct (first_is x r) eqn:E; [|specialize (IH Hn); lia].
  rewrite sumZ_zero; [lia|].
  intros b Hb. destruct (first_is b r) eqn:Eb; [|reflexivity].
  apply first_is_iff in E, Eb. unfold first_mentioned in *.
  rewrite E in Eb. inversion Eb. subst. contradiction.
Qed.

Lemma first_totals_bounded brands results :
  NoDup brands ->
  0 <= sumZ (fun b => first_total b results) brands
    <= Z.of_nat (List.length results).
Proof.
  intro Hn. induction results as [|r rs IH].
  - rewrite sumZ_zero; [cbn; lia | reflexivity].
  - rewrite (sumZ_ext _ (fun b => (if first_is b r then 1 else 0)
                                   + first_total b rs)).
    + rewrite sumZ_add. pose proof (one_first_mention r brands Hn).
      cbn [List.length]. lia.
    + intros b _. unfold first_total. cbn [filter].
      destruct (first_is b r); cbn [List.length]; lia.
Qed.

(** X7: every record counts as a first mention for one tracked brand at
    most: over distinct tracked brands, each [first_mention_rate] is the
    quotient of a number of records by [len(results)], and these numbers
    add up to at most [len(results)]. *)
Theorem first_mention_counts_sum (brands : list string)
    (results : list QueryResult) :
  results <> [] -> NoDup brands ->
  exists metrics,
    calculate_som brands results = Ok metrics
    /\ (forall b, In b brands ->
          exists sm,
            Dict.get b metrics = Some sm
            /\ 0 <= first_total b results
            /\ first_mention_rate sm
               = PyList.div (first_total b results) (PyList.len results))
    /\ sumZ (fun b => first_total b results) brands <= PyList.len results.
Proof.
  intros Hne Hn. destruct (calculate_som_entries brands results Hne)
    as [metrics [Hc [Hin _]]].
  exists metrics. split; [exact Hc|]. split.
  - intros b Hb. destruct (Hin b Hb) as [sm [Hg [[_ [_ [Hf _]]] _]]].
    exists sm. split; [exact Hg|]. split; [unfold first_total; lia|exact Hf].
  - apply first_totals_bounded, Hn.
Qed.

Lemma first_mention_counts_sum_witness :
  exists metrics,
    calculate_som ["OpenAI"; "Anthropic"] test_results = Ok metrics
    /\ first_total "OpenAI" test_results
       + (first_total "Anthropic" test_results + 0) <= 2.
Proof.
  destruct (first_mention_counts_sum ["OpenAI"; "Anthropic"] test_results)
    as [metrics [Hc [_ H]]].
  - discriminate.
  - repeat constructor; simpl; intuition discriminate.
  - exists metrics. split; [exact Hc | exact H].
Defined.

End SomMetricsFacts.

(** ** More on the storage manager *)

Section StorageFacts.

Import StorageManager StorageListing.

Lemma sort_reverse_head pre e post :
  Forall (fun x => older x e = true) pre ->
  Forall (fun x => older e x = false) post ->
  exists rest, PySort.sort_reverse older (pre ++ e :: post) = e :: rest.
Proof.
  intros Hpre Hpost. unfold PySort.sort_reverse.
  induction pre as [|p pre IH]; cbn [app PySort.sort fold_right].
  - fold (PySort.sort (fun x y => older y x) post).
    destruct (PySort.sort (fun x y => older y x) post) as [|h s] eqn:Es;
      cbn [PySort.insert]; [eauto|].
    assert (Hh : In h post).
    { eapply Permutation_in; [apply PySortFacts.sort_perm|].
      rewrite Es. now left. }
    rewrite Forall_forall in Hpost. rewrite (Hpost h Hh). eauto.
  - inversion Hpre as [|? ? Hp Hpre']; subst.
    fold (PySort.sort (fun x y => older y x) (pre ++ e :: post)).
    destruct (IH Hpre') as [rest ->]. cbn [PySort.insert].
    rewrite Hp. eauto.
Qed.

Lemma most_recent_split others : forall pre best post,
  Forall (fun x => older x best = true) pre ->
  Forall (fun x => older best x = false) post ->
  exists pre' e post',
    (pre ++ best :: post ++ others = pre' ++ e :: post')%list
    /\ fold_left
         (fun best entry =>
            if mtime (snd best) <? mtime (snd entry) then entry else best)
         others best = e
    /\ Forall (fun x => older x e = true) pre'
    /\ Forall (fun x => older e x = false) post'.
Proof.
  induction others as [|x others IH]; intros pre best post Hpre Hpost;
    cbn [fold_left].
  - exists pre, best, post. rewrite app_nil_r. auto.
  - destruct (mtime (snd best) <? mtime (snd x)) eqn:E.
    + destruct (IH (pre ++ best :: post)%list x []) as [pre' [e [post' H]]].
      * apply Forall_app. split; [|constructor; [exact E|]].
        -- rewrite Forall_forall in *. intros y Hy. specialize (Hpre y Hy).
           unfold older in *. apply Z.ltb_lt in Hpre, E. apply Z.ltb_lt. lia.
        -- rewrite Forall_forall in *. intros y Hy. specialize (Hpost y Hy).
           unfold older in *. apply Z.ltb_ge in Hpost. apply Z.ltb_lt in E.
           apply Z.ltb_lt. lia.
      * constructor.
      * exists pre', e, post'. rewrite <- (proj1 H).
        split; [|exact (proj2 H)].
        clear. repeat (rewrite <- app_assoc; cbn [app]). reflexivity.
    + destruct (IH pre best (post ++ [x])%list Hpre) as [pre' [e [post' H]]].
      * apply Forall_app. split; [exact Hpost|]. constructor; [exact E|].
        constructor.
      * exists pre', e, post'. rewrite <- (proj1 H).
        split; [|exact (proj2 H)].
        clear. repeat (rewrite <- app_assoc; cbn [app]). reflexivity.
Qed.

Lemma newest_is_listed_first first others :
  exists rest,
    PySort.sort_reverse older (first :: others)
    = most_recent first others :: rest.
Proof.
  destruct (most_recent_split others [] first []) as [pre [e [post H]]];
    [constructor | constructor |].
  destruct H as [Hsplit [Hbest [Hpre Hpost]]].
  cbn [app] in Hsplit. rewrite Hsplit. unfold most_recent. rewrite Hbest.
  now apply sort_reverse_head.
Qed.

(** X8: [get_results_files] lists the names of the results files, each
    once per file, newest first; and [load_results] without a name loads
    the file listed first, or returns the empty list when none is
    listed. *)
Theorem results_files_newest_first (disk : Disk) :
  (exists sorted,
      get_results_files disk = map fst sorted
      /\ Permutation sorted (glob_results disk)
      /\ StronglySorted (fun e1 e2 => mtime (snd e2) <= mtime (snd e1)) sorted)
  /\ load_results disk None
     = match get_results_files disk with
       | [] => Ok []
       | newest :: _ => load_results disk (Some newest)
       end.
Proof.
  split.
  - exists (PySort.sort_reverse older (glob_results disk)).
    split; [reflexivity|]. split; [apply PySortFacts.sort_perm|].
    unfold PySort.sort_reverse.
    assert (H : StronglySorted
                  (PySort.ordered (fun x y => older y x))
                  (PySort.sort (fun x y => older y x) (glob_results disk))).
    { apply (PySortFacts.sort_sorted _ (fun _ => True)).
      - intros x y _ _ H. unfold older in *.
        apply Z.ltb_lt in H. apply Z.ltb_ge. lia.
      - intros x y z _ _ _ H1 H2. unfold older in *.
        apply Z.ltb_ge in H1, H2. apply Z.ltb_ge. lia.
      - apply Forall_forall. auto. }
    induction H as [|a l Hs IH Ha]; constructor; auto.
    rewrite Forall_forall in *. intros e He. specialize (Ha e He).
    unfold PySort.ordered, older in Ha. now apply Z.ltb_ge in Ha.
  - unfold get_results_files, load_results.
    destruct (glob_results disk) as [|first others]; [reflexivity|].
    destruct (newest_is_listed_first first others) as [rest ->].
    reflexivity.
Qed.

Section WithPandas.

Variable read_csv : file_content -> result (list HistoryRow).






End WithPandas.



End StorageFacts.

(** ** More on the confidence calculator and the trend analyzer *)

Section CalculatorFacts.

Import ConfidenceCalculator.

Lemma ltb_leb x y : PrimFloat.ltb x y = true -> PrimFloat.leb x y = true.
Proof.
  rewrite ltb_spec, leb_spec. unfold SpecFloat.SFltb, SpecFloat.SFleb.
  destruct (SpecFloat.SFcompare _ _) as [[| |]|]; auto; discriminate.
Qed.

(** X11: whatever the counts and the critical value, the clamps hold in
    binary64 arithmetic: [0 <= lower_bound] and [upper_bound <= 1], and
    neither bound is [nan]. *)
Theorem wilson_bounds_clamped (self : Calculator) (successes total : Z) :
  let m := calculate_proportion_confidence self successes total in
  PrimFloat.leb 0 (lower_bound m) = true
  /\ PrimFloat.leb (upper_bound m) 1 = true.
Proof.
  unfold calculate_proportion_confidence.
  destruct (total =? 0); cbn [lower_bound upper_bound]; [split; reflexivity|].
  unfold Binary64.max0, Binary64.min1. split.
  - match goal with |- context [PrimFloat.ltb 0 ?x] =>
      destruct (PrimFloat.ltb 0 x) eqn:E end;
      [now apply ltb_leb | reflexivity].
  - match goal with |- context [PrimFloat.ltb ?x 1] =>
      destruct (PrimFloat.ltb x 1) eqn:E end;
      [now apply ltb_leb | reflexivity].
Qed.

(** X12: the number of samples that [evaluate_data_quality] recommends
    to a LOW or MODERATE sample is the least that lifts it to the next
    grade; and a larger sample never gets a lower grade. *)
Theorem data_quality_recommendation :
  (forall n, n < 30 ->
     recommendation (evaluate_data_quality n)
     = "Collect " ++ str_of_int (30 - n)
         ++ " more samples for statistical significance"
     /\ quality (evaluate_data_quality (n + (30 - n))) = "MODERATE"
     /\ forall k, 0 <= k < 30 - n ->
                  quality (evaluate_data_quality (n + k)) = "LOW")
  /\ (forall n, 30 <= n < 100 ->
        recommendation (evaluate_data_quality n)
        = "Consider " ++ str_of_int (100 - n)
            ++ " more samples for higher confidence"
        /\ quality (evaluate_data_quality (n + (100 - n))) = "GOOD"
        /\ forall k, 0 <= k < 100 - n ->
                     quality (evaluate_data_quality (n + k)) = "MODERATE")
  /\ (forall n m, n <= m ->
        grade_rank (quality (evaluate_data_quality n))
        <= grade_rank (quality (evaluate_data_quality m))).
Proof.
  split; [|split].
  - intros n Hn. unfold evaluate_data_quality.
    destruct (Z.ltb_spec n 30); [|lia]. split; [reflexivity|]. split.
    + replace (n + (30 - n)) with 30 by lia. reflexivity.
    + intros k Hk. destruct (Z.ltb_spec (n + k) 30); [reflexivity | lia].
  - intros n Hn. unfold evaluate_data_quality.
    destruct (Z.ltb_spec n 30); [lia|].
    destruct (Z.ltb_spec n 100); [|lia]. split; [reflexivity|]. split.
    + replace (n + (100 - n)) with 100 by lia. reflexivity.
    + intros k Hk. destruct (Z.ltb_spec (n + k) 30); [lia|].
      destruct (Z.ltb_spec (n + k) 100); [reflexivity | lia].
  - intros n m Hnm. unfold evaluate_data_quality.
    destruct (Z.ltb_spec n 30), (Z.ltb_spec m 30);
      destruct (Z.ltb_spec n 100), (Z.ltb_spec m 100);
      destruct (Z.ltb_spec n 300), (Z.ltb_spec m 300);
      cbn; lia.
Qed.

End CalculatorFacts.

Section VelocityFacts.

Import TrendAnalyzer.

Variable kendalltau : list PyFloat.t -> PyFloat.t * PyFloat.t.

(** X14: the [nan] of a three-point series does not depend on the
    values: for every series of exactly three points [calculate_velocity]
    returns [nan] as [acceleration] and [False] as [is_accelerating]; for
    every shorter series the acceleration is [0.0]. *)
Theorem acceleration_below_four_points (time_series : list PyFloat.t) :
  ((List.length time_series < 3)%nat ->
   acceleration_of (calculate_velocity kendalltau time_series)
   = PyFloat.Fin 0)
  /\ (List.length time_series = 3%nat ->
      acceleration_of (calculate_velocity kendalltau time_series)
      = PyFloat.NaN
      /\ is_accelerating_of (calculate_velocity kendalltau time_series)
         = Some false).
Proof.
  split.
  - exact (proj2 (acceleration_formula kendalltau time_series)).
  - intro H. destruct time_series as [|a [|b [|c [|x rest]]]];
      try discriminate.
    apply acceleration_three_points.
Qed.

End VelocityFacts.

(** ** The context windows of a brand *)

Section BrandContexts.

Import ThemeAnalyzer ThemeContexts.

Lemma drop_length i s :
  String.length (PyStr.drop i s) = (String.length s - i)%nat.
Proof.
  revert s. induction i as [|i IH]; intros [|c s]; cbn; auto; lia.
Qed.

Lemma drop_drop j k s : PyStr.drop k (PyStr.drop j s) = PyStr.drop (j + k) s.
Proof.
  revert s. induction j as [|j IH]; intros s; [reflexivity|].
  destruct s as [|c s]; cbn [PyStr.drop Nat.add]; [now destruct k | apply IH].
Qed.

Lemma drop_next j s c v :
  PyStr.drop j s = String c v -> PyStr.drop (S j) s = v.
Proof.
  revert s. induction j as [|j IH]; intros [|c' s] H; cbn in *;
    try discriminate.
  - now inversion H.
  - now apply IH.
Qed.

(** [find] returns the first of the indices that [occurrences] lists. *)
Lemma find_from_occurrences sub u : forall (i : Z) (p : nat),
  0 <= i ->
  (PyStr.find_from sub u i = -1 /\ occurrences sub u p = [])
  \/ exists k,
       PyStr.find_from sub u i = i + Z.of_nat k
       /\ (k <= String.length u)%nat
       /\ occurrences sub u p
          = (p + k)%nat :: behind sub (PyStr.drop k u) (p + k).
Proof.
  induction u as [|c u IH]; intros i p Hi;
    cbn [PyStr.find_from occurrences].
  - destruct (PyStr.startswith "" sub); [right | left; auto].
    exists 0%nat. rewrite Nat.add_0_r. cbn. split; [lia | split; auto].
  - destruct (PyStr.startswith (String c u) sub).
    + right. exists 0%nat. rewrite Nat.add_0_r. cbn.
      split; [lia | split; [lia | reflexivity]].
    + cbn [app]. destruct (IH (i + 1) (S p)) as [[Hf Ho]|[k [Hf [Hk Ho]]]];
        [lia | left; auto |].
      right. exists (S k). cbn [PyStr.drop String.length].
      replace (p + S k)%nat with (S p + k)%nat by lia.
      split; [lia | split; [lia | exact Ho]].
Qed.

Lemma slice_window text brand (window pos : nat) :
  slice text (Z.max 0 (Z.of_nat pos - Z.of_nat window))
    (Z.min (Z.of_nat (String.length text))
       (Z.of_nat pos + Z.of_nat (String.length brand) + Z.of_nat window))
  = window_at text brand window pos.
Proof.
  unfold slice, window_at. f_equal; lia.
Qed.

Lemma contexts_loop_spec text text_lower brand brand_lower (window : nat) :
  forall fuel start contexts,
    (start <= String.length text_lower)%nat ->
    (String.length text_lower + 2 - start <= fuel)%nat ->
    contexts_loop fuel text text_lower brand brand_lower (Z.of_nat window)
      (Z.of_nat start) contexts
    = Some (contexts
            ++ map (window_at text brand window)
                   (occurrences brand_lower (PyStr.drop start text_lower)
                      start))%list.
Proof.
  induction fuel as [|fuel IH]; intros start contexts Hs Hf; [lia|].
  cbn [contexts_loop]. unfold find_start, PyStr.len.
  destruct (Z.ltb_spec (Z.of_nat (String.length text_lower)) (Z.of_nat start));
    [lia|].
  rewrite Nat2Z.id.
  destruct (find_from_occurrences brand_lower (PyStr.drop start text_lower)
              (Z.of_nat start) start) as [[Hfind Ho]|[k [Hfind [Hk Ho]]]];
    [lia | |]; rewrite Hfind, Ho.
  - cbn [Z.eqb map]. now rewrite app_nil_r.
  - destruct (Z.eqb_spec (Z.of_nat start + Z.of_nat k) (-1)); [lia|].
    rewrite drop_length in Hk. rewrite drop_drop.
    replace (Z.of_nat start + Z.of_nat k) with (Z.of_nat (start + k)) by lia.
    rewrite slice_window.
    replace (Z.of_nat (start + k) + 1) with (Z.of_nat (S (start + k))) by lia.
    cbn [map]. destruct (PyStr.drop (start + k) text_lower) as [|c v] eqn:Ed.
    + cbn [behind map].
      assert (Hend : (start + k = String.length text_lower)%nat).
      { pose proof (drop_length (start + k) text_lower) as Hl.
        rewrite Ed in Hl. cbn in Hl. lia. }
      destruct fuel as [|fuel]; [lia|]. cbn [contexts_loop].
      unfold find_start, PyStr.len.
      destruct (Z.ltb_spec (Z.of_nat (String.length text_lower))
                  (Z.of_nat (S (start + k)))); [reflexivity | lia].
    + cbn [behind].
      assert (Hlt : (S (start + k) <= String.length text_lower)%nat).
      { pose proof (drop_length (start + k) text_lower) as Hl.
        rewrite Ed in Hl. cbn in Hl. lia. }
      rewrite IH; [|exact Hlt | lia].
      rewrite (drop_next _ _ _ _ Ed). rewrite <- app_assoc. reflexivity.
Qed.

(** X15: the [while True] loop of [_extract_brand_contexts] stops within
    [len(text.lower()) + 2] turns, the length being that of the lowered
    text that is searched, and it returns the windows around every index
    at which the lowered brand occurs in the lowered text, overlapping
    occurrences included, in increasing order of the index. *)
Theorem brand_contexts_loop_terminates (text brand : string)
    (window fuel : nat) :
  (String.length (PyStr.lower text) + 2 <= fuel)%nat ->
  run fuel text brand (Z.of_nat window)
  = Some (_extract_brand_contexts text brand window).
Proof.
  intro Hf. unfold run.
  change 0 with (Z.of_nat 0).
  rewrite (contexts_loop_spec text (PyStr.lower text) brand (PyStr.lower brand)
             window fuel 0 []); [reflexivity | lia | lia].
Qed.

Lemma brand_contexts_loop_terminates_witness :
  run 12 "abcO2defo2" "O2" 2 = Some ["bcO2de"; "efo2"].
Proof.
  apply (brand_contexts_loop_terminates "abcO2defo2" "O2" 2 12).
  cbn; lia.
Defined.

Lemma occurrences_nil sub s p :
  occurrences sub s p = [] <-> PyStr.contains sub s = false.
Proof.
  revert p. induction s as [|c s IH]; intro p;
    cbn [occurrences PyStr.contains].
  - destruct (PyStr.startswith "" sub); cbn; split; auto; discriminate.
  - destruct (PyStr.startswith (String c s) sub); cbn [app orb].
    + split; discriminate.
    + apply IH.
Qed.

Lemma count_from_le_occurrences sub s : forall skip p,
  PyStr.count_from sub s skip
  <= Z.of_nat (List.length (occurrences sub s p)).
Proof.
  induction s as [|c s IH]; intros skip p;
    cbn [PyStr.count_from occurrences]; [lia|].
  rewrite List.length_app.
  destruct skip as [|skip].
  - destruct (PyStr.startswith (String c s) sub); cbn [List.length].
    + specialize (IH (String.length sub - 1)%nat (S p)). lia.
    + specialize (IH 0%nat (S p)). lia.
  - specialize (IH skip (S p)). lia.
Qed.

Lemma occurrences_empty s p :
  List.length (occurrences "" s p) = S (String.length s).
Proof.
  revert p. induction s as [|c s IH]; intro p; [reflexivity|].
  cbn [occurrences]. change (PyStr.startswith (String c s) "") with true.
  cbn [app List.length String.length]. now rewrite IH.
Qed.

Lemma substring_length a m s : (String.length (String.substring a m s) <= m)%nat.
Proof.
  revert a m. induction s as [|c s IH]; intros [|a] [|m]; cbn; try lia.
  - specialize (IH 0%nat m). lia.
  - apply (IH a 0%nat).
  - apply (IH a (S m)).
Qed.

(** X16: a brand has a context window in a text exactly when
    [extract_mentions] flags it as mentioned there; the windows are at
    least as many as the non-overlapping occurrences counted in
    [BrandMention.count], and none is longer than
    [len(brand) + 2 * window]. *)
Theorem brand_contexts_and_mentions (brands : list string)
    (text brand : string) (window : nat) :
  In brand brands ->
  exists m,
    Dict.get brand (ResponseAnalyzer.extract_mentions brands text) = Some m
    /\ (mentioned m = true
        <-> _extract_brand_contexts text brand window <> [])
    /\ count m
       <= Z.of_nat (List.length (_extract_brand_contexts text brand window))
    /\ forall context,
         In context (_extract_brand_contexts text brand window) ->
         (String.length context <= String.length brand + 2 * window)%nat.
Proof.
  intro Hin. rewrite (extract_mentions_get brands text brand Hin).
  eexists. split; [reflexivity|].
  unfold _extract_brand_contexts, ResponseAnalyzer.mention_of.
  set (sub := PyStr.lower brand). set (s := PyStr.lower text).
  split; [|split].
  - destruct (PyStr.contains sub s) eqn:E; cbn [mentioned].
    + split; [|reflexivity]. intros _ H. apply map_eq_nil in H.
      apply occurrences_nil in H. congruence.
    + split; [discriminate|]. intro H. exfalso. apply H.
      apply (proj2 (occurrences_nil sub s 0)) in E. now rewrite E.
  - rewrite length_map. destruct (PyStr.contains sub s) eqn:E; cbn [count];
      [|lia].
    unfold PyStr.count. destruct sub as [|a sub'] eqn:Es.
    + rewrite occurrences_empty. unfold PyStr.len. lia.
    + apply count_from_le_occurrences.
  - intros context Hc. apply in_map_iff in Hc. destruct Hc as [pos [<- _]].
    etransitivity; [apply substring_length|]. lia.
Qed.

Lemma brand_contexts_and_mentions_witness :
  exists m,
    Dict.get "O2" (ResponseAnalyzer.extract_mentions ["O2"] "o2o2 and O2") = Some m
    /\ count m
       <= Z.of_nat (List.length (_extract_brand_contexts "o2o2 and O2" "O2" 3)).
Proof.
  destruct (brand_contexts_and_mentions ["O2"] "o2o2 and O2" "O2" 3)
    as [m [Hg [_ [Hc _]]]]; [simpl; auto|].
  exists m. auto.
Defined.

End BrandContexts.

(** ** Theme extraction on complete records *)

Section ExtractThemesCovered.

Import ThemeAnalyzer.

Lemma for_each_invariant {A S} (body : S -> A -> result S)
    (Inv : S -> Prop) l :
  (forall s x, In x l -> Inv s -> exists s', body s x = Ok s' /\ Inv s') ->
  forall s, Inv s -> exists s', for_each body l s = Ok s' /\ Inv s'.
Proof.
  induction l as [|x l IH]; intros H s Hs; cbn [for_each]; [eauto|].
  destruct (H s x (or_introl eq_refl) Hs) as [s' [-> Hs']]. cbn [bind].
  apply IH; [|exact Hs']. intros s0 x0 Hx0. apply H. now right.
Qed.

Lemma for_each_set_on {V} (body : dict V -> string -> result (dict V))
    (P : string -> V -> Prop) (ks : list string) :
  (forall d k, In k ks -> exists v, body d k = Ok (Dict.set k v d) /\ P k v) ->
  forall acc, exists d,
    for_each body ks acc = Ok d
    /\ (forall k, In k ks -> exists v, Dict.get k d = Some v /\ P k v)
    /\ (forall k, ~ In k ks -> Dict.get k d = Dict.get k acc).
Proof.
  assert (G : forall l,
             (forall d k, In k l ->
                exists v, body d k = Ok (Dict.set k v d) /\ P k v) ->
             forall acc, exists d,
               for_each body l acc = Ok d
               /\ (forall k, In k l -> exists v, Dict.get k d = Some v /\ P k v)
               /\ (forall k, ~ In k l -> Dict.get k d = Dict.get k acc)).
  { induction l as [|x l IH]; intros Hbody acc; cbn [for_each].
    - exists acc. repeat split; auto. intros k [].
    - destruct (Hbody acc x (or_introl eq_refl)) as [v [Hb Hv]].
      rewrite Hb. cbn [bind].
      destruct (IH (fun d k Hk => Hbody d k (or_intror Hk)) (Dict.set x v acc))
        as [d [Hd [Hin Hout]]].
      exists d. split; [exact Hd|]. split.
      + intros k Hk. destruct (in_dec string_dec k l) as [i|n];
          [now apply Hin|].
        destruct Hk as [->|Hk]; [|contradiction].
        exists v. split; [|exact Hv].
        rewrite (Hout k n). apply DictFacts.get_set_same.
      + intros k Hk. rewrite Hout by (intro; apply Hk; now right).
        apply DictFacts.get_set_other. intros ->. apply Hk. now left. }
  apply G.
Qed.

Lemma count_where_pure_on {A} (p : A -> result bool) (q : A -> bool) l :
  (forall r, In r l -> p r = Ok (q r)) ->
  PyList.count_where p l = Ok (Z.of_nat (List.length (filter q l))).
Proof.
  induction l as [|r l IH]; intro H; [reflexivity|].
  cbn [PyList.count_where filter]. rewrite (H r (or_introl eq_refl)).
  rewrite IH by (intros r' Hr'; apply H; now right). cbn [bind].
  destruct (q r); cbn [List.length]; f_equal; lia.
Qed.

Lemma mentioned_in_covered b r :
  Dict.has b (mentions r) = true ->
  mentioned_in b r = Ok (mentions_brand b r).
Proof.
  unfold Dict.has, mentioned_in, subscript, mentions_brand.
  destruct (Dict.get b (mentions r)); [reflexivity | discriminate].
Qed.

Lemma scan_covered brands results :
  covered brands results ->
  exists themes,
    for_each (scan_result brands) results
      (fold_left (fun d brand => Dict.set brand (@Dict.empty ThemeData) d)
                 brands Dict.empty)
    = Ok themes
    /\ covers brands themes.
Proof.
  intro Hcov.
  apply (for_each_invariant (scan_result brands) (covers brands)).
  - intros s r Hr Hs.
    destruct (scan_result_step brands results r s Hr Hs)
      as [H|[e [_ [r' [b [Hr' [Hb [Hm _]]]]]]]]; [exact H|].
    rewrite (Hcov r' Hr' b Hb) in Hm. discriminate.
  - apply initial_themes_cover.
Qed.

(** The insights filed for one brand from its scanned themes. *)
Lemma insight_entries b total themes :
  exists filed,
    for_each (insight_entry b total) themes Dict.empty = Ok filed
    /\ forall t ti, In (t, ti) filed -> insight_filed b t ti.
Proof.
  apply (for_each_invariant (insight_entry b total)
           (fun d => forall t ti, In (t, ti) d -> insight_filed b t ti)).
  - intros d [t data] _ Hd. unfold insight_entry.
    destruct (Qlt_le_dec 0 (PyList.div (td_count data) total)) as [Hpos|_];
      [|eauto].
    set (filed := mkThemeInsight t b (PyList.div (td_count data) total)
                    (firstn 3 (td_quotes data))
                    (_estimate_sentiment (td_quotes data))).
    exists (Dict.set t filed d). split; [reflexivity|].
    intros t' ti Hin. apply in_set_inv in Hin. destruct Hin as [Hin|E].
    + now apply Hd.
    + assert (Et : t' = t) by congruence.
      assert (Ei : ti = filed) by congruence. subst t' ti.
      unfold insight_filed, filed.
      cbn [theme ti_brand frequency ti_example_quotes].
      repeat split; auto. apply firstn_le_length.
  - intros t ti [].
Qed.

(** X17: when every record has an entry for every tracked brand,
    [extract_themes] returns normally; the result binds exactly the
    tracked brands; a brand that no record mentions is bound to the empty
    mapping; and every insight filed has a positive frequency, at most
    three example quotes, and carries its own brand and theme. *)
Theorem extract_themes_covered (brands : list string)
    (results : list QueryResult) :
  covered brands results ->
  exists insights,
    extract_themes brands results = Ok insights
    /\ (forall b, In b brands ->
          exists filed,
            Dict.get b insights = Some filed
            /\ (mention_total b results = 0 -> filed = [])
            /\ forall t ti, In (t, ti) filed -> insight_filed b t ti)
    /\ (forall b, ~ In b brands -> Dict.get b insights = None).
Proof.
  intro Hcov. unfold extract_themes.
  destruct (scan_covered brands results Hcov) as [themes [-> Hthemes]].
  cbn [bind].
  destruct (for_each_set_on
              (fun d brand =>
                 n <- PyList.count_where (mentioned_in brand) results ;;
                 Ok (Dict.set brand n d))
              (fun b n => n = mention_total b results) brands)
    with (acc := @Dict.empty Z) as [totals [-> [Htot _]]].
  { intros d b Hb.
    rewrite (count_where_pure_on _ (mentions_brand b)).
    - cbn [bind]. eexists. split; reflexivity.
    - intros r Hr. apply mentioned_in_covered. now apply Hcov. }
  cbn [bind].
  destruct (for_each_set_on (insights_for_brand themes totals)
              (fun b filed =>
                 (mention_total b results = 0 -> filed = [])
                 /\ forall t ti, In (t, ti) filed -> insight_filed b t ti)
              brands)
    with (acc := @Dict.empty (dict ThemeInsight)) as [insights [Hi [Hin Hout]]].
  { intros d b Hb. unfold insights_for_brand, subscript.
    destruct (Htot b Hb) as [n [-> ->]]. cbn [bind].
    destruct (Z.eqb_spec (mention_total b results) 0) as [E|N].
    - eexists. split; [reflexivity|]. split; [reflexivity|]. intros t ti [].
    - pose proof (Hthemes b Hb) as Hh. unfold Dict.has in Hh.
      destruct (Dict.get b themes) as [th|]; [|discriminate]. cbn [bind].
      destruct (insight_entries b (mention_total b results) th)
        as [filed [-> Hf]].
      cbn [bind]. eexists. split; [reflexivity|].
      split; [intro; contradiction | exact Hf]. }
  exists insights. split; [exact Hi|]. split; [exact Hin|].
  intros b Hb. now rewrite (Hout b Hb).
Qed.

Lemma extract_themes_covered_witness :
  exists insights filed,
    extract_themes ["O2"] [stale_record] = Ok insights
    /\ Dict.get "O2" insights = Some filed
    /\ forall t ti, In (t, ti) filed -> insight_filed "O2" t ti.
Proof.
  destruct (extract_themes_covered ["O2"] [stale_record])
    as [insights [He [Hin _]]].
  - intros r [<-|[]] b [<-|[]]. reflexivity.
  - destruct (Hin "O2") as [filed [Hg [_ Hf]]]; [simpl; auto|].
    exists insights, filed. auto.
Defined.

End ExtractThemesCovered.

(** ** Narratives *)

Section NarrativeFacts.

Import ThemeNarratives.

Lemma has_iff_get {V} k (d : dict V) :
  Dict.has k d = true <-> exists v, Dict.get k d = Some v.
Proof.
  unfold Dict.has. destruct (Dict.get k d); split; eauto; try discriminate.
  intros [v H]. discriminate.
Qed.

Lemma has_set_iff {V} k k' (v : V) d :
  Dict.has k (Dict.set k' v d) = true <-> k = k' \/ Dict.has k d = true.
Proof.
  unfold Dict.has. destruct (string_dec k k') as [->|N].
  - rewrite DictFacts.get_set_same. tauto.
  - rewrite DictFacts.get_set_other by exact N.
    split; [auto | intros [E|H]; [contradiction | exact H]].
Qed.

Lemma get_map_values {V W} (f : V -> W) k (d : dict V) :
  Dict.get k (map (fun e => (fst e, f (snd e))) d)
  = option_map f (Dict.get k d).
Proof.
  induction d as [|[k' v] d IH]; [reflexivity|]. cbn [map Dict.get fst snd].
  destruct (String.eqb k k'); [reflexivity | exact IH].
Qed.

Lemma score_brand_scores theme_insights attributes scores quotes b :
  exists score,
    fst (score_brand theme_insights attributes (scores, quotes) b)
    = Dict.set b score scores.
Proof.
  unfold score_brand. destruct (Dict.get b theme_insights) as [of_brand|];
    [|cbn [fst]; eauto].
  destruct (fold_left _ attributes _) as [total quotes']. cbn [fst]. eauto.
Qed.

(** The scores after the loop over the brands: one for each tracked
    brand, under distinct keys. *)
Lemma brand_scores_keys theme_insights attributes brands : forall state,
  NoDup (map fst (fst state)) ->
  let scores :=
    fst (fold_left (score_brand theme_insights attributes) brands state) in
  NoDup (map fst scores)
  /\ forall b, Dict.has b scores = true
               <-> In b brands \/ Dict.has b (fst state) = true.
Proof.
  induction brands as [|x brands IH]; intros [scores quotes] Hn;
    cbn [fold_left fst].
  - split; [exact Hn | intro b; cbn [In]; tauto].
  - destruct (score_brand_scores theme_insights attributes scores quotes x)
      as [score Hs].
    destruct (score_brand theme_insights attributes (scores, quotes) x)
      as [scores' quotes'] eqn:E.
    assert (Hset : scores' = Dict.set x score scores)
      by (etransitivity; [symmetry; exact (f_equal fst E) | exact Hs]).
    subst scores'.
    destruct (IH (Dict.set x score scores, quotes')) as [H1 H2];
      [now apply set_keys_nodup|].
    split; [exact H1|]. intro b. rewrite H2. cbn [fst In].
    rewrite has_set_iff. split.
    + intros [H|[->|H]]; auto.
    + intros [[->|H]|H]; auto.
Qed.

Lemma leader_of_spec others : forall first,
  In (leader_of first others) (first :: others)
  /\ (snd first <= snd (leader_of first others))%Q
  /\ forall e, In e others ->
               (snd e <= snd (leader_of first others))%Q.
Proof.
  unfold leader_of.
  induction others as [|x others IH]; intro first; cbn [fold_left].
  - repeat split; [now left | apply Qle_refl | intros e []].
  - destruct (Qltb (snd first) (snd x)) eqn:E; unfold Qltb in E.
    + apply negb_true_iff in E.
      assert (L : (snd first < snd x)%Q).
      { apply Qnot_le_lt. intro H. apply Qle_bool_iff in H. congruence. }
      destruct (IH x) as [Hin [Hge Hall]]. repeat split.
      * right. exact Hin.
      * eapply Qle_trans; [apply Qlt_le_weak, L | exact Hge].
      * intros e [<-|He]; [exact Hge | now apply Hall].
    + apply negb_false_iff in E. apply Qle_bool_iff in E.
      destruct (IH first) as [Hin [Hge Hall]]. repeat split.
      * destruct Hin as [Hin|Hin]; [now left | right; now right].
      * exact Hge.
      * intros e [<-|He]; [eapply Qle_trans; eauto | now apply Hall].
Qed.

Lemma narrative_of_well_formed brands theme_insights group n :
  narrative_of brands theme_insights group = Some n ->
  narrative_well_formed brands n /\ attribute n = fst group.
Proof.
  destruct group as [group_name attributes]. unfold narrative_of.
  pose proof (brand_scores_keys theme_insights attributes brands
                (Dict.empty, Dict.empty)) as Hk.
  destruct (fold_left _ brands _) as [scores quotes]. cbn [fst] in Hk.
  destruct Hk as [Hn Hkeys]; [constructor|].
  destruct scores as [|first others] eqn:Es; [discriminate|].
  rewrite <- Es in *.
  assert (Hlead : In (leader_of first others) scores
                  /\ forall e, In e scores ->
                       (snd e <= snd (leader_of first others))%Q).
  { destruct (leader_of_spec others first) as [H1 [H2 H3]]. rewrite Es.
    split; [exact H1|]. intros e [<-|He]; auto. }
  destruct (leader_of first others) as [lb ls]. destruct Hlead as [Hin Hmax].
  intro E. inversion E; subst n; clear E. cbn [fst snd] in *.
  assert (Hkeys' : forall b, Dict.has b scores = true <-> In b brands).
  { intro b. rewrite Hkeys. cbn. split; [intros [H|H]; [exact H | discriminate]
                                        | auto]. }
  assert (Hgl : Dict.get lb scores = Some ls) by now apply in_get.
  split; [|reflexivity].
  unfold narrative_well_formed.
  cbn [gap_analysis brand_ownership leader leader_score].
  split; [now rewrite !map_map|]. split; [|split].
  - intro b. unfold Dict.has. rewrite get_map_values.
    specialize (Hkeys' b). unfold Dict.has in Hkeys'.
    destruct (Dict.get b scores); exact Hkeys'.
  - apply Hkeys'. apply has_iff_get. eauto.
  - exists ls. split; [reflexivity|]. split.
    + now rewrite get_map_values, Hgl.
    + intros b Hb. apply Hkeys' in Hb. apply has_iff_get in Hb.
      destruct Hb as [s Hs]. exists s.
      rewrite (get_map_values PyFloat.Fin),
        (get_map_values (fun q => PyFloat.Fin (ls - q))), Hs.
      split; [reflexivity|]. split; [|reflexivity].
      apply (Hmax (b, s)). now apply get_in.
Qed.

Lemma narrative_of_none brands theme_insights group :
  narrative_of brands theme_insights group = None <-> brands = [].
Proof.
  destruct group as [group_name attributes]. unfold narrative_of.
  pose proof (brand_scores_keys theme_insights attributes brands
                (Dict.empty, Dict.empty)) as Hk.
  destruct (fold_left _ brands _) as [scores quotes]. cbn [fst] in Hk.
  destruct Hk as [_ Hkeys]; [constructor|].
  destruct scores as [|[b s] others].
  - split; [|reflexivity]. intros _. destruct brands as [|x brands]; auto.
    assert (H : Dict.has x (@nil (string * Q)) = true)
      by (apply Hkeys; left; now left).
    discriminate.
  - destruct (leader_of _ _). split; [discriminate|]. intros ->.
    assert (H : In b [] \/ Dict.has b (@Dict.empty Q) = true).
    { apply Hkeys. unfold Dict.has. cbn. now rewrite String.eqb_refl. }
    destruct H as [[]|H]; discriminate.
Qed.

Lemma collect_analyses brands theme_insights groups : forall acc,
  let out :=
    fold_left
      (fun analyses group =>
         match narrative_of brands theme_insights group with
         | Some analysis => (analyses ++ [analysis])%list
         | None => analyses
         end)
      groups acc in
  (brands = [] -> out = acc)
  /\ (brands <> [] ->
      exists added,
        out = (acc ++ added)%list
        /\ map attribute added = map fst groups
        /\ Forall (narrative_well_formed brands) added).
Proof.
  induction groups as [|g groups IH]; intro acc; cbn [fold_left].
  - split; [reflexivity|]. intros _. exists []. rewrite app_nil_r.
    repeat split. constructor.
  - destruct (narrative_of brands theme_insights g) as [n|] eqn:E.
    + destruct (IH (acc ++ [n])%list) as [H0 H1]. split.
      * intros Hb. apply narrative_of_none with (theme_insights := theme_insights)
          (group := g) in Hb. congruence.
      * intro Hb. destruct (H1 Hb) as [added [Ho [Ha Hw]]].
        exists (n :: added). rewrite Ho, <- app_assoc.
        destruct (narrative_of_well_formed _ _ _ _ E) as [Hn Hattr].
        split; [reflexivity|]. split; [cbn [map]; now rewrite Hattr, Ha|].
        now constructor.
    + destruct (IH acc) as [H0 H1]. split; [exact H0|].
      intro Hb. apply narrative_of_none in E. contradiction.
Qed.

Lemma flat_map_nil_on {A B} (f : A -> list B) l :
  (forall x, In x l -> f x = []) -> flat_map f l = [].
Proof.
  induction l as [|x l IH]; intro H; [reflexivity|]. cbn [flat_map].
  rewrite (H x (or_introl eq_refl)). apply IH.
  intros y Hy. apply H. now right.
Qed.

Lemma analyze_narratives_well_formed_aux brands theme_insights n :
  In n (analyze_narratives brands theme_insights) ->
  narrative_well_formed brands n.
Proof.
  unfold analyze_narratives. intro Hin.
  apply (Permutation_in _ (PySortFacts.sort_perm _ _)) in Hin.
  destruct (collect_analyses brands theme_insights ATTRIBUTE_GROUPS [])
    as [H0 H1].
  destruct brands as [|b0 brands'] eqn:Eb.
  - rewrite H0 in Hin by reflexivity. destruct Hin.
  - destruct H1 as [added [Ho [_ Hw]]]; [discriminate|].
    rewrite Ho in Hin. cbn [app] in Hin.
    rewrite Forall_forall in Hw. now apply Hw.
Qed.

(** X18: every narrative that [analyze_narratives] returns is well
    formed: it scores exactly the tracked brands, records a gap for each of
    them, its leader is a tracked brand with the highest score, and each
    gap is the leader's score minus the brand's own; its attribute is one
    of the seven groups. *)
Theorem analyze_narratives_well_formed (brands : list string)
    (theme_insights : dict (dict ThemeInsight)) (n : NarrativeAnalysis) :
  In n (analyze_narratives brands theme_insights) ->
  narrative_well_formed brands n
  /\ In (attribute n) (map fst ATTRIBUTE_GROUPS).
Proof.
  unfold analyze_narratives. intro Hin.
  apply (Permutation_in _ (PySortFacts.sort_perm _ _)) in Hin.
  destruct (collect_analyses brands theme_insights ATTRIBUTE_GROUPS [])
    as [H0 H1].
  destruct brands as [|b0 brands'] eqn:Eb.
  - rewrite H0 in Hin by reflexivity. destruct Hin.
  - destruct H1 as [added [Ho [Ha Hw]]]; [discriminate|].
    rewrite Ho in Hin. cbn [app] in Hin. split.
    + rewrite Forall_forall in Hw. now apply Hw.
    + rewrite <- Ha. now apply in_map.
Qed.

Lemma analyze_narratives_well_formed_witness :
  let theme_insights :=
    [("Telekom",
      [("price",
        mkThemeInsight "price" "Telekom" (1 # 2) ["Telekom is cheap"]
          "neutral")])] in
  let n :=
    nth 0 (analyze_narratives ["Telekom"; "O2"] theme_insights)
      (mkNarrativeAnalysis "" [] "" PyFloat.NaN [] []) in
  narrative_well_formed ["Telekom"; "O2"] n
  /\ In (attribute n) (map fst ATTRIBUTE_GROUPS).
Proof.
  intros theme_insights n.
  apply (analyze_narratives_well_formed ["Telekom"; "O2"] theme_insights n).
  vm_compute. left. reflexivity.
Defined.

Lemma lower_leader_score_order brands (x y z : NarrativeAnalysis) :
  narrative_well_formed brands x -> narrative_well_formed brands y ->
  narrative_well_formed brands z ->
  (lower_leader_score y x = true -> lower_leader_score x y = false)
  /\ (lower_leader_score y x = false -> lower_leader_score z y = false ->
      lower_leader_score z x = false).
Proof.
  intros [_ [_ [_ [a [Ha _]]]]] [_ [_ [_ [b [Hb _]]]]] [_ [_ [_ [c [Hc _]]]]].
  unfold lower_leader_score, PyFloat.lt, PyFloat.gt. rewrite Ha, Hb, Hc.
  split.
  - intro H. apply negb_true_iff in H. apply negb_false_iff.
    apply Qle_bool_iff. apply Qlt_le_weak, Qnot_le_lt. intro L.
    apply Qle_bool_iff in L. congruence.
  - intros H1 H2. apply negb_false_iff in H1, H2. apply negb_false_iff.
    apply Qle_bool_iff in H1, H2. apply Qle_bool_iff.
    eapply Qle_trans; eauto.
Qed.

(** X19: with no tracked brand [analyze_narratives] returns nothing;
    otherwise it returns one narrative per attribute group, ordered so that
    no narrative is followed by one with a higher leader score. *)
Theorem analyze_narratives_sorted (brands : list string)
    (theme_insights : dict (dict ThemeInsight)) :
  (brands = [] -> analyze_narratives brands theme_insights = [])
  /\ (brands <> [] ->
      Permutation (map attribute (analyze_narratives brands theme_insights))
                  (map fst ATTRIBUTE_GROUPS))
  /\ StronglySorted (fun x y => lower_leader_score x y = false)
       (analyze_narratives brands theme_insights).
Proof.
  unfold analyze_narratives.
  destruct (collect_analyses brands theme_insights ATTRIBUTE_GROUPS [])
    as [H0 H1].
  split; [|split].
  - intro Hb. now rewrite (H0 Hb).
  - intro Hb. destruct (H1 Hb) as [added [-> [Ha _]]]. cbn [app].
    rewrite <- Ha. apply Permutation_map. apply PySortFacts.sort_perm.
  - unfold PySort.sort_reverse.
    assert (Hw : Forall (narrative_well_formed brands)
                   (fold_left
                      (fun analyses group =>
                         match narrative_of brands theme_insights group with
                         | Some analysis => (analyses ++ [analysis])%list
                         | None => analyses
                         end) ATTRIBUTE_GROUPS [])).
    { destruct brands as [|b0 brands'] eqn:Eb.
      - rewrite H0 by reflexivity. constructor.
      - destruct H1 as [added [-> [_ Hw]]]; [discriminate | exact Hw]. }
    pose proof (PySortFacts.sort_sorted
                  (fun x y => lower_leader_score y x)
                  (narrative_well_formed brands)) as Hs.
    apply Hs in Hw.
    + exact Hw.
    + intros x y Hx Hy H.
      now apply (proj1 (lower_leader_score_order brands x y x Hx Hy Hx)).
    + intros x y z Hx Hy Hz H1' H2'.
      apply (proj2 (lower_leader_score_order brands x y z Hx Hy Hz)); auto.
Qed.

Lemma well_formed_gap_recorded brands n b :
  narrative_well_formed brands n -> gap_recorded b n.
Proof.
  intros [_ [Hk [_ [top [_ [_ Hall]]]]]] Hp. unfold participates in Hp.
  apply Hk in Hp. destruct (Hall b Hp) as [s [_ [_ Hg]]].
  apply has_iff_get. eauto.
Qed.

Section InsightsOfNarratives.

Variable pct0 : PyFloat.t -> string.

(** X20: [generate_insights_text] never raises on the narratives that
    [analyze_narratives] returns, whatever the target brand; it returns at
    most five insights, and none for a brand that is not tracked. *)
Theorem insights_of_analyzed_narratives (brands : list string)
    (theme_insights : dict (dict ThemeInsight)) (your_brand : string) :
  exists out,
    generate_insights_text pct0 (analyze_narratives brands theme_insights)
                           your_brand
    = Ok out
    /\ (List.length out <= 5)%nat
    /\ (~ In your_brand brands -> out = []).
Proof.
  unfold generate_insights_text.
  rewrite insight_loop_spec.
  - cbn [bind app]. eexists. split; [reflexivity|].
    split; [apply firstn_le_length|].
    intro Hb.
    assert (E : flat_map (insights_of pct0 your_brand)
                  (analyze_narratives brands theme_insights) = []).
    { apply flat_map_nil_on. intros n Hn.
      destruct (analyze_narratives_well_formed_aux brands theme_insights n Hn)
        as [_ [Hk _]].
      unfold insights_of.
      destruct (Dict.get your_brand (brand_ownership n)) eqn:Eg; [|reflexivity].
      exfalso. apply Hb, Hk. apply has_iff_get. eauto. }
    rewrite E. reflexivity.
  - intros n Hn. eapply well_formed_gap_recorded.
    exact (analyze_narratives_well_formed_aux brands theme_insights n Hn).
Qed.

End InsightsOfNarratives.

Lemma matrix_fold narratives : forall acc,
  NoDup (map attribute narratives) ->
  let matrix :=
    fold_left
      (fun matrix narrative =>
         Dict.set (attribute narrative) (brand_ownership narrative) matrix)
      narratives acc in
  (forall n, In n narratives ->
     Dict.get (attribute n) matrix = Some (brand_ownership n))
  /\ (forall a, ~ In a (map attribute narratives) ->
        Dict.get a matrix = Dict.get a acc).
Proof.
  induction narratives as [|x l IH]; intros acc Hn; cbn [fold_left].
  - split; [intros n [] | reflexivity].
  - inversion Hn as [|? ? Hx Hl]; subst.
    destruct (IH (Dict.set (attribute x) (brand_ownership x) acc) Hl)
      as [H1 H2].
    split.
    + intros n [<-|Hin]; [|now apply H1].
      rewrite (H2 _ Hx). apply DictFacts.get_set_same.
    + intros a Ha. rewrite H2 by (intro; apply Ha; now right).
      apply DictFacts.get_set_other. intros ->. apply Ha. now left.
Qed.

(** X21: for narratives with distinct attributes,
    [create_narrative_matrix] has one row per narrative, filed under its
    attribute and holding its ownership scores, and no other row. *)
Theorem narrative_matrix_rows (narratives : list NarrativeAnalysis) :
  NoDup (map attribute narratives) ->
  (forall n, In n narratives ->
     Dict.get (attribute n) (create_narrative_matrix narratives)
     = Some (brand_ownership n))
  /\ (forall a, ~ In a (map attribute narratives) ->
        Dict.get a (create_narrative_matrix narratives) = None).
Proof.
  intro Hn. destruct (matrix_fold narratives Dict.empty Hn) as [H1 H2].
  unfold create_narrative_matrix.
  split; [exact H1|]. intros a Ha. exact (H2 a Ha).
Qed.

Lemma narrative_matrix_rows_witness :
  Dict.get "Value Proposition" (create_narrative_matrix sample_narratives)
  = Some [("Telekom", PyFloat.Fin (10 # 100)); ("O2", PyFloat.Fin (30 # 100))].
Proof.
  destruct (narrative_matrix_rows sample_narratives) as [H _].
  - repeat constructor; simpl; intuition discriminate.
  - apply (H (nth 1 sample_narratives
                (mkNarrativeAnalysis "" [] "" PyFloat.NaN [] []))).
    simpl; auto.
Defined.

End NarrativeFacts.

(** ** monitor.py: surveys and reports *)

Section SurveyFacts.

Import SOMMonitor StorageManager SOMSurvey.

Lemma fold_add_shift (m : list Z) : forall z,
  fold_left Z.add m z = z + fold_left Z.add m 0.
Proof.
  induction m as [|a m IH]; intro z; cbn [fold_left]; [lia|].
  rewrite (IH (z + a)), (IH (0 + a)). lia.
Qed.

Lemma sum_cons (a : Z) (m : list Z) : PyList.sum (a :: m) = a + PyList.sum m.
Proof.
  unfold PyList.sum. cbn [fold_left]. rewrite fold_add_shift. lia.
Qed.

(** A loop whose body never raises, advances a counter by [k x] and adds
    at most [k x] elements, each satisfying [P x], does the same for the
    whole list. *)
Lemma loop_counts {A S R} (body : S -> A -> S * option exn)
    (counter : S -> Z) (items : S -> list R) (k : A -> Z)
    (P : A -> R -> Prop) (l : list A) :
  (forall x, In x l -> 0 <= k x) ->
  (forall x st, In x l ->
     exists st' added,
       body st x = (st', None)
       /\ counter st' = counter st + k x
       /\ items st' = (items st ++ added)%list
       /\ Z.of_nat (List.length added) <= k x
       /\ Forall (P x) added) ->
  forall st,
    exists st' added,
      loop body l st = (st', None)
      /\ counter st' = counter st + PyList.sum (map k l)
      /\ items st' = (items st ++ added)%list
      /\ Z.of_nat (List.length added) <= PyList.sum (map k l)
      /\ Forall (fun r => exists x, In x l /\ P x r) added.
Proof.
  unfold PyList.sum.
  induction l as [|x l IH]; intros Hk Hbody st.
  - exists st, []. cbn. rewrite app_nil_r. repeat split; auto; lia.
  - destruct (Hbody x st (or_introl eq_refl))
      as [st1 [added1 [E1 [C1 [I1 [L1 F1]]]]]].
    destruct (IH (fun y Hy => Hk y (or_intror Hy))
                 (fun y s Hy => Hbody y s (or_intror Hy)) st1)
      as [st2 [added2 [E2 [C2 [I2 [L2 F2]]]]]].
    exists st2, (added1 ++ added2)%list.
    cbn [loop map fold_left]. rewrite E1, E2.
    assert (Hs : fold_left Z.add (map k l) (0 + k x)
                 = k x + fold_left Z.add (map k l) 0)
      by (rewrite (fold_add_shift (map k l) (0 + k x)); lia).
    rewrite Hs. split; [reflexivity|]. split; [lia|].
    split; [rewrite I2, I1, app_assoc; reflexivity|].
    split; [rewrite List.length_app; lia|].
    apply Forall_app. split.
    + eapply Forall_impl; [|exact F1]. intros r Hr. exists x. split; auto.
      now left.
    + eapply Forall_impl; [|exact F2]. intros r [y [Hy Hr]]. exists y.
      split; auto. now right.
Qed.

Lemma sum_map_const {A} (c : Z) (l : list A) :
  PyList.sum (map (fun _ => c) l) = PyList.len l * c.
Proof.
  induction l as [|x l IH]; [reflexivity|].
  cbn [map]. rewrite sum_cons, IH. unfold PyList.len. cbn [List.length]. lia.
Qed.

Lemma sum_map_scale {A} (f : A -> Z) (c : Z) (l : list A) :
  PyList.sum (map (fun x => f x * c) l) = PyList.sum (map f l) * c.
Proof.
  induction l as [|x l IH]; [reflexivity|].
  cbn [map]. rewrite !sum_cons, IH. lia.
Qed.

Lemma range_length n : 0 <= n -> PyList.len (range n) = n.
Proof.
  intro H. unfold PyList.len, range. rewrite length_map, length_seq. lia.
Qed.

Lemma in_range n i : In i (range n) -> 0 <= i < n.
Proof.
  unfold range. intro H. apply in_map_iff in H. destruct H as [j [<- Hj]].
  apply in_seq in Hj. lia.
Qed.

Variable read_csv : file_content -> result (list HistoryRow).
Variable ENABLED_CATEGORIES : dict bool.
Variable QUERY_TEMPLATES : dict (list string).
Variable Client : Type.
Variable create : string -> result Client.
Variable client_query : Client -> string -> string -> Client * option string.

#[local] Abbreviation Progress := (SOMSurvey.Progress Client).
#[local] Abbreviation ask := (SOMSurvey.ask Client client_query).
#[local] Abbreviation templates := (SOMSurvey.templates QUERY_TEMPLATES).

Lemma ask_step brands ts prov cat q run (st : Progress) m :
  exists st' added,
    ask brands ts prov cat q run st m = (st', None)
    /\ pg_current _ st' = pg_current _ st + 1
    /\ pg_results _ st' = (pg_results _ st ++ added)%list
    /\ Z.of_nat (List.length added) <= 1
    /\ Forall (answer_of brands ts prov cat q run m) added.
Proof.
  unfold SOMSurvey.ask.
  destruct (client_query (pg_client _ st) q m) as [client [response|]].
  - destruct response as [|c response].
    + eexists; exists []. cbn. rewrite app_nil_r. repeat split; auto; lia.
    + destruct (analyze_total brands (String c response))
        as [order [E _]].
      rewrite E. eexists; eexists. split; [reflexivity|].
      cbn [pg_current pg_results].
      split; [reflexivity|]. split; [reflexivity|]. split; [cbn; lia|].
      constructor; [|constructor]. unfold answer_of. cbn.
      repeat split; auto. discriminate.
  - eexists; exists []. cbn. rewrite app_nil_r. repeat split; auto; lia.
Qed.

Lemma survey_loop_steps brands ts prov categories runs models :
  0 <= runs ->
  forall st : Progress,
    exists st' added,
      survey_loop QUERY_TEMPLATES Client client_query brands ts prov
        categories runs models st
      = (st', None)
      /\ pg_current _ st'
         = pg_current _ st
           + total_queries_of QUERY_TEMPLATES categories runs models
      /\ pg_results _ st' = (pg_results _ st ++ added)%list
      /\ Z.of_nat (List.length added)
         <= total_queries_of QUERY_TEMPLATES categories runs models
      /\ Forall (collected_in QUERY_TEMPLATES brands ts prov categories runs
                   models) added.
Proof.
  intros Hruns st. unfold survey_loop, total_queries_of.
  set (per_query := runs * PyList.len models).
  assert (Hpq : 0 <= per_query) by (unfold per_query, PyList.len; nia).
  destruct (loop_counts
              (fun st category =>
                 loop (fun st query =>
                         loop (fun st run =>
                                 loop (ask brands ts prov category query run)
                                      models st)
                              (range runs) st)
                      (templates category) st)
              (pg_current Client) (pg_results Client)
              (fun cat => PyList.len (templates cat) * per_query)
              (fun cat r => category r = cat
                            /\ collected_in QUERY_TEMPLATES brands ts prov
                                 categories runs models r)
              categories) with (st := st)
    as [st' [added [E [C [I [L F]]]]]].
  - intros cat _. unfold PyList.len. nia.
  - intros cat st0 Hcat.
    destruct (loop_counts
                (fun st query =>
                   loop (fun st run =>
                           loop (ask brands ts prov cat query run) models st)
                        (range runs) st)
                (pg_current Client) (pg_results Client)
                (fun _ => per_query)
                (fun q r => query r = q /\ category r = cat
                            /\ collected_in QUERY_TEMPLATES brands ts prov
                                 categories runs models r)
                (templates cat)) with (st := st0)
      as [st1 [added1 [E1 [C1 [I1 [L1 F1]]]]]].
    + intros; exact Hpq.
    + intros q st2 Hq.
      destruct (loop_counts
                  (fun st run =>
                     loop (ask brands ts prov cat q run) models st)
                  (pg_current Client) (pg_results Client)
                  (fun _ => PyList.len models)
                  (fun run0 r => 0 <= run r < runs
                                 /\ exists m, In m models
                                      /\ answer_of brands ts prov cat q
                                           run0 m r)
                  (range runs)) with (st := st2)
        as [st3 [added3 [E3 [C3 [I3 [L3 F3]]]]]].
      * intros; unfold PyList.len; lia.
      * intros run0 st4 Hrun.
        destruct (loop_counts (ask brands ts prov cat q run0)
                    (pg_current Client) (pg_results Client)
                    (fun _ => 1)
                    (fun m r => answer_of brands ts prov cat q run0 m r)
                    models) with (st := st4)
          as [st5 [added5 [E5 [C5 [I5 [L5 F5]]]]]].
        -- intros; lia.
        -- intros m st6 _. apply ask_step.
        -- rewrite sum_map_const, Z.mul_1_r in C5, L5.
           exists st5, added5. repeat split; auto.
           eapply Forall_impl; [|exact F5].
           intros r [m [Hm Hr]]. split; [|eauto].
           destruct Hr as [_ [_ [_ [_ [-> _]]]]]. now apply in_range.
      * rewrite sum_map_const, (range_length runs Hruns) in C3, L3.
        exists st3, added3. repeat split; auto.
        eapply Forall_impl; [|exact F3].
        intros r [run0 [_ [Hr [m [Hm Ha]]]]].
        destruct Ha as [H1 [H2 [H3 [H4 [H5 [H6 [H7 H8]]]]]]].
        split; [exact H4|]. split; [exact H3|].
        unfold collected_in. rewrite H3, H4, H6.
        repeat split; auto; lia.
    + rewrite sum_map_const in C1, L1.
      exists st1, added1. repeat split; auto.
      eapply Forall_impl; [|exact F1].
      intros r [q [_ [_ [Hc Hr]]]]. auto.
  - rewrite sum_map_scale in C, L.
    exists st', added. unfold per_query in *.
    split; [exact E|]. split; [lia|]. split; [exact I|]. split; [lia|].
    eapply Forall_impl; [|exact F]. intros r [cat [_ [_ Hr]]]. exact Hr.
Qed.

(** X22: with a non-negative number of runs the loops of [run_survey]
    never raise; the progress counter ends at [total_queries] above its
    start, and the records added are at most that many, each one the
    analysis of a non-empty answer to a template of a surveyed category,
    for a run in range and one of the models. *)
Theorem survey_loop_reaches_total (brands : list string)
    (timestamp provider : string) (categories : list string)
    (runs_per_query : Z) (models : list string) (st : Progress) :
  0 <= runs_per_query ->
  exists st' added,
    survey_loop QUERY_TEMPLATES Client client_query brands timestamp provider
      categories runs_per_query models st
    = (st', None)
    /\ pg_current _ st'
       = pg_current _ st
         + total_queries_of QUERY_TEMPLATES categories runs_per_query models
    /\ pg_results _ st' = (pg_results _ st ++ added)%list
    /\ Z.of_nat (List.length added)
       <= total_queries_of QUERY_TEMPLATES categories runs_per_query models
    /\ Forall (collected_in QUERY_TEMPLATES brands timestamp provider
                 categories runs_per_query models) added.
Proof.
  intro H. now apply survey_loop_steps.
Qed.



(** X24: [generate_report] raises [ValueError] for an empty collection;
    for any other it returns a report carrying the provider and model of
    the first record and the number of records, and every tracked brand has
    an entry in its metrics whose [total_queries] is that number. *)
Theorem generate_report_totals (now : string) (brands : list string)
    (results : list QueryResult) :
  (results = [] -> exists msg,
     generate_report now brands results = Raise (ValueError msg))
  /\ forall first rest, results = first :: rest ->
       exists report,
         generate_report now brands results = Ok report
         /\ report_timestamp report = now
         /\ report_provider report = provider first
         /\ report_model report = model first
         /\ report_total_queries report = Z.of_nat (List.length results)
         /\ forall b,
              (In b brands ->
               exists sm,
                 Dict.get b (report_metrics report) = Some sm
                 /\ brand sm = b
                 /\ total_queries sm = report_total_queries report)
              /\ (~ In b brands -> Dict.get b (report_metrics report) = None).
Proof.
  split.
  - intros ->. cbn. eauto.
  - intros first rest ->.
    destruct (calculate_som_entries brands (first :: rest))
      as [metrics [Hm [Hin Hout]]]; [discriminate|].
    unfold generate_report. rewrite Hm. cbn [bind].
    eexists. split; [reflexivity|]. cbn.
    repeat split; auto.
    intro Hb. destruct (Hin b Hb) as [sm [Hg [[H1 [_ [_ [_ H5]]]] _]]].
    exists sm. repeat split; auto.
Qed.

End SurveyFacts.

(** A client that answers every query with the same sentence, and a
    configuration with one enabled category of two templates. *)
Lemma survey_loop_reaches_total_witness :
  exists st',
    SOMSurvey.survey_loop [("general", ["Q1"; "Q2"])] nat
      (fun n _ _ => (S n, Some "Telekom und O2"))
      ["Telekom"; "O2"] "2025-01-01T00:00:00" "openai" ["general"] 3
      ["gpt-4o"] (SOMSurvey.mkProgress nat 0%nat 0 [])
    = (st', None)
    /\ SOMSurvey.pg_current _ st' = 6.
Proof.
  destruct (survey_loop_reaches_total [("general", ["Q1"; "Q2"])] nat
              (fun n _ _ => (S n, Some "Telekom und O2"))
              ["Telekom"; "O2"] "2025-01-01T00:00:00" "openai" ["general"] 3
              ["gpt-4o"] (SOMSurvey.mkProgress nat 0%nat 0 []))
    as [st' [added [E [C _]]]]; [lia|].
  exists st'. split; [exact E|]. rewrite C. reflexivity.
Defined.


(** ** theme_analyzer.py: competitive quotes *)

Section CompetitiveQuotes.

Import ThemeQuotes.

Lemma scan_sentences_spec brand r limit
    (Hr : exists m, Dict.get brand (mentions r) = Some m
                    /\ mentioned m = true) :
  forall all_sentences sentences quotes,
    (forall s, In s sentences -> In s all_sentences) ->
    PyList.len quotes < limit \/ quotes = [] ->
    exists added,
      scan_sentences brand r limit sentences quotes = (quotes ++ added)%list
      /\ PyList.len (quotes ++ added)%list <= Z.max 1 limit
      /\ Forall (fun q => exists sentence,
                   In sentence all_sentences
                   /\ PyStr.contains (PyStr.lower brand) (PyStr.lower sentence)
                      = true
                   /\ 10 < word_count sentence false
                   /\ q = quote_of r sentence) added.
Proof.
  intro all_sentences.
  induction sentences as [|s rest IH]; intros quotes Hsub Hopen.
  - exists []. rewrite app_nil_r. cbn [scan_sentences].
    split; [reflexivity|]. split; [|constructor].
    destruct Hopen as [H| ->]; [lia | cbn; lia].
  - cbn [scan_sentences].
    assert (Hrest : forall s', In s' rest -> In s' all_sentences)
      by (intros s' Hs'; apply Hsub; now right).
    destruct (PyStr.contains (PyStr.lower brand) (PyStr.lower s)) eqn:Ec;
      [|now apply IH].
    destruct (10 <? word_count s false) eqn:Ew.
    + assert (Hlen : PyList.len (quotes ++ [quote_of r s])%list
                     = PyList.len quotes + 1).
      { unfold PyList.len. rewrite List.length_app. cbn [List.length]. lia. }
      assert (Hq : exists sentence,
                 In sentence all_sentences
                 /\ PyStr.contains (PyStr.lower brand) (PyStr.lower sentence)
                    = true
                 /\ 10 < word_count sentence false
                 /\ quote_of r s = quote_of r sentence).
      { exists s. split; [apply Hsub; now left|]. split; [exact Ec|].
        split; [now apply Z.ltb_lt | reflexivity]. }
      destruct (Z.leb_spec limit (PyList.len (quotes ++ [quote_of r s])%list))
        as [Hge|Hlt].
      * exists [quote_of r s]. split; [reflexivity|]. split.
        -- rewrite Hlen. destruct Hopen as [H| ->]; [lia | cbn; lia].
        -- constructor; [exact Hq | constructor].
      * destruct (IH (quotes ++ [quote_of r s])%list Hrest (or_introl Hlt))
          as [added [E [L F]]].
        exists (quote_of r s :: added).
        replace (quotes ++ quote_of r s :: added)%list
          with ((quotes ++ [quote_of r s]) ++ added)%list
          by (rewrite <- app_assoc; reflexivity).
        split; [exact E|]. split; [exact L|]. constructor; [exact Hq|exact F].
    + destruct (Z.leb_spec limit (PyList.len quotes)) as [Hge|Hlt].
      * exists []. rewrite app_nil_r. split; [reflexivity|].
        split; [|constructor].
        destruct Hopen as [H| ->]; [lia | cbn; lia].
      * now apply IH; [|left].
Qed.

Lemma scan_results_spec brand limit : forall all_results results quotes,
  (forall r, In r results -> In r all_results) ->
  (forall r, In r results -> Dict.has brand (mentions r) = true) ->
  PyList.len quotes < limit \/ quotes = [] ->
  exists added,
    scan_results brand limit results quotes = Ok (quotes ++ added)%list
    /\ PyList.len (quotes ++ added)%list <= Z.max 1 limit
    /\ Forall (fun q => exists r, In r all_results /\ quote_from brand r q)
         added.
Proof.
  intro all_results.
  induction results as [|r rest IH]; intros quotes Hsub Hhas Hopen.
  - exists []. rewrite app_nil_r. cbn [scan_results].
    split; [reflexivity|]. split; [|constructor].
    destruct Hopen as [H| ->]; [lia | cbn; lia].
  - cbn [scan_results].
    assert (Hsub' : forall r', In r' rest -> In r' all_results)
      by (intros r' Hr'; apply Hsub; now right).
    assert (Hhas' : forall r', In r' rest ->
                      Dict.has brand (mentions r') = true)
      by (intros r' Hr'; apply Hhas; now right).
    pose proof (Hhas r (or_introl eq_refl)) as Hb.
    apply has_iff_get in Hb. destruct Hb as [m Hm].
    unfold subscript. rewrite Hm. cbn [bind].
    destruct (mentioned m) eqn:Em; cbn [negb]; [|now apply IH].
    destruct (scan_sentences_spec brand r limit
                (ex_intro _ m (conj Hm Em))
                (_split_into_sentences (response r))
                (_split_into_sentences (response r)) quotes
                (fun s H => H) Hopen)
      as [added [E [L F]]].
    rewrite E.
    assert (F' : Forall (fun q => exists r0, In r0 all_results
                                   /\ quote_from brand r0 q) added).
    { eapply Forall_impl; [|exact F]. intros q Hq. exists r.
      split; [apply Hsub; now left|]. split; [eauto | exact Hq]. }
    destruct (Z.leb_spec limit (PyList.len (quotes ++ added)%list))
      as [Hge|Hlt].
    + exists added. auto.
    + destruct (IH (quotes ++ added)%list Hsub' Hhas' (or_introl Hlt))
        as [added' [E' [L' F'']]].
      exists (added ++ added')%list. rewrite app_assoc.
      split; [exact E'|]. split; [exact L'|].
      apply Forall_app. auto.
Qed.

(** X25: when every record has an entry for the brand,
    [extract_competitive_quotes] returns at most [limit] quotes, or at most
    one when the limit is below one; each quote is a sentence of more than
    ten words that names the brand, stripped, from the response of a record
    flagged as mentioning the brand. *)
Theorem competitive_quotes_bounded (results : list QueryResult)
    (brand : string) (limit : Z) :
  (forall r, In r results -> Dict.has brand (mentions r) = true) ->
  exists quotes,
    extract_competitive_quotes results brand limit = Ok quotes
    /\ Z.of_nat (List.length quotes) <= Z.max 1 limit
    /\ Forall (fun q => exists r, In r results /\ quote_from brand r q) quotes.
Proof.
  intro Hhas. unfold extract_competitive_quotes.
  destruct (scan_results_spec brand limit results results []
              (fun r H => H) Hhas (or_intror eq_refl))
    as [added [E [L F]]].
  exists added. cbn [app] in *. auto.
Qed.

Lemma competitive_quotes_bounded_witness :
  exists quotes,
    extract_competitive_quotes
      [mkQueryResult "2025-01-01T00:00:00" "general" "Which provider?" 0
         "gpt-4o" "openai"
         "Telekom has the best network in all of Germany by a wide margin. O2 is cheap, and Telekom is not as cheap as the others are right now!"
         [("Telekom", mkBrandMention true (Some 0) 2)] ["Telekom"] 1]
      "Telekom" 0
    = Ok quotes
    /\ Z.of_nat (List.length quotes) <= 1.
Proof.
  destruct (competitive_quotes_bounded
              [mkQueryResult "2025-01-01T00:00:00" "general" "Which provider?"
                 0 "gpt-4o" "openai"
                 "Telekom has the best network in all of Germany by a wide margin. O2 is cheap, and Telekom is not as cheap as the others are right now!"
                 [("Telekom", mkBrandMention true (Some 0) 2)] ["Telekom"] 1]
              "Telekom" 0) as [quotes [E [L _]]].
  - intros r [<-|[]]. reflexivity.
  - exists quotes. split; [exact E | exact L].
Defined.

Lemma scan_results_raise brand limit : forall results quotes e,
  scan_results brand limit results quotes = Raise e ->
  e = KeyError brand
  /\ exists r, In r results /\ Dict.get brand (mentions r) = None.
Proof.
  induction results as [|r rest IH]; intros quotes e; cbn [scan_results];
    [discriminate|].
  unfold subscript.
  destruct (Dict.get brand (mentions r)) as [m|] eqn:Eg; cbn [bind].
  - destruct (negb (mentioned m)).
    + intro H. destruct (IH _ _ H) as [He [r' [Hr' Hn]]].
      split; [exact He|]. exists r'. split; [now right | exact Hn].
    + destruct (limit <=? _); [discriminate|].
      intro H. destruct (IH _ _ H) as [He [r' [Hr' Hn]]].
      split; [exact He|]. exists r'. split; [now right | exact Hn].
  - intro H. inversion H. split; [reflexivity|].
    exists r. split; [now left | exact Eg].
Qed.

(** X26: the only exception that [extract_competitive_quotes] raises is
    [KeyError] for the brand, and only when a record has no entry for it;
    it does raise when the first record has none, even if no later record
    would have been read. *)
Theorem competitive_quotes_key_error (results : list QueryResult)
    (brand : string) (limit : Z) :
  (forall e,
     extract_competitive_quotes results brand limit = Raise e ->
     e = KeyError brand
     /\ exists r, In r results /\ Dict.get brand (mentions r) = None)
  /\ (forall r rest,
        results = r :: rest -> Dict.get brand (mentions r) = None ->
        extract_competitive_quotes results brand limit
        = Raise (KeyError brand)).
Proof.
  split.
  - intros e H. exact (scan_results_raise brand limit results [] e H).
  - intros r rest -> Hn. unfold extract_competitive_quotes.
    cbn [scan_results]. unfold subscript. rewrite Hn. reflexivity.
Qed.

End CompetitiveQuotes.

(** ** theme_analyzer.py: sentiment of the quotes *)

Section Sentiment.

Import ThemeAnalyzer.

Lemma count_words_pos words text :
  0 < count_words words text ->
  exists w, In w words /\ PyStr.contains w text = true.
Proof.
  unfold count_words. intro H.
  destruct (filter (fun word => PyStr.contains word text) words)
    as [|w ws] eqn:E; [cbn in H; lia|].
  assert (Hin : In w (filter (fun word => PyStr.contains word text) words))
    by (rewrite E; now left).
  apply filter_In in Hin. exists w. exact Hin.
Qed.

Lemma count_words_none words text :
  (forall w, In w words -> PyStr.contains w text = false) ->
  count_words words text = 0.
Proof.
  intro H. unfold count_words.
  induction words as [|w ws IH]; [reflexivity|]. cbn [filter].
  rewrite (H w (or_introl eq_refl)). apply IH.
  intros w' Hw'. apply H. now right.
Qed.

Lemma count_words_nonneg words text : 0 <= count_words words text.
Proof. unfold count_words. lia. Qed.

(** X27: [_estimate_sentiment] answers with one of three labels; it
    never answers [positive] unless the quotes hold one of the positive
    words, nor [negative] unless they hold one of the negative words, and
    quotes holding none of the words are [neutral]. *)
Theorem sentiment_needs_words (quotes : list string) :
  let text := PyStr.lower (String.concat " " quotes) in
  let positive_words :=
    ["best"; "excellent"; "great"; "good"; "recommended";
     "strong"; "leading"; "top"; "superior"; "outstanding"] in
  let negative_words :=
    ["poor"; "bad"; "worst"; "avoid"; "limited";
     "weak"; "lacking"; "disappointing"; "issues"] in
  In (_estimate_sentiment quotes) ["positive"; "negative"; "neutral"]
  /\ (_estimate_sentiment quotes = "positive" ->
      exists w, In w positive_words /\ PyStr.contains w text = true)
  /\ (_estimate_sentiment quotes = "negative" ->
      exists w, In w negative_words /\ PyStr.contains w text = true)
  /\ ((forall w, In w (positive_words ++ negative_words)%list ->
         PyStr.contains w text = false) ->
      _estimate_sentiment quotes = "neutral").
Proof.
  intros text positive_words negative_words.
  destruct quotes as [|q qs].
  - cbn [_estimate_sentiment].
    split; [right; right; left; reflexivity|].
    split; [discriminate|]. split; [discriminate | reflexivity].
  - assert (E : _estimate_sentiment (q :: qs)
                = if count_words negative_words text * 2
                     <? count_words positive_words text
                  then "positive"
                  else if count_words positive_words text * 2
                          <? count_words negative_words text
                       then "negative" else "neutral") by reflexivity.
    rewrite E. clear E.
    pose proof (count_words_nonneg positive_words text) as Hp.
    pose proof (count_words_nonneg negative_words text) as Hn.
    destruct (Z.ltb_spec (count_words negative_words text * 2)
                (count_words positive_words text)) as [H1|H1];
      [|destruct (Z.ltb_spec (count_words positive_words text * 2)
                   (count_words negative_words text)) as [H2|H2]].
    + split; [left; reflexivity|].
      split; [intros _; apply count_words_pos; lia|].
      split; [discriminate|].
      intro Hnone. rewrite (count_words_none positive_words text) in H1; [lia|].
      intros w Hw. apply Hnone, in_or_app. now left.
    + split; [right; left; reflexivity|].
      split; [discriminate|].
      split; [intros _; apply count_words_pos; lia|].
      intro Hnone. rewrite (count_words_none negative_words text) in H2; [lia|].
      intros w Hw. apply Hnone, in_or_app. now right.
    + split; [right; right; left; reflexivity|].
      split; [discriminate|]. split; [discriminate | reflexivity].
Qed.

End Sentiment.
